(** * Medit / Gamma Mesh Format codec (meshio/medit/_medit.py)

    A shallow embedding of the reader and the writer of the Medit mesh
    format, ASCII ([.mesh]) and binary ([.meshb]), and the properties of
    the codec that its specification states.

    Conventions of the embedding:
    - Python exceptions are the [Raise] case of [result]; [warn] appends
      to a list of messages that every reader and writer returns;
    - a text file is a [string], a binary file a [list byte];
    - a [dict] is an association list in insertion order;
    - numpy integers are [Z] with the wrap-around of their dtype written
      out ([wrap_int]); floating-point values are [spec_float]. *)

From Stdlib Require Import ZArith List Bool Ascii String Lia.
From Stdlib Require Import Decimal DecimalString DecimalZ DecimalPos.
From Stdlib Require Import Floats.SpecFloat.
From coqutil Require Import Word.LittleEndianList Byte.
Import ListNotations.

Local Open Scope string_scope.
Local Open Scope Z_scope.

(* ===================================================================== *)
(** * Exceptions and results *)
(* ===================================================================== *)

(** The exceptions the module can end with: [ReadError] is the module's
    own fatal format error, the others are raised by Python or numpy. *)
Inductive exn : Type :=
| ReadError (msg : string)
| ValueError
| KeyError
| IndexError
| TypeError.

Inductive result (A : Type) : Type :=
| Ok (a : A)
| Raise (e : exn).

Arguments Ok {A} a.
Arguments Raise {A} e.

Definition bind {A B : Type} (r : result A) (k : A -> result B) : result B :=
  match r with
  | Ok a => k a
  | Raise e => Raise e
  end.

Notation "x <- c1 ;; c2" := (bind c1 (fun x => c2))
  (at level 61, c1 at next level, right associativity).
Notation "' pat <- c1 ;; c2" := (bind c1 (fun x => match x with pat => c2 end))
  (at level 61, pat pattern, c1 at next level, right associativity).

Definition is_ok {A : Type} (r : result A) : bool :=
  match r with Ok _ => true | Raise _ => false end.

Definition is_read_error {A : Type} (r : result A) : bool :=
  match r with Raise (ReadError _) => true | _ => false end.

Definition of_option {A : Type} (e : exn) (o : option A) : result A :=
  match o with Some a => Ok a | None => Raise e end.

(* ===================================================================== *)
(** * Python strings and dictionaries *)
(* ===================================================================== *)

(** [str(n)] and [format(n, "d")] of an integer. *)
Definition str_int (n : Z) : string := NilZero.string_of_int (Z.to_int n).

(** A [dict] keeps its keys in insertion order; assigning to a key that is
    present replaces the value in place. *)
Definition dict (V : Type) : Type := list (string * V).

Fixpoint dict_get {V : Type} (d : dict V) (k : string) : option V :=
  match d with
  | [] => None
  | (k', v) :: d' => if String.eqb k' k then Some v else dict_get d' k
  end.

Fixpoint dict_set {V : Type} (d : dict V) (k : string) (v : V) : dict V :=
  match d with
  | [] => [(k, v)]
  | (k', v') :: d' =>
      if String.eqb k' k then (k, v) :: d' else (k', v') :: dict_set d' k v
  end.

Definition dict_mem {V : Type} (d : dict V) (k : string) : bool :=
  match dict_get d k with Some _ => true | None => false end.

Definition dict_keys {V : Type} (d : dict V) : list string := map fst d.

(* ===================================================================== *)
(** * Element type registry *)
(* ===================================================================== *)

(** [DICT_MESHIO]: meshio name -> (medit keyword, nodes per element, tag). *)
Definition DICT_MESHIO : dict (string * Z * Z) :=
  [ ("point", ("Vertices", 0, 4));
    ("line", ("Edges", 2, 5));
    ("line3", ("EdgesP2", 3, 25));
    ("line4", ("EdgesP3", 4, 92));
    ("line5", ("EdgesP4", 5, 93));
    ("triangle", ("Triangles", 3, 6));
    ("triangle6", ("TrianglesP2", 6, 24));
    ("triangle10", ("TrianglesP3", 10, 90));
    ("triangle15", ("TrianglesP4", 15, 91));
    ("quad", ("Quadrilaterals", 4, 7));
    ("quad9", ("QuadrilateralsQ2", 9, 27));
    ("tetra", ("Tetrahedra", 4, 8));
    ("tetra10", ("TetrahedraP2", 10, 30));
    ("wedge", ("Prisms", 6, 9));
    ("wedge18", ("PrismsP2", 18, 86));
    ("pyramid", ("Pyramids", 5, 49));
    ("hexahedron", ("Hexahedra", 8, 10));
    ("hexahedron27", ("HexahedraQ2", 27, 33)) ].

(** The loop [for key, value in DICT_MESHIO.items()] that fills
    [DICT_MEDIT] and [DICT_GMFMEDIT], as a fold over the items. *)
Definition registry_step (acc : dict (string * Z * Z) * dict (string * Z * Z))
    (item : string * (string * Z * Z)) :=
  let '(key, (medit, nPe, tag)) := item in
  (dict_set (fst acc) medit (key, nPe, tag),
   dict_set (snd acc) ("Gmf" ++ medit) (key, nPe, tag)).

Definition registry_loop : dict (string * Z * Z) * dict (string * Z * Z) :=
  fold_left registry_step DICT_MESHIO ([], []).

(** [DICT_MEDIT]: medit keyword -> (meshio name, nodes per element, tag),
    with the alternate spelling [Hexaedra] added after the loop. *)
Definition DICT_MEDIT : dict (string * Z * Z) :=
  dict_set (fst registry_loop) "Hexaedra" ("hexahedron", 8, 10).

(** [DICT_GMFMEDIT]: Gmf keyword -> (meshio name, nodes per element, tag). *)
Definition DICT_GMFMEDIT : dict (string * Z * Z) :=
  dict_set (snd registry_loop) "GmfHexaedra" ("hexahedron", 8, 10).

(* ===================================================================== *)
(** * Record templates: [_produce_dtype] *)
(* ===================================================================== *)

Section ProduceDtype.

Variable dim : Z.
Variables itype ftype : string.

(** The [while c < len(string_type)] loop; [rest] is [string_type[c:]] and
    [res] the layout built so far.  After an ["i"] or an ["r"] the counter
    is advanced and a comma is added unless the end was reached; a ["d"]
    only adds [str(dim)] and advances. *)
Fixpoint produce_loop (rest : string) (res : string) : result string :=
  match rest with
  | EmptyString => Ok res
  | String s rest' =>
      let comma := match rest' with EmptyString => "" | _ => "," end in
      if Ascii.eqb s "i" then produce_loop rest' (res ++ itype ++ comma)
      else if Ascii.eqb s "r" then produce_loop rest' (res ++ ftype ++ comma)
      else if Ascii.eqb s "d" then produce_loop rest' (res ++ str_int dim)
      else Raise (ReadError "Invalid string type")
  end.

Definition _produce_dtype (string_type : string) : result string :=
  produce_loop string_type "".

(** What the layout is said to be: the template read as a sequence of
    fields, a field being a run of ["d"] closed by an ["i"] or an ["r"];
    each ["d"] puts [dim] in front of the field as a repeat count, the
    fields are joined by commas. *)
Fixpoint layout_fields (template : string) (prefix : string) : list string :=
  match template with
  | EmptyString => []
  | String s rest =>
      if Ascii.eqb s "i" then (prefix ++ itype) :: layout_fields rest ""
      else if Ascii.eqb s "r" then (prefix ++ ftype) :: layout_fields rest ""
      else layout_fields rest (prefix ++ str_int dim)
  end.

Definition layout_of_template (template : string) : string :=
  String.concat "," (layout_fields template "").

End ProduceDtype.

(** The characters of a template. *)
Definition template_char (c : ascii) : bool :=
  Ascii.eqb c "i" || Ascii.eqb c "r" || Ascii.eqb c "d".

Fixpoint string_forallb (p : ascii -> bool) (s : string) : bool :=
  match s with
  | EmptyString => true
  | String c s' => p c && string_forallb p s'
  end.

(** Every ["d"] is followed by another character. *)
Fixpoint d_followed (s : string) : bool :=
  match s with
  | EmptyString => true
  | String c s' =>
      (if Ascii.eqb c "d" then match s' with EmptyString => false | _ => true end
       else true) && d_followed s'
  end.

(* ===================================================================== *)
(** * numpy arrays *)
(* ===================================================================== *)

(** Integer and floating dtypes: signedness and item size in bytes.  The
    byte order of a dtype is no part of them: an array holds numbers,
    and two arrays that numpy gives the dtypes [<i4] and [>i4] have the
    same [int_dtype] here.  Equal dtypes here are equal kinds and widths. *)
Record int_dtype : Type := { signed : bool; isize : nat }.
Record float_dtype : Type := { fsize : nat }.

Definition int32 : int_dtype := {| signed := true; isize := 4 |}.
Definition int64 : int_dtype := {| signed := true; isize := 8 |}.
Definition float32 : float_dtype := {| fsize := 4 |}.
Definition float64 : float_dtype := {| fsize := 8 |}.

(** Arrays of one and of two dimensions.  A two-dimensional array keeps
    its number of columns (it has one also when it has no row). *)
Inductive ndarray : Type :=
| IVec (t : int_dtype) (v : list Z)
| FVec (t : float_dtype) (v : list spec_float)
| IMat (t : int_dtype) (ncols : nat) (rows : list (list Z))
| FMat (t : float_dtype) (ncols : nat) (rows : list (list spec_float)).

(** [len(a)]. *)
Definition np_len (a : ndarray) : nat :=
  match a with
  | IVec _ v => List.length v
  | FVec _ v => List.length v
  | IMat _ _ r => List.length r
  | FMat _ _ r => List.length r
  end.

(** [a.dtype.itemsize]. *)
Definition itemsize (a : ndarray) : nat :=
  match a with
  | IVec t _ | IMat t _ _ => isize t
  | FVec t _ | FMat t _ _ => fsize t
  end.

(** [a.dtype.kind in ["i", "u"]]. *)
Definition is_int_array (a : ndarray) : bool :=
  match a with
  | IVec _ _ | IMat _ _ _ => true
  | _ => false
  end.

(** Two's complement wrap-around of an integer dtype. *)
Definition wrap_int (t : int_dtype) (z : Z) : Z :=
  let m := 2 ^ (8 * Z.of_nat (isize t)) in
  if signed t then (z + m / 2) mod m - m / 2 else z mod m.

(** [a + k] for an integer [k], in the array's dtype: with wrap-around
    on integers, rounded on floats. *)
Definition float_add (t : float_dtype) (x : spec_float) (k : Z) : spec_float :=
  let prec := match fsize t with 2%nat => 11 | 4%nat => 24 | _ => 53 end in
  let emax := match fsize t with 2%nat => 16 | 4%nat => 128 | _ => 1024 end in
  SFadd prec emax x (binary_normalize prec emax k 0 false).

Definition np_add (a : ndarray) (k : Z) : ndarray :=
  match a with
  | IVec t v => IVec t (map (fun z => wrap_int t (z + k)) v)
  | IMat t c r => IMat t c (map (map (fun z => wrap_int t (z + k))) r)
  | FVec t v => FVec t (map (fun x => float_add t x k) v)
  | FMat t c r => FMat t c (map (map (fun x => float_add t x k)) r)
  end.

(** Rectangular arrays: every row of a matrix has [ncols] entries. *)
Definition rect {A : Type} (ncols : nat) (rows : list (list A)) : Prop :=
  Forall (fun r => List.length r = ncols) rows.

Definition wf_array (a : ndarray) : Prop :=
  match a with
  | IMat _ c r => rect c r
  | FMat _ c r => rect c r
  | _ => True
  end.

(** One row indexed by a list of positions ([row[idx]]). *)
Definition select {A : Type} (idx : list nat) (row : list A) : list A :=
  flat_map (fun j => match nth_error row j with Some x => [x] | None => [] end) idx.

(** [data[:, idx]]: the columns of a matrix picked by a list of positions;
    a position past the last column is an [IndexError]. *)
Definition take_columns (data : ndarray) (idx : list nat) : result ndarray :=
  match data with
  | IMat t c r =>
      if forallb (fun j => Nat.ltb j c) idx
      then Ok (IMat t (List.length idx) (map (select idx) r))
      else Raise IndexError
  | FMat t c r =>
      if forallb (fun j => Nat.ltb j c) idx
      then Ok (FMat t (List.length idx) (map (select idx) r))
      else Raise IndexError
  | _ => Raise IndexError
  end.

(* ===================================================================== *)
(** * Cell reordering *)
(* ===================================================================== *)

(** [_medit_to_meshio]: the node order of a 27-node hexahedron. *)
Definition _medit_to_meshio : dict (list nat) :=
  [ ("hexahedron27", (seq 0 20 ++ [25; 23; 22; 24; 20; 21; 26])%nat%list) ].

(** [order.index(i)]. *)
Fixpoint list_index (i : nat) (order : list nat) : result nat :=
  match order with
  | [] => Raise ValueError
  | x :: order' =>
      if Nat.eqb x i then Ok 0%nat
      else (k <- list_index i order' ;; Ok (S k))
  end.

Fixpoint mapM {A B : Type} (f : A -> result B) (l : list A) : result (list B) :=
  match l with
  | [] => Ok []
  | a :: l' => b <- f a ;; bs <- mapM f l' ;; Ok (b :: bs)
  end.

(** The dict comprehension that builds [_meshio_to_medit] when the module
    is loaded: [[order.index(i) for i in range(len(order))]] per entry. *)
Definition invert_order (order : list nat) : result (list nat) :=
  mapM (fun i => list_index i order) (seq 0 (List.length order)).

Definition _meshio_to_medit_comprehension : result (dict (list nat)) :=
  mapM (fun item : string * list nat =>
          inv <- invert_order (snd item) ;; Ok (fst item, inv))
       _medit_to_meshio.

Definition _meshio_to_medit : dict (list nat) :=
  match _meshio_to_medit_comprehension with
  | Ok d => d
  | Raise _ => []
  end.

Definition _convert_cell_data (cell_type : string) (data : ndarray)
    (dict_convert : dict (list nat)) : result ndarray :=
  match dict_get dict_convert cell_type with
  | Some idx => take_columns data idx
  | None => Ok data
  end.

(** A cell block: [type] and [data]. *)
Record CellBlock : Type := { cb_type : string; cb_data : ndarray }.

(** [_convert_cells] rewrites the list entry by entry, in place. *)
Definition _convert_cells (cells : list CellBlock) (dict_convert : dict (list nat))
  : result (list CellBlock) :=
  mapM (fun cell =>
          data <- _convert_cell_data (cb_type cell) (cb_data cell) dict_convert ;;
          Ok {| cb_type := cb_type cell; cb_data := data |})
       cells.

(** The two orders of the 27-node hexahedron, and a table applied to
    one row of node indices. *)
Definition hexa27_in : list nat :=
  match dict_get _medit_to_meshio "hexahedron27" with Some l => l | None => [] end.

Definition hexa27_out : list nat :=
  match dict_get _meshio_to_medit "hexahedron27" with Some l => l | None => [] end.

(** The number of columns of a matrix, when it is one. *)
Definition columns (a : ndarray) : option nat :=
  match a with
  | IMat _ c _ | FMat _ c _ => Some c
  | _ => None
  end.

(** The rows of a block, as lists of node indices. *)
Definition apply_order (cell_type : string) (table : dict (list nat))
    {A : Type} (row : list A) : list A :=
  match dict_get table cell_type with
  | Some idx => select idx row
  | None => row
  end.

(* ===================================================================== *)
(** * Floating-point values *)
(* ===================================================================== *)

(** Precision and exponent bound of the IEEE format of a given size in
    bytes (binary16, binary32, binary64). *)
Definition float_prec (size : nat) : Z :=
  match size with 2%nat => 11 | 4%nat => 24 | _ => 53 end.
Definition float_emax (size : nat) : Z :=
  match size with 2%nat => 16 | 4%nat => 128 | _ => 1024 end.

(** The value whose IEEE interchange encoding is the [8 * size]-bit
    pattern [bits]. *)
Definition float_of_bits (size : nat) (bits : Z) : spec_float :=
  let prec := float_prec size in
  let emax := float_emax size in
  let width := 8 * Z.of_nat size in
  let mw := prec - 1 in
  let ew := width - prec in
  let sign := Z.testbit bits (width - 1) in
  let e := (bits / 2 ^ mw) mod 2 ^ ew in
  let m := bits mod 2 ^ mw in
  if e =? 0 then
    match m with
    | Zpos p => S754_finite sign p (emin prec emax)
    | _ => S754_zero sign
    end
  else if e =? 2 ^ ew - 1 then
    (if m =? 0 then S754_infinity sign else S754_nan)
  else
    match m + 2 ^ mw with
    | Zpos p => S754_finite sign p (e + emin prec emax - 1)
    | _ => S754_nan
    end.

(** The IEEE interchange encoding of a value of the format. *)
Definition bits_of_float (size : nat) (x : spec_float) : Z :=
  let prec := float_prec size in
  let emax := float_emax size in
  let width := 8 * Z.of_nat size in
  let mw := prec - 1 in
  let ew := width - prec in
  let sbit (s : bool) := if s then 2 ^ (width - 1) else 0 in
  match x with
  | S754_zero s => sbit s
  | S754_infinity s => sbit s + (2 ^ ew - 1) * 2 ^ mw
  | S754_nan => (2 ^ ew - 1) * 2 ^ mw + 2 ^ (mw - 1)
  | S754_finite s m e =>
      if 2 ^ mw <=? Zpos m
      then sbit s + (e - emin prec emax + 1) * 2 ^ mw + (Zpos m - 2 ^ mw)
      else sbit s + Zpos m
  end.

(** Conversion of a floating-point value to the format of a given size
    (round to nearest even). *)
Definition cast_float (size : nat) (x : spec_float) : spec_float :=
  match x with
  | S754_finite s m e => binary_round (float_prec size) (float_emax size) s m e
  | other => other
  end.

(** Conversion of an integer to a floating-point format. *)
Definition float_of_int (size : nat) (z : Z) : spec_float :=
  binary_normalize (float_prec size) (float_emax size) z 0 false.

(** Conversion of a floating-point value to an integer dtype: truncation
    towards zero; a value that has no integer counterpart in the dtype
    gives the smallest integer of the dtype (the x86 "integer indefinite"
    value). *)
Definition trunc_float (x : spec_float) : option Z :=
  match x with
  | S754_zero _ => Some 0
  | S754_finite s m e =>
      let a := if 0 <=? e then Zpos m * 2 ^ e else Zpos m / 2 ^ (- e) in
      Some (if s then - a else a)
  | _ => None
  end.

Definition int_of_float (t : int_dtype) (x : spec_float) : Z :=
  let half := 2 ^ (8 * Z.of_nat (isize t) - 1) in
  match trunc_float x with
  | Some z => if (- half <=? z) && (z <? half) then z else - half
  | None => - half
  end.

(* ===================================================================== *)
(** * numpy dtypes given as strings, and binary files *)
(* ===================================================================== *)

Inductive byteorder : Type := LittleEndian | BigEndian.

Inductive kind : Type := KInt | KFloat.

(** One item of a layout string: [[count][order]kind size]. *)
Record field : Type :=
  { f_repeat : option nat;
    f_order : option byteorder;
    f_kind : kind;
    f_size : nat }.

(** A layout with a comma is a record of fields [f0], [f1], ...; a
    layout of one item is a plain dtype. *)
Inductive np_dtype_t : Type :=
| Plain (f : field)
| Structured (fs : list field).

Definition is_digit (c : ascii) : bool :=
  let n := nat_of_ascii c in Nat.leb 48 n && Nat.leb n 57.

Fixpoint span_digits (s : string) : string * string :=
  match s with
  | String c s' =>
      if is_digit c then let '(d, r) := span_digits s' in (String c d, r)
      else ("", s)
  | EmptyString => ("", "")
  end.

(** [s.split(sep)] with a one-character separator. *)
Fixpoint split_on (sep : ascii) (s : string) : list string :=
  match s with
  | EmptyString => [""]
  | String c s' =>
      if Ascii.eqb c sep then "" :: split_on sep s'
      else match split_on sep s' with
           | p :: ps => String c p :: ps
           | [] => [String c ""]
           end
  end.

Definition nat_of_digits (s : string) : option nat :=
  match s with
  | EmptyString => None
  | _ => option_map Nat.of_uint (NilEmpty.uint_of_string s)
  end.

Definition parse_order (s : string) : option byteorder * string :=
  match s with
  | String "<" r => (Some LittleEndian, r)
  | String ">" r => (Some BigEndian, r)
  | String "=" r => (None, r)
  | _ => (None, s)
  end.

Definition parse_field (s : string) : result field :=
  let '(rep, s1) := span_digits s in
  let '(order, s2) := parse_order s1 in
  match s2 with
  | String k sz =>
      match (if Ascii.eqb k "i" then Some KInt
             else if Ascii.eqb k "f" then Some KFloat else None),
            nat_of_digits sz with
      | Some kd, Some n =>
          let ok := match kd with
                    | KInt => Nat.eqb n 1 || Nat.eqb n 2 || Nat.eqb n 4 || Nat.eqb n 8
                    | KFloat => Nat.eqb n 2 || Nat.eqb n 4 || Nat.eqb n 8
                    end in
          if ok then Ok {| f_repeat := nat_of_digits rep; f_order := order;
                           f_kind := kd; f_size := n |}
          else Raise TypeError
      | _, _ => Raise TypeError
      end
  | EmptyString => Raise TypeError
  end.

(** [np.dtype(s)] on the layout strings of this module: items
    [[count][order](i|f)size] separated by commas.  Any other string is a
    [TypeError] here. *)
Definition np_dtype (s : string) : result np_dtype_t :=
  match split_on "," s with
  | [item] => f <- parse_field item ;; Ok (Plain f)
  | items => fs <- mapM parse_field items ;; Ok (Structured fs)
  end.

Definition field_count (f : field) : nat :=
  match f_repeat f with Some r => r | None => 1%nat end.

Definition field_size (f : field) : nat := (field_count f * f_size f)%nat.

Definition dtype_fields (d : np_dtype_t) : list field :=
  match d with Plain f => [f] | Structured fs => fs end.

(** [dtype.itemsize]. *)
Definition dtype_itemsize (d : np_dtype_t) : nat :=
  fold_right (fun f n => (field_size f + n)%nat) 0%nat (dtype_fields d).

Fixpoint chunks {A : Type} (n : nat) (size : nat) (l : list A) : list (list A) :=
  match n with
  | O => []
  | S n' => firstn size l :: chunks n' size (skipn size l)
  end.

(** What [np.fromfile] returns on a binary file: the dtype and the bytes
    of each item read. *)
Record raw_array : Type := { ra_dtype : np_dtype_t; ra_items : list (list byte) }.

Section BinaryFile.

(** The byte order of the machine. *)
Variable native : byteorder.

Definition order_of (f : field) : byteorder :=
  match f_order f with Some o => o | None => native end.

Definition decode_unsigned (o : byteorder) (bs : list byte) : Z :=
  match o with
  | LittleEndian => le_combine bs
  | BigEndian => le_combine (List.rev bs)
  end.

Definition encode_unsigned (o : byteorder) (size : nat) (z : Z) : list byte :=
  match o with
  | LittleEndian => le_split size z
  | BigEndian => List.rev (le_split size z)
  end.

(** A signed integer of [size] bytes. *)
Definition decode_int (o : byteorder) (bs : list byte) : Z :=
  wrap_int {| signed := true; isize := List.length bs |} (decode_unsigned o bs).

Definition decode_float (o : byteorder) (bs : list byte) : spec_float :=
  float_of_bits (List.length bs) (decode_unsigned o bs).

(** [np.fromfile(f, count=count, dtype=dtype)] on a binary file whose
    unread part is [f]: the items read and the unread part afterwards.  A
    negative count reads every whole item that is left; a short file gives
    the whole items that it has and leaves the file at its end. *)
Definition np_fromfile (f : list byte) (count : Z) (dtype : string)
  : result (raw_array * list byte) :=
  d <- np_dtype dtype ;;
  let size := dtype_itemsize d in
  let avail := (List.length f / size)%nat in
  if count <? 0 then
    Ok ({| ra_dtype := d; ra_items := chunks avail size f |},
        skipn (avail * size) f)
  else if Z.of_nat avail <? count then
    Ok ({| ra_dtype := d; ra_items := chunks avail size f |}, [])
  else
    Ok ({| ra_dtype := d; ra_items := chunks (Z.to_nat count) size f |},
        skipn (Z.to_nat count * size) f).

(** [a.item()] of an array of integers: its only element. *)
Definition np_item (a : raw_array) : result Z :=
  match ra_dtype a, ra_items a with
  | Plain fd, [bs] =>
      match f_kind fd with
      | KInt => Ok (decode_int (order_of fd) bs)
      | KFloat => Raise TypeError
      end
  | _, _ => Raise ValueError
  end.

(** The bytes of field number [k] in one item. *)
Fixpoint field_bytes (fs : list field) (k : nat) (item : list byte)
  : option (field * list byte) :=
  match fs, k with
  | [], _ => None
  | fd :: _, O => Some (fd, firstn (field_size fd) item)
  | fd :: fs', S k' => field_bytes fs' k' (skipn (field_size fd) item)
  end.

Definition decode_ints (fd : field) (bs : list byte) : list Z :=
  map (decode_int (order_of fd)) (chunks (field_count fd) (f_size fd) bs).

Definition decode_floats (fd : field) (bs : list byte) : list spec_float :=
  map (decode_float (order_of fd)) (chunks (field_count fd) (f_size fd) bs).

Definition int_dtype_of (fd : field) : int_dtype :=
  {| signed := true; isize := f_size fd |}.

(** [out["f<k>"]]: a field of a record array, as an array of its own.  A
    field with a repeat count is a matrix, a field without one a vector.
    A plain array has no field. *)
Definition get_field (out : raw_array) (k : nat) : result ndarray :=
  match ra_dtype out with
  | Plain _ => Raise IndexError
  | Structured fs =>
      match nth_error fs k with
      | None => Raise ValueError
      | Some fd =>
          let cut item :=
            match field_bytes fs k item with
            | Some (_, bs) => bs
            | None => []
            end in
          let items := map cut (ra_items out) in
          Ok match f_kind fd, f_repeat fd with
             | KInt, None =>
                 IVec (int_dtype_of fd) (flat_map (decode_ints fd) items)
             | KInt, Some r => IMat (int_dtype_of fd) r (map (decode_ints fd) items)
             | KFloat, None =>
                 FVec {| fsize := f_size fd |} (flat_map (decode_floats fd) items)
             | KFloat, Some r =>
                 FMat {| fsize := f_size fd |} r (map (decode_floats fd) items)
             end
      end
  end.

(** [out.view(itype).reshape(nitems, k)]: the bytes of the items read
    again as integers of dtype [itype], in rows of [k].  A count of [-1]
    lets [reshape] work the number of rows out. *)
Definition view_reshape (out : raw_array) (itype : string) (nitems : Z) (k : nat)
  : result (int_dtype * list (list Z)) :=
  d <- np_dtype itype ;;
  match d with
  | Structured _ => Raise ValueError
  | Plain fd =>
      let bytes := List.concat (ra_items out) in
      let total := List.length bytes in
      if negb (Nat.eqb (total mod f_size fd) 0) then Raise ValueError
      else
        let n := (total / f_size fd)%nat in
        let ints := map (decode_int (order_of fd)) (chunks n (f_size fd) bytes) in
        let nrows :=
          if nitems =? -1 then
            (if Nat.eqb k 0 then None
             else if Nat.eqb (n mod k) 0 then Some (n / k)%nat else None)
          else if nitems <? 0 then None
          else if nitems * Z.of_nat k =? Z.of_nat n then Some (Z.to_nat nitems)
          else None in
        match nrows with
        | Some r => Ok (int_dtype_of fd, chunks r k ints)
        | None => Raise ValueError
        end
  end.

End BinaryFile.

(* ===================================================================== *)
(** * The mesh container *)
(* ===================================================================== *)

(** [Mesh(points, cells, point_data=..., cell_data=...)].  The readers
    give the constructor arrays of matching lengths, so it builds the
    container without raising; [points] is [None] when the reader never
    assigned it. *)
Record Mesh : Type :=
  { points : option ndarray;
    cells : list CellBlock;
    point_data : dict ndarray;
    cell_data : dict (list ndarray) }.

(** A reader or a writer ends with a value or an exception, and with the
    messages it gave to [warn]. *)
Definition warnings : Type := list string.

(* ===================================================================== *)
(** * Binary reader *)
(* ===================================================================== *)

(** The local variables of [read_binary_buffer] that the loop updates. *)
Record reader_state : Type :=
  { st_points : option ndarray;
    st_cells : list CellBlock;
    st_point_data : dict ndarray;
    st_cell_refs : list ndarray;
    st_warnings : warnings }.

Definition initial_state : reader_state :=
  {| st_points := None; st_cells := []; st_point_data := [];
     st_cell_refs := []; st_warnings := [] |}.

Definition warn (msg : string) (st : reader_state) : reader_state :=
  {| st_points := st_points st; st_cells := st_cells st;
     st_point_data := st_point_data st; st_cell_refs := st_cell_refs st;
     st_warnings := (st_warnings st ++ [msg])%list |}.

(** How one turn of a [while True] loop ends: [break], or the next turn
    on the rest of the file. *)
Inductive loop_ctl (F : Type) : Type :=
| Break (st : reader_state)
| Continue (f : F) (st : reader_state).

Arguments Break {F} st.
Arguments Continue {F} f st.

Definition mesh_of_state (st : reader_state) (cells : list CellBlock) : Mesh :=
  {| points := st_points st;
     cells := cells;
     point_data := st_point_data st;
     cell_data := [("medit:ref", st_cell_refs st)] |}.

Section BinaryReader.

(** [medit_codes] of [_medit_internal.py]: numeric tag -> (Gmf keyword,
    "i" when the block starts with an item count, record template). *)
Variable medit_codes : Z -> option (string * string * string).
Variable native : byteorder.

(** The field widths of a file: [itype], [ftype], [postype], [keytype]. *)
Record widths : Type :=
  { itype : string; ftype : string; postype : string; keytype : string }.

(** [">"] on a little-endian machine, ["<"] on a big-endian one. *)
Definition swapped_order : string :=
  match native with LittleEndian => ">" | BigEndian => "<" end.

(** The prefix of the type strings of a file with code word [code]. *)
Definition order_prefix (code : Z) : string :=
  if code =? 16777216 then swapped_order else "".

(** [keytype] once the code word is read. *)
Definition key_type (code : Z) : string := order_prefix code ++ "i4".

Definition widths_of (code version : Z) : widths :=
  let pre := order_prefix code in
  let '(i, f, p) :=
    if version =? 1 then ("i4", "f4", "i4")
    else if version =? 2 then ("i4", "f8", "i4")
    else if version =? 3 then ("i4", "f8", "i8")
    else ("i8", "f8", "i8") in
  {| itype := pre ++ i; ftype := pre ++ f; postype := pre ++ p;
     keytype := key_type code |}.

(** [np.fromfile(f, count=1, dtype=dtype).item()]. *)
Definition read_scalar (f : list byte) (dtype : string) : result (Z * list byte) :=
  '(a, f') <- np_fromfile f 1 dtype ;;
  v <- np_item native a ;;
  Ok (v, f').

(** The header: code, version, dimension keyword, position, dimension. *)
Definition read_binary_header (f : list byte) : result (widths * Z * list byte) :=
  '(code, f) <- read_scalar f "i4" ;;
  if negb (code =? 1) && negb (code =? 16777216) then Raise (ReadError "Invalid code")
  else
    '(version, f) <- read_scalar f (key_type code) ;;
    if (version <? 1) || (version >? 4) then Raise (ReadError "Invalid version")
    else
      let w := widths_of code version in
      '(field, f) <- read_scalar f (keytype w) ;;
      if negb (field =? 3) then
        Raise (ReadError ("Invalid dimension code : " ++ str_int field ++ " it should be 3"))
      else
        '(_, f) <- np_fromfile f 1 (postype w) ;;
        '(dim, f) <- read_scalar f (keytype w) ;;
        if negb (dim =? 2) && negb (dim =? 3) then
          Raise (ReadError ("Invalid mesh dimension : " ++ str_int dim))
        else Ok (w, dim, f).

(** One turn of the [while True] loop. *)
Definition read_binary_block (w : widths) (dim : Z) (f : list byte)
    (st : reader_state) : result (loop_ctl (list byte)) :=
  '(field, f) <- np_fromfile f 1 (keytype w) ;;
  match ra_items field with
  | [] => Ok (Break (warn "End-of-file reached before GmfEnd keyword" st))
  | _ =>
      field <- np_item native field ;;
      match medit_codes field with
      | None => Raise (ReadError "Unsupported field")
      | Some (name, count_flag, field_template) =>
          if String.eqb name "GmfEnd" then Ok (Break st)
          else if String.eqb name "GmfReserved" then Ok (Continue f st)
          else
            '(_, f) <- np_fromfile f 1 (postype w) ;;
            '(nitems, f) <-
               (if String.eqb count_flag "i" then read_scalar f (itype w)
                else Ok (1, f)) ;;
            layout <- _produce_dtype dim (itype w) (ftype w) field_template ;;
            '(out, f) <- np_fromfile f nitems layout ;;
            match dict_get DICT_GMFMEDIT name with
            | None =>
                Ok (Continue f
                      (warn ("meshio doesn't know " ++ name ++ " type. Skipping.") st))
            | Some (meshio_type, ncols, _) =>
                if String.eqb name "GmfVertices" then
                  pts <- get_field native out 0 ;;
                  refs <- get_field native out 1 ;;
                  Ok (Continue f
                        {| st_points := Some pts;
                           st_cells := st_cells st;
                           st_point_data := dict_set (st_point_data st) "medit:ref" refs;
                           st_cell_refs := st_cell_refs st;
                           st_warnings := st_warnings st |})
                else
                  let n := Z.to_nat ncols in
                  '(t, rows) <- view_reshape native out (itype w) nitems (S n) ;;
                  Ok (Continue f
                        {| st_points := st_points st;
                           st_cells :=
                             (st_cells st ++
                              [ {| cb_type := meshio_type;
                                   cb_data := np_add (IMat t n (map (firstn n) rows)) (-1) |} ])%list;
                           st_point_data := st_point_data st;
                           st_cell_refs :=
                             (st_cell_refs st ++
                              [ IVec t (flat_map (fun r => skipn n r) rows) ])%list;
                           st_warnings := st_warnings st |})
            end
      end
  end.

(** The loop, bounded by [fuel] turns.  [None]: the bound was reached. *)
Fixpoint read_binary_loop (fuel : nat) (w : widths) (dim : Z) (f : list byte)
    (st : reader_state) : option (result reader_state) :=
  match fuel with
  | O => None
  | S fuel' =>
      match read_binary_block w dim f st with
      | Raise e => Some (Raise e)
      | Ok (Break st') => Some (Ok st')
      | Ok (Continue f' st') => read_binary_loop fuel' w dim f' st'
      end
  end.

(** After the loop. *)
Definition finish_read (st : reader_state) : result (Mesh * warnings) :=
  cells <- _convert_cells (st_cells st) _medit_to_meshio ;;
  Ok (mesh_of_state st cells, st_warnings st).

(** [read_binary_buffer(f)].  Every turn of the loop reads a keyword of
    four bytes, so one turn more than the file has bytes is enough. *)
Definition read_binary_buffer (f : list byte) : result (Mesh * warnings) :=
  '(w, dim, f) <- read_binary_header f ;;
  match read_binary_loop (S (List.length f)) w dim f initial_state with
  | Some r => st <- r ;; finish_read st
  | None => Raise ValueError
  end.

End BinaryReader.

(* ===================================================================== *)
(** * Text files and number literals *)
(* ===================================================================== *)

Definition newline : ascii := "010"%char.
Definition nl : string := String newline EmptyString.

(** [str.isspace] on one (ASCII) character, and C's [isspace]. *)
Definition py_space (c : ascii) : bool :=
  let n := nat_of_ascii c in
  (Nat.leb 9 n && Nat.leb n 13) || (Nat.leb 28 n && Nat.leb n 32).

Definition c_space (c : ascii) : bool :=
  let n := nat_of_ascii c in
  (Nat.leb 9 n && Nat.leb n 13) || Nat.eqb n 32.

(** [str.isalpha] on ASCII text: one of the letters [A]-[Z] and [a]-[z].
    A character beyond ASCII is no letter here, whereas Python takes the
    letters of every alphabet as alphabetic; what is said of a word that
    is no letter sequence is therefore said of ASCII words ([isascii]). *)
Definition is_alpha_char (c : ascii) : bool :=
  let n := nat_of_ascii c in
  (Nat.leb 65 n && Nat.leb n 90) || (Nat.leb 97 n && Nat.leb n 122).

Definition isalpha (s : string) : bool :=
  match s with
  | EmptyString => false
  | _ => string_forallb is_alpha_char s
  end.

(** [f.readline()]: the line with its newline, and the rest of the file;
    the empty string at the end of the file. *)
Fixpoint readline (f : string) : string * string :=
  match f with
  | EmptyString => ("", "")
  | String c f' =>
      if Ascii.eqb c newline then (String c "", f')
      else let '(l, r) := readline f' in (String c l, r)
  end.

Fixpoint lstrip (p : ascii -> bool) (s : string) : string :=
  match s with
  | String c s' => if p c then lstrip p s' else s
  | EmptyString => ""
  end.

(** The string without the whitespace at its end. *)
Fixpoint rstrip (p : ascii -> bool) (s : string) : string :=
  match s with
  | EmptyString => ""
  | String c s' =>
      match rstrip p s' with
      | EmptyString => if p c then "" else String c ""
      | r => String c r
      end
  end.

(** [line.strip()]. *)
Definition strip (s : string) : string := rstrip py_space (lstrip py_space s).

(** [line.split()]: the maximal runs of characters that are no
    whitespace.  [cur] is the run being read, if one is. *)
Fixpoint split_ws (s : string) (cur : option string) : list string :=
  match s with
  | EmptyString => match cur with Some w => [w] | None => [] end
  | String c s' =>
      if py_space c then
        match cur with
        | Some w => w :: split_ws s' None
        | None => split_ws s' None
        end
      else
        split_ws s' (Some (match cur with Some w => w ++ String c "" | None => String c "" end))
  end.

Definition split (s : string) : list string := split_ws s None.

(** The value of a string of decimal digits. *)
Definition digits_value (s : string) : Z :=
  match NilEmpty.uint_of_string s with
  | Some u => Z.of_uint u
  | None => 0
  end.

Definition all_digits (s : string) : bool :=
  match s with
  | EmptyString => false
  | _ => string_forallb is_digit s
  end.

(** [int(s)] of a string: optional whitespace around an optional sign
    and decimal digits; a [ValueError] otherwise. *)
Definition py_int (s : string) : result Z :=
  match strip s with
  | String "-" d => if all_digits d then Ok (- digits_value d) else Raise ValueError
  | String "+" d => if all_digits d then Ok (digits_value d) else Raise ValueError
  | d => if all_digits d then Ok (digits_value d) else Raise ValueError
  end.

Definition c_float : float_dtype := float32.
Definition c_double : float_dtype := float64.

(** The value of the decimal [sign digits * 10 ^ e10], rounded to the
    nearest double. *)
Definition float_of_decimal (sign : bool) (digits : Z) (e10 : Z) : spec_float :=
  match digits with
  | Zpos m =>
      if 0 <=? e10 then
        match Zpos m * 10 ^ e10 with
        | Zpos n => binary_round 53 1024 sign n 0
        | _ => S754_zero sign
        end
      else
        match 10 ^ (- e10) with
        | Zpos d => SFdiv 53 1024 (S754_finite sign m 0) (S754_finite false d 0)
        | _ => S754_zero sign
        end
  | _ => S754_zero sign
  end.

Definition scan_sign (s : string) : bool * string :=
  match s with
  | String "-" r => (true, r)
  | String "+" r => (false, r)
  | _ => (false, s)
  end.

Definition lower (c : ascii) : ascii :=
  let n := nat_of_ascii c in
  if Nat.leb 65 n && Nat.leb n 90 then ascii_of_nat (n + 32) else c.

(** [w] is a prefix of [s], letter case apart: the rest of [s]. *)
Fixpoint match_word (w s : string) : option string :=
  match w, s with
  | EmptyString, _ => Some s
  | String a w', String c s' =>
      if Ascii.eqb a (lower c) then match_word w' s' else None
  | _, EmptyString => None
  end.

(** One floating-point literal at the head of the file, as numpy's text
    reader takes it: whitespace, a sign, then [inf], [nan] or digits with
    an optional fraction and an optional exponent.  The literal is read
    as a double. *)
Definition scan_double (f : string) : option (spec_float * string) :=
  let f := lstrip c_space f in
  let '(sign, f1) := scan_sign f in
  match match_word "inf" f1, match_word "nan" f1 with
  | Some r, _ =>
      Some (S754_infinity sign,
            match match_word "inity" r with Some r' => r' | None => r end)
  | None, Some r => Some (S754_nan, r)
  | None, None =>
      let '(ip, f2) := span_digits f1 in
      let '(fp, f3) :=
        match f2 with
        | String "." r => span_digits r
        | _ => ("", f2)
        end in
      match ip, fp with
      | EmptyString, EmptyString => None
      | _, _ =>
          let '(e10, f4) :=
            match f3 with
            | String c r =>
                if Ascii.eqb (lower c) "e" then
                  let '(esign, r1) := scan_sign r in
                  let '(ed, r2) := span_digits r1 in
                  match ed with
                  | EmptyString => (0, f3)
                  | _ => ((if esign then - digits_value ed else digits_value ed), r2)
                  end
                else (0, f3)
            | EmptyString => (0, f3)
            end in
          Some (float_of_decimal sign (digits_value (ip ++ fp))
                  (e10 - Z.of_nat (String.length fp)), f4)
      end
  end.

(** One integer literal at the head of the file ([dtype=int]). *)
Definition scan_long (f : string) : option (Z * string) :=
  let f := lstrip c_space f in
  let '(sign, f1) := scan_sign f in
  let '(d, f2) := span_digits f1 in
  match d with
  | EmptyString => None
  | _ =>
      let v := if sign then - digits_value d else digits_value d in
      Some (Z.max (- 2 ^ 63) (Z.min (2 ^ 63 - 1) v), f2)
  end.

(** One literal read as [c_float] or [c_double]: the double, converted. *)
Definition scan_float (t : float_dtype) (f : string) : option (spec_float * string) :=
  option_map (fun '(x, r) => (cast_float (fsize t) x, r)) (scan_double f).

(** [np.fromfile(f, count=count, dtype=..., sep=" ")]: items separated by
    whitespace, each read by [scan].  After every item the whitespace that
    follows is taken from the file; reading stops at the count, at the end
    of the file, at text that is no literal, and where two items are not
    separated.  A negative count reads as far as it can.  [fuel] bounds
    the number of items; an item takes at least one character. *)
Fixpoint fromfile_text {A : Type} (scan : string -> option (A * string))
    (fuel : nat) (count : Z) (f : string) : list A * string :=
  match fuel with
  | O => ([], f)
  | S fuel' =>
      if count =? 0 then ([], f)
      else
        match scan f with
        | None => ([], f)
        | Some (v, f1) =>
            let f2 := lstrip c_space f1 in
            match f2 with
            | EmptyString => ([v], f2)
            | _ =>
                if Nat.eqb (String.length f1) (String.length f2) then ([v], f2)
                else
                  let '(vs, f3) := fromfile_text scan fuel' (count - 1) f2 in
                  (v :: vs, f3)
            end
        end
  end.

Definition np_fromfile_text {A : Type} (scan : string -> option (A * string))
    (count : Z) (f : string) : list A * string :=
  fromfile_text scan (String.length f) count f.

(** [a.reshape(n, k)] of an array of [total] entries: the shape it gets.
    One of the two may be [-1], to be worked out from the other. *)
Definition reshape_shape (total : nat) (n k : Z) : result (nat * nat) :=
  let infer (other : Z) : option nat :=
    if other <=? 0 then None
    else if Nat.eqb (total mod Z.to_nat other) 0 then Some (total / Z.to_nat other)%nat
    else None in
  if (n =? -1) && (k =? -1) then Raise ValueError
  else if n =? -1 then
    match infer k with Some r => Ok (r, Z.to_nat k) | None => Raise ValueError end
  else if k =? -1 then
    match infer n with Some c => Ok (Z.to_nat n, c) | None => Raise ValueError end
  else if (n <? 0) || (k <? 0) then Raise ValueError
  else if n * k =? Z.of_nat total then Ok (Z.to_nat n, Z.to_nat k)
  else Raise ValueError.

(** [a.reshape(n, k)]: the rows. *)
Definition reshape {A : Type} (a : list A) (n k : Z) : result (nat * list (list A)) :=
  '(r, c) <- reshape_shape (List.length a) n k ;;
  Ok (c, chunks r c a).

(* ===================================================================== *)
(** * ASCII reader *)
(* ===================================================================== *)

(** The local variables [dim] and [dtype] of [read_ascii_buffer]. *)
Record ascii_vars : Type := { a_dim : Z; a_dtype : option float_dtype }.

(** [int(f.readline())]. *)
Definition read_int_line (f : string) : result (Z * string) :=
  let '(line, f) := readline f in
  n <- py_int line ;;
  Ok (n, f).

(** A section that is read and dropped: a count line, then
    [count * per_item] numbers, reshaped in rows of [per_item] when the
    source reshapes them. *)
Definition discard_section {A : Type} (scan : string -> option (A * string))
    (per_item : option Z) (f : string) : result string :=
  '(num, f) <- read_int_line f ;;
  match per_item with
  | None => Ok (snd (np_fromfile_text scan num f))
  | Some k =>
      let '(out, f) := np_fromfile_text scan (num * k) f in
      _ <- reshape out num k ;;
      Ok f
  end.

(** [for _ in range(n): f.readline()]. *)
Fixpoint skip_lines (n : nat) (f : string) : string :=
  match n with
  | O => f
  | S n' => skip_lines n' (snd (readline f))
  end.

Definition set_points (st : reader_state) (pts refs : ndarray) : reader_state :=
  {| st_points := Some pts;
     st_cells := st_cells st;
     st_point_data := dict_set (st_point_data st) "medit:ref" refs;
     st_cell_refs := st_cell_refs st;
     st_warnings := st_warnings st |}.

Definition add_cells (st : reader_state) (block : CellBlock) (refs : ndarray)
  : reader_state :=
  {| st_points := st_points st;
     st_cells := (st_cells st ++ [block])%list;
     st_point_data := st_point_data st;
     st_cell_refs := (st_cell_refs st ++ [refs])%list;
     st_warnings := st_warnings st |}.

Definition in_list (s : string) (l : list string) : bool :=
  existsb (String.eqb s) l.

(** One turn of the [while True] loop of [read_ascii_buffer]. *)
Definition read_ascii_line (f : string) (v : ascii_vars) (st : reader_state)
  : result (loop_ctl (string * ascii_vars)) :=
  let '(line, f) := readline f in
  match line with
  | EmptyString => Ok (Break st)
  | _ =>
      let line := strip line in
      match line with
      | EmptyString => Ok (Continue (f, v) st)
      | String "#" _ => Ok (Continue (f, v) st)
      | _ =>
          match split line with
          | [] => Raise IndexError
          | kw :: args =>
              if negb (isalpha kw) && negb (dict_mem DICT_MEDIT kw) then
                Raise (ReadError "")
              else if String.eqb kw "MeshVersionFormatted" then
                match args with
                | [] => Raise IndexError
                | version :: _ =>
                    if in_list version ["0"; "1"] then
                      Ok (Continue (f, {| a_dim := a_dim v; a_dtype := Some c_float |}) st)
                    else if in_list version ["2"; "3"] then
                      Ok (Continue (f, {| a_dim := a_dim v; a_dtype := Some c_double |}) st)
                    else Raise KeyError
                end
              else if String.eqb kw "Dimension" then
                match args with
                | d :: _ =>
                    dim <- py_int d ;;
                    Ok (Continue (f, {| a_dim := dim; a_dtype := a_dtype v |}) st)
                | [] =>
                    '(dim, f) <- read_int_line f ;;
                    Ok (Continue (f, {| a_dim := dim; a_dtype := a_dtype v |}) st)
                end
              else if String.eqb kw "Vertices" then
                if a_dim v <=? 0 then Raise (ReadError "")
                else
                  match a_dtype v with
                  | None =>
                      Raise (ReadError "Expected `MeshVersionFormatted` before `Vertices`")
                  | Some dtype =>
                      '(num_verts, f) <- read_int_line f ;;
                      let '(out, f) :=
                        np_fromfile_text (scan_float dtype)
                          (num_verts * (a_dim v + 1)) f in
                      '(_, rows) <- reshape out num_verts (a_dim v + 1) ;;
                      let d := Z.to_nat (a_dim v) in
                      Ok (Continue (f, v)
                            (set_points st
                               (FMat dtype d (map (firstn d) rows))
                               (IVec int64
                                  (flat_map (fun r => map (int_of_float int64)
                                                        (firstn 1 (skipn d r))) rows))))
                  end
              else
                match dict_get DICT_MEDIT kw with
                | Some (meshio_type, points_per_cell, _) =>
                    '(num_cells, f) <- read_int_line f ;;
                    let '(out, f) :=
                      np_fromfile_text scan_long (num_cells * (points_per_cell + 1)) f in
                    '(_, rows) <- reshape out num_cells (points_per_cell + 1) ;;
                    let n := Z.to_nat points_per_cell in
                    Ok (Continue (f, v)
                          (add_cells st
                             {| cb_type := meshio_type;
                                cb_data := np_add (IMat int64 n (map (firstn n) rows)) (-1) |}
                             (IVec int64 (flat_map (fun r => skipn n r) rows))))
                | None =>
                    let fdtype := match a_dtype v with Some t => t | None => float64 end in
                    if String.eqb kw "Corners" then
                      f <- discard_section (scan_float fdtype) None f ;;
                      Ok (Continue (f, v) st)
                    else if String.eqb kw "Normals" then
                      f <- discard_section (scan_float fdtype) (Some (a_dim v)) f ;;
                      Ok (Continue (f, v) st)
                    else if String.eqb kw "NormalAtVertices" then
                      f <- discard_section scan_long (Some 2) f ;;
                      Ok (Continue (f, v) st)
                    else if String.eqb kw "SubDomainFromMesh" then
                      f <- discard_section scan_long (Some 4) f ;;
                      Ok (Continue (f, v) st)
                    else if String.eqb kw "SubDomainFromGeom" then
                      f <- discard_section scan_long (Some 4) f ;;
                      Ok (Continue (f, v) st)
                    else if String.eqb kw "VertexOnGeometricVertex" then
                      f <- discard_section scan_long (Some 2) f ;;
                      Ok (Continue (f, v) st)
                    else if String.eqb kw "VertexOnGeometricEdge" then
                      f <- discard_section (scan_float float64) (Some 3) f ;;
                      Ok (Continue (f, v) st)
                    else if String.eqb kw "EdgeOnGeometricEdge" then
                      f <- discard_section scan_long (Some 2) f ;;
                      Ok (Continue (f, v) st)
                    else if String.eqb kw "Identifier" || String.eqb kw "Geometry" then
                      Ok (Continue (snd (readline f), v) st)
                    else if in_list kw ["RequiredVertices"; "TangentAtVertices";
                                        "Tangents"; "Ridges"] then
                      let st := warn ("Meshio doesn't know keyword " ++ kw ++ ". Skipping.") st in
                      '(num_to_pass, f) <- read_int_line f ;;
                      Ok (Continue (skip_lines (Z.to_nat num_to_pass) f, v) st)
                    else if in_list kw ["End"; "END"] then Ok (Continue (f, v) st)
                    else Raise (ReadError ("Unknown keyword '" ++ kw ++ "'."))
                end
          end
      end
  end.

(** The loop, bounded by [fuel] turns.  [None]: the bound was reached. *)
Fixpoint read_ascii_loop (fuel : nat) (f : string) (v : ascii_vars)
    (st : reader_state) : option (result reader_state) :=
  match fuel with
  | O => None
  | S fuel' =>
      match read_ascii_line f v st with
      | Raise e => Some (Raise e)
      | Ok (Break st') => Some (Ok st')
      | Ok (Continue (f', v') st') => read_ascii_loop fuel' f' v' st'
      end
  end.

(** [read_ascii_buffer(f)].  A turn of the loop that does not end it
    reads a line of at least one character. *)
Definition read_ascii_buffer (f : string) : result (Mesh * warnings) :=
  match read_ascii_loop (S (String.length f)) f
          {| a_dim := 0; a_dtype := None |} initial_state with
  | Some r =>
      st <- r ;;
      match st_points st with
      | None => Raise (ReadError "Expected `Vertices`")
      | Some _ =>
          cells <- _convert_cells (st_cells st) _medit_to_meshio ;;
          Ok (mesh_of_state st cells, st_warnings st)
      end
  | None => Raise ValueError
  end.

(* ===================================================================== *)
(** * Formatting *)
(* ===================================================================== *)

(** [10 ^ k <= n / d], for positive [n] and [d]. *)
Definition pow10_le (k n d : Z) : bool :=
  if 0 <=? k then 10 ^ k * d <=? n else d <=? n * 10 ^ (- k).

(** The decimal exponent of [n / d]: the [k] with
    [10 ^ k <= n / d < 10 ^ (k + 1)], searched upwards from an
    under-estimate that the binary logarithms give. *)
Fixpoint exponent10_from (steps : nat) (k n d : Z) : Z :=
  match steps with
  | O => k
  | S steps' => if pow10_le (k + 1) n d then exponent10_from steps' (k + 1) n d else k
  end.

Definition exponent10 (n d : Z) : Z :=
  exponent10_from 8 ((Z.log2 n - Z.log2 d - 1) * 30103 / 100000 - 2) n d.

(** [num / den] rounded to the nearest integer, ties to even. *)
Definition round_half_even (num den : Z) : Z :=
  let q := num / den in
  let r := num mod den in
  if 2 * r <? den then q
  else if den <? 2 * r then q + 1
  else if Z.even q then q else q + 1.

(** The exponent part of the ["e"] format: a sign and at least two digits. *)
Definition format_exponent (k : Z) : string :=
  let a := Z.abs k in
  (if k <? 0 then "-" else "+") ++ (if a <? 10 then "0" else "") ++ str_int a.

(** [format(x, ".16e")] of a float: one digit, a point, sixteen digits
    and the exponent, the decimal correctly rounded. *)
Definition format_e16 (x : spec_float) : string :=
  match x with
  | S754_nan => "nan"
  | S754_infinity s => if s then "-inf" else "inf"
  | S754_zero s => (if s then "-" else "") ++ "0.0000000000000000e+00"
  | S754_finite s m e =>
      let n := if 0 <=? e then Zpos m * 2 ^ e else Zpos m in
      let d := if 0 <=? e then 1 else 2 ^ (- e) in
      let k := exponent10 n d in
      let q :=
        if k <=? 16 then round_half_even (n * 10 ^ (16 - k)) d
        else round_half_even n (d * 10 ^ (k - 16)) in
      let '(q, k) := if q =? 10 ^ 17 then (10 ^ 16, k + 1) else (q, k) in
      match str_int q with
      | String c rest =>
          (if s then "-" else "") ++ String c ("." ++ rest) ++ "e" ++ format_exponent k
      | EmptyString => ""
      end
  end.

(** What iterating over an array gives, and what [*x] unpacks: numbers
    for a vector, rows for a matrix. *)
Inductive scalar : Type := SInt (z : Z) | SFloat (x : spec_float).
Inductive elem : Type := Scalar (s : scalar) | Row (l : list scalar).

Definition np_iter (a : ndarray) : list elem :=
  match a with
  | IVec _ v => map (fun z => Scalar (SInt z)) v
  | FVec _ v => map (fun x => Scalar (SFloat x)) v
  | IMat _ _ r => map (fun l => Row (map SInt l)) r
  | FMat _ _ r => map (fun l => Row (map SFloat l)) r
  end.

(** [*x] in an argument list. *)
Definition unpack (e : elem) : result (list elem) :=
  match e with
  | Row l => Ok (map Scalar l)
  | Scalar _ => Raise TypeError
  end.

(** The replacement fields ["{:d}"] and ["{:.16e}"]. *)
Definition format_d (e : elem) : result string :=
  match e with
  | Scalar (SInt z) => Ok (str_int z)
  | Scalar (SFloat _) => Raise ValueError
  | Row _ => Raise TypeError
  end.

Definition format_float (e : elem) : result string :=
  match e with
  | Scalar (SFloat x) => Ok (format_e16 x)
  | Scalar (SInt z) => Ok (format_e16 (float_of_int 8 z))
  | Row _ => Raise TypeError
  end.

(** [" ".join(specs).format] on the arguments: every replacement field takes the
    argument of its position; a field without an argument is an
    [IndexError], arguments without a field are left out. *)
Fixpoint format_fields (specs : list (elem -> result string)) (args : list elem)
  : result (list string) :=
  match specs with
  | [] => Ok []
  | spec :: specs' =>
      match args with
      | [] => Raise IndexError
      | a :: args' =>
          s <- spec a ;;
          ss <- format_fields specs' args' ;;
          Ok (s :: ss)
      end
  end.

Definition format_line (specs : list (elem -> result string)) (args : list elem)
  : result string :=
  ss <- format_fields specs args ;;
  Ok (String.concat " " ss ++ nl).

(** [zip(a, b)]. *)
Fixpoint zip {A B : Type} (a : list A) (b : list B) : list (A * B) :=
  match a, b with
  | x :: a', y :: b' => (x, y) :: zip a' b'
  | _, _ => []
  end.

(* ===================================================================== *)
(** * Writers *)
(* ===================================================================== *)

(** Modelled from the spec: [_pick_first_int_data] of [_common.py], which
    is not part of the sources at hand.  Of several integer attribute
    arrays the first is selected and the others are reported; no key is
    selected when there is none.  It gives the selected key and the other
    keys of the dictionary. *)
Fixpoint _pick_first_int_data {V : Type} (is_int : V -> bool) (data : dict V)
  : option string * list string :=
  match data with
  | [] => (None, [])
  | (k, v) :: data' =>
      if is_int v then (Some k, dict_keys data')
      else let '(key, other) := _pick_first_int_data is_int data' in (key, k :: other)
  end.

Definition is_int_list (l : list ndarray) : bool :=
  match l with
  | a :: _ => is_int_array a
  | [] => false
  end.

(** The truth value of [labels_key]: a key that is not the empty string. *)
Definition truthy_key (k : option string) : option string :=
  match k with
  | Some EmptyString => None
  | other => other
  end.

(** What a writer has done when it returns or raises: the bytes written
    to the file, the warnings, the cell blocks of the caller's container,
    and how the call ended. *)
Record wstate : Type :=
  { w_out : list byte; w_warnings : warnings; w_cells : list CellBlock }.

Definition W (A : Type) : Type := wstate -> wstate * result A.

Definition retW {A : Type} (a : A) : W A := fun s => (s, Ok a).

Definition bindW {A B : Type} (c : W A) (k : A -> W B) : W B :=
  fun s =>
    match c s with
    | (s', Ok a) => k a s'
    | (s', Raise e) => (s', Raise e)
    end.

Notation "x <~ c1 ;; c2" := (bindW c1 (fun x => c2))
  (at level 61, c1 at next level, right associativity).
Notation "' pat <~ c1 ;; c2" := (bindW c1 (fun x => match x with pat => c2 end))
  (at level 61, pat pattern, c1 at next level, right associativity).
Notation "c1 >> c2" := (bindW c1 (fun _ => c2))
  (at level 61, right associativity).

Definition liftW {A : Type} (r : result A) : W A := fun s => (s, r).

(** [fh.write(...)], for text and for bytes. *)
Definition emit_bytes (b : list byte) : W unit :=
  fun s => ({| w_out := (w_out s ++ b)%list; w_warnings := w_warnings s;
               w_cells := w_cells s |}, Ok tt).

Definition emit (text : string) : W unit := emit_bytes (list_byte_of_string text).

Definition warnW (msg : string) : W unit :=
  fun s => ({| w_out := w_out s; w_warnings := (w_warnings s ++ [msg])%list;
               w_cells := w_cells s |}, Ok tt).

(** [for x in l: body(x)]. *)
Fixpoint forW {A : Type} (l : list A) (body : A -> W unit) : W unit :=
  match l with
  | [] => retW tt
  | x :: l' => body x >> forW l' body
  end.

(** [enumerate(l)]. *)
Definition enumerate {A : Type} (l : list A) : list (nat * A) :=
  combine (seq 0 (List.length l)) l.

(** [a.shape] of a two-dimensional array. *)
Definition shape2 (a : ndarray) : result (nat * nat) :=
  match a with
  | IMat _ c r | FMat _ c r => Ok (List.length r, c)
  | _ => Raise ValueError
  end.

(** [np.ones(n, dtype=...)]. *)
Definition np_ones_int (t : int_dtype) (n : nat) : ndarray := IVec t (repeat 1 n).

Definition np_ones_like (data : ndarray) (n : nat) : ndarray :=
  match data with
  | IVec t _ | IMat t _ _ => IVec t (repeat 1 n)
  | FVec t _ | FMat t _ _ => FVec t (repeat (float_of_int (fsize t) 1) n)
  end.

(** The warning about the attribute arrays that are left out. *)
Definition warn_skipped (what : string) (labels_key : option string)
    (other : list string) : W unit :=
  match truthy_key labels_key, other with
  | Some key, _ :: _ =>
      warnW ("Medit can only write one " ++ what ++ " data array. Picking " ++ key
             ++ ", skipping " ++ String.concat ", " other ++ ".")
  | _, _ => retW tt
  end.

(** [mesh.cell_data[labels_key][k]]. *)
Definition cell_labels (mesh : Mesh) (key : string) (k : nat) : result ndarray :=
  match dict_get (cell_data mesh) key with
  | None => Raise KeyError
  | Some arrays => of_option IndexError (nth_error arrays k)
  end.

(** One point of the [Vertices] section: [fmt.format] of the coordinates
    and the label, written to the file. *)
Definition write_ascii_point (d : nat) (item : elem * elem) : W unit :=
  let '(x, label) := item in
  xs <~ liftW (unpack x) ;;
  line <~ liftW (format_line (repeat format_float d ++ [format_d])%list
                   (xs ++ [label])%list) ;;
  emit line.

(** One element of a section. *)
Definition write_ascii_cell (num : Z) (item : elem * elem) : W unit :=
  let '(d, label) := item in
  ds <~ liftW (unpack d) ;;
  line <~ liftW (format_line (repeat format_d (Z.to_nat (num + 1)))
                   (ds ++ [label])%list) ;;
  emit line.

(** The body of the loop over the cell blocks of [write_ascii_file]. *)
Definition write_ascii_cell_block (mesh : Mesh) (labels_key : option string)
    (item : nat * CellBlock) : W unit :=
  let '(k, cell_block) := item in
  let cell_type := cb_type cell_block in
  data <~ liftW (_convert_cell_data cell_type (cb_data cell_block) _meshio_to_medit) ;;
  match dict_get DICT_MESHIO cell_type with
  | None =>
      warnW ("MEDIT's mesh format doesn't know " ++ cell_type ++ " cells. Skipping.")
  | Some (medit_name, num, _) =>
      emit nl >>
      emit (medit_name ++ nl) >>
      emit (str_int (Z.of_nat (np_len data)) ++ nl) >>
      labels <~ liftW (match truthy_key labels_key with
                       | Some key => cell_labels mesh key k
                       | None => Ok (np_ones_like data (np_len data))
                       end) ;;
      forW (zip (np_iter (np_add data 1)) (np_iter labels)) (write_ascii_cell num)
  end.

(** [write_ascii_file(filename, mesh)] with the default float format
    [".16e"]. *)
Definition write_ascii_file (mesh : Mesh) : W unit :=
  version <~ liftW (match points mesh with
                    | Some (FMat t _ _ | FVec t _) =>
                        if Nat.eqb (fsize t) 4 then Ok 1
                        else if Nat.eqb (fsize t) 8 then Ok 2
                        else Raise KeyError
                    | _ => Raise KeyError
                    end) ;;
  emit ("MeshVersionFormatted " ++ str_int version ++ nl) >>
  pts <~ liftW (of_option ValueError (points mesh)) ;;
  '(n, d) <~ liftW (shape2 pts) ;;
  emit ("Dimension " ++ str_int (Z.of_nat d) ++ nl) >>
  emit (nl ++ "Vertices" ++ nl) >>
  emit (str_int (Z.of_nat n) ++ nl) >>
  let '(labels_key, other) := _pick_first_int_data is_int_array (point_data mesh) in
  warn_skipped "point" labels_key other >>
  labels <~ liftW (match truthy_key labels_key with
                   | Some key => of_option KeyError (dict_get (point_data mesh) key)
                   | None => Ok (np_ones_int int64 n)
                   end) ;;
  forW (zip (np_iter pts) (np_iter labels)) (write_ascii_point d) >>
  let '(labels_key, other) := _pick_first_int_data is_int_list (cell_data mesh) in
  warn_skipped "cell" labels_key other >>
  forW (enumerate (cells mesh)) (write_ascii_cell_block mesh labels_key) >>
  emit (nl ++ "End" ++ nl).

(** [for x in l: acc = body(acc, x)]. *)
Fixpoint foldW {A B : Type} (l : list A) (acc : B) (body : B -> A -> W B) : W B :=
  match l with
  | [] => retW acc
  | x :: l' => acc' <~ body acc x ;; foldW l' acc' body
  end.

(** Column [i] of a matrix ([data[:, i]]). *)
Definition np_column (data : ndarray) (i : nat) : result ndarray :=
  match data with
  | IMat t c r =>
      if Nat.ltb i c then Ok (IVec t (flat_map (fun row => firstn 1 (skipn i row)) r))
      else Raise IndexError
  | FMat t c r =>
      if Nat.ltb i c then Ok (FVec t (flat_map (fun row => firstn 1 (skipn i row)) r))
      else Raise IndexError
  | _ => Raise IndexError
  end.

(** An array as rows of numbers: a vector is one row. *)
Definition np_rows (a : ndarray) : list (list scalar) :=
  match a with
  | IVec _ v => [map SInt v]
  | FVec _ v => [map SFloat v]
  | IMat _ _ r => map (map SInt) r
  | FMat _ _ r => map (map SFloat) r
  end.

Definition is_vector (a : ndarray) : bool :=
  match a with IVec _ _ | FVec _ _ => true | _ => false end.

(** One row broadcast to [r] entries: it has [r] entries or one. *)
Definition broadcast_row {A : Type} (r : nat) (row : list A) : result (list A) :=
  if Nat.eqb (List.length row) r then Ok row
  else match row with
       | [x] => Ok (repeat x r)
       | _ => Raise ValueError
       end.

(** [tmp_array[name] = src] for a record array of [n] items: the numbers
    that every item gets in the field, by numpy's broadcasting rules. *)
Definition broadcast_field (fd : field) (n : nat) (src : ndarray)
  : result (list (list scalar)) :=
  let rows := np_rows src in
  match f_repeat fd with
  | None =>
      match rows with
      | [row] => v <- broadcast_row n row ;; Ok (map (fun x => [x]) v)
      | _ => Raise ValueError
      end
  | Some r =>
      rows' <- mapM (broadcast_row r) rows ;;
      if Nat.eqb (List.length rows') n then Ok rows'
      else match rows' with
           | [row] => Ok (repeat row n)
           | _ => Raise ValueError
           end
  end.

Section BinaryWriter.

Variable medit_codes : Z -> option (string * string * string).
Variable native : byteorder.

(** One number stored in a field: converted to the field's type, then
    laid out in the field's byte order. *)
Definition encode_scalar (fd : field) (v : scalar) : list byte :=
  let o := order_of native fd in
  match f_kind fd, v with
  | KInt, SInt z => encode_unsigned o (f_size fd) z
  | KInt, SFloat x => encode_unsigned o (f_size fd) (int_of_float (int_dtype_of fd) x)
  | KFloat, SFloat x =>
      encode_unsigned o (f_size fd) (bits_of_float (f_size fd) (cast_float (f_size fd) x))
  | KFloat, SInt z =>
      encode_unsigned o (f_size fd) (bits_of_float (f_size fd) (float_of_int (f_size fd) z))
  end.

Definition encode_field (fd : field) (vs : list scalar) : list byte :=
  flat_map (encode_scalar fd) vs.

(** A record array of one item whose fields are given integers, written
    to the file: the headers. *)
Definition header_bytes (types : list string) (values : list Z) : result (list byte) :=
  d <- np_dtype (String.concat "," types) ;;
  Ok (List.concat (map (fun '(fd, v) => encode_field fd (repeat (SInt v) (field_count fd)))
                       (combine (dtype_fields d) values))).

(** A record array of [n] items: the numbers assigned to each field, if
    any ([np.empty] leaves the other fields as they come; they are
    zero bytes here). *)
Definition record_bytes (fs : list field) (n : nat)
    (assigned : list (option (list (list scalar)))) : list byte :=
  List.concat
    (map (fun i =>
            List.concat
              (map (fun '(fd, a) =>
                      match a with
                      | Some rows => encode_field fd (nth i rows [])
                      | None => repeat Byte.x00 (field_size fd)
                      end)
                   (combine fs assigned)))
         (seq 0 n)).

Definition set_cell_data (k : nat) (data : ndarray) : W unit :=
  fun s =>
    ({| w_out := w_out s; w_warnings := w_warnings s;
        w_cells :=
          map (fun '(i, b) =>
                 if Nat.eqb i k then {| cb_type := cb_type b; cb_data := data |} else b)
              (enumerate (w_cells s)) |}, Ok tt).

Definition get_cell (k : nat) : W CellBlock :=
  fun s => (s, of_option IndexError (nth_error (w_cells s) k)).

(** The widths that [write_binary_file] settles on before it writes. *)
Record profile : Type :=
  { p_version : Z; p_itype : string; p_itype_size : Z; p_int : int_dtype }.

Definition has_big_ints (mesh : Mesh) : bool :=
  existsb (fun b => Nat.eqb (itemsize (cb_data b)) 8) (cells mesh).

Definition profile_of (mesh : Mesh) : profile :=
  if has_big_ints mesh
  then {| p_version := 4; p_itype := "i8"; p_itype_size := 8; p_int := int64 |}
  else {| p_version := 3; p_itype := "i4"; p_itype_size := 4; p_int := int32 |}.

Definition postype_w : string := "i8".
Definition ftype_w : string := "f8".
Definition keytype_w : string := "i4".
Definition ftype_size : Z := 8.
Definition postype_size : Z := 8.
Definition keyword_size : Z := 4.

(** The vertices: the record array with the points in [f0] and the
    labels in [f1]. *)
Definition vertex_block (dtype : np_dtype_t) (num_verts : nat) (pts labels : ndarray)
  : result (list byte) :=
  match dtype with
  | Plain _ => Raise IndexError
  | Structured fs =>
      f0 <- of_option ValueError (nth_error fs 0) ;;
      v0 <- broadcast_field f0 num_verts pts ;;
      f1 <- of_option ValueError (nth_error fs 1) ;;
      v1 <- broadcast_field f1 num_verts labels ;;
      Ok (record_bytes fs num_verts
            (Some v0 :: Some v1 :: repeat None (List.length fs - 2)))
  end.

(** The elements of a block: column [i] of the data, plus one, in the
    field of its position, and the labels in the last field. *)
Definition cell_block_bytes (dtype : np_dtype_t) (num_cells : nat) (data labels : ndarray)
  : result (list byte) :=
  match dtype with
  | Plain _ => Raise TypeError
  | Structured fs =>
      let m := (List.length fs - 1)%nat in
      cols <- mapM (fun '(i, fd) =>
                      col <- np_column data i ;;
                      broadcast_field fd num_cells (np_add col 1))
               (enumerate (firstn m fs)) ;;
      last <- of_option IndexError (nth_error fs m) ;;
      vl <- broadcast_field last num_cells labels ;;
      Ok (record_bytes fs num_cells (map Some cols ++ [Some vl])%list)
  end.

(** The body of the loop over the cell blocks of [write_binary_file]; it
    gives the new value of [pos]. *)
Definition write_binary_cell_block (mesh : Mesh) (pr : profile) (dim : nat)
    (labels_key : option string) (pos : Z) (item : nat * CellBlock) : W Z :=
  let k := fst item in
  cell_block <~ get_cell k ;;
  data <~ liftW (_convert_cell_data (cb_type cell_block) (cb_data cell_block)
                   _meshio_to_medit) ;;
  set_cell_data k data >>
  match dict_get DICT_MESHIO (cb_type cell_block) with
  | None =>
      warnW ("MEDIT's mesh format doesn't know " ++ cb_type cell_block
             ++ " cells. Skipping.") >>
      retW pos
  | Some (_, _, medit_key) =>
      '(num_cells, num_verts) <~ liftW (shape2 data) ;;
      let pos := pos + Z.of_nat num_cells * (Z.of_nat num_verts + 1) * p_itype_size pr in
      let pos := pos + (keyword_size + postype_size + p_itype_size pr) in
      hdr <~ liftW (header_bytes [keytype_w; postype_w; p_itype pr]
                      [medit_key; pos; Z.of_nat num_cells]) ;;
      emit_bytes hdr >>
      labels <~ liftW (match truthy_key labels_key with
                       | Some key => cell_labels mesh key k
                       | None => Ok (np_ones_like data (np_len data))
                       end) ;;
      field_code <~ liftW (of_option KeyError (medit_codes medit_key)) ;;
      layout <~ liftW (_produce_dtype (Z.of_nat dim) (p_itype pr) ftype_w (snd field_code)) ;;
      dtype <~ liftW (np_dtype layout) ;;
      block <~ liftW (cell_block_bytes dtype num_cells data labels) ;;
      emit_bytes block >>
      retW pos
  end.

(** What [write_binary_file] writes behind the header of the file: the
    vertices, the cell blocks and the terminator.  [pos] is the position
    behind the header. *)
Definition write_binary_blocks (mesh : Mesh) (pr : profile) (pts : ndarray)
    (num_verts dim : nat) (pos : Z) : W unit :=
  field_code <~ liftW (of_option KeyError (medit_codes 4)) ;;
  let pos := pos + Z.of_nat num_verts * Z.of_nat dim * ftype_size in
  let pos := pos + Z.of_nat num_verts * p_itype_size pr in
  let pos := pos + (keyword_size + postype_size + p_itype_size pr) in
  hdr <~ liftW (header_bytes [keytype_w; postype_w; p_itype pr]
                  [4; pos; Z.of_nat num_verts]) ;;
  emit_bytes hdr >>
  layout <~ liftW (_produce_dtype (Z.of_nat dim) (p_itype pr) ftype_w (snd field_code)) ;;
  dtype <~ liftW (np_dtype layout) ;;
  let '(labels_key, other) := _pick_first_int_data is_int_array (point_data mesh) in
  warn_skipped "point" labels_key other >>
  labels <~ liftW (match truthy_key labels_key with
                   | Some key => of_option KeyError (dict_get (point_data mesh) key)
                   | None => Ok (np_ones_int (p_int pr) num_verts)
                   end) ;;
  block <~ liftW (vertex_block dtype num_verts pts labels) ;;
  emit_bytes block >>
  let '(labels_key, other) := _pick_first_int_data is_int_list (cell_data mesh) in
  warn_skipped "cell" labels_key other >>
  _ <~ foldW (enumerate (cells mesh)) pos
         (write_binary_cell_block mesh pr dim labels_key) ;;
  hdr <~ liftW (header_bytes [keytype_w; postype_w] [54; 0]) ;;
  emit_bytes hdr.

(** [write_binary_file(f, mesh)]. *)
Definition write_binary_file (mesh : Mesh) : W unit :=
  let pr := profile_of mesh in
  let code := 1 in
  let pos := 4 * keyword_size + postype_size in
  pts <~ liftW (of_option ValueError (points mesh)) ;;
  '(num_verts, dim) <~ liftW (shape2 pts) ;;
  hdr <~ liftW (header_bytes [keytype_w; keytype_w; keytype_w; postype_w; keytype_w]
                  [code; p_version pr; 3; pos; Z.of_nat dim]) ;;
  emit_bytes hdr >>
  write_binary_blocks mesh pr pts num_verts dim pos.

End BinaryWriter.

(* ===================================================================== *)
(** * [read] and [write] *)
(* ===================================================================== *)

(** [str(filename)[-1] == "b"]; no character at all is an [IndexError]. *)
Fixpoint last_char (s : string) : option ascii :=
  match s with
  | EmptyString => None
  | String c EmptyString => Some c
  | String _ s' => last_char s'
  end.

Section ReadWrite.

Variable medit_codes : Z -> option (string * string * string).
Variable native : byteorder.

(** [read(filename)], given the content of the file of that name. *)
Definition read (filename : string) (content : list byte) : result (Mesh * warnings) :=
  match last_char filename with
  | None => Raise IndexError
  | Some c =>
      if Ascii.eqb c "b" then read_binary_buffer medit_codes native content
      else read_ascii_buffer (string_of_list_byte content)
  end.

(** [write(filename, mesh)] with the default float format. *)
Definition write (filename : string) (mesh : Mesh) : W unit :=
  match last_char filename with
  | None => liftW (Raise IndexError)
  | Some c =>
      if Ascii.eqb c "b" then write_binary_file medit_codes native mesh
      else write_ascii_file mesh
  end.

(** A call of a writer on a container: it starts with an empty file and
    the cell blocks of the container. *)
Definition run_writer (w : W unit) (mesh : Mesh) : wstate * result unit :=
  w {| w_out := []; w_warnings := []; w_cells := cells mesh |}.

(** The container of the caller after the call.  The writers assign to
    nothing but the [data] of cell blocks. *)
Definition mesh_after (mesh : Mesh) (s : wstate) : Mesh :=
  {| points := points mesh; cells := w_cells s;
     point_data := point_data mesh; cell_data := cell_data mesh |}.

End ReadWrite.

(* ===================================================================== *)
(** * A code table *)
(* ===================================================================== *)

(** Modelled from the spec: [medit_codes] of [_medit_internal.py], which
    is not part of the sources at hand.  The entries that the sections of
    the specification on the binary codec name: the dimension record
    (tag 3), the vertices block (tag 4, counted, a coordinate block and
    one integer), the terminator (tag 54), and for every element type of
    the registry its tag, counted, with one integer per node and one for
    the reference.  Tag 13 is the [GmfCorners] entry that the comment at
    the head of [DICT_MESHIO] speaks of: in the table, and with no
    element type of its own. *)
Definition medit_codes_spec (tag : Z) : option (string * string * string) :=
  if tag =? 3 then Some ("GmfDimension", "", "i")
  else if tag =? 4 then Some ("GmfVertices", "i", "dri")
  else if tag =? 13 then Some ("GmfCorners", "i", "i")
  else if tag =? 54 then Some ("GmfEnd", "", "")
  else
    match find (fun item : string * (string * Z * Z) =>
                  let '(_, (_, _, t)) := item in t =? tag) DICT_MESHIO with
    | Some (_, (medit, nPe, _)) =>
        Some ("Gmf" ++ medit, "i",
              string_of_list_ascii (repeat "i"%char (S (Z.to_nat nPe))))
    | None => None
    end.

(* ===================================================================== *)
(** * Runs of the reader loops *)
(* ===================================================================== *)

(** [binary_reaches w dim (f, st) (f', st')]: from the file position [f]
    and the variables [st], some turns of the loop of
    [read_binary_buffer] lead to [f'] and [st']. *)
Inductive binary_reaches (medit_codes : Z -> option (string * string * string))
    (native : byteorder) (w : widths) (dim : Z)
  : list byte * reader_state -> list byte * reader_state -> Prop :=
| binary_reaches_refl x : binary_reaches medit_codes native w dim x x
| binary_reaches_step f st f' st' y :
    read_binary_block medit_codes native w dim f st = Ok (Continue f' st') ->
    binary_reaches medit_codes native w dim (f', st') y ->
    binary_reaches medit_codes native w dim (f, st) y.

(** The message of the warning at a file that ends early. *)
Definition eof_message : string := "End-of-file reached before GmfEnd keyword".

(** The keyword that a turn of the binary loop reads first. *)
Definition next_keyword (native : byteorder) (code : Z) (f : list byte) : result Z :=
  '(a, _) <- np_fromfile f 1 (key_type native code) ;; np_item native a.

(** A cell block that the reordering accepts: a block of 27-node
    hexahedra has the 27 columns that the permutation indexes. *)
Definition block_ok (b : CellBlock) : Prop :=
  is_ok (_convert_cell_data (cb_type b) (cb_data b) _medit_to_meshio) = true.

(** The warning of the writers at an element type outside the registry,
    and a writer state with one more warning. *)
Definition skip_message (cell_type : string) : string :=
  "MEDIT's mesh format doesn't know " ++ cell_type ++ " cells. Skipping.".

Definition warned (s : wstate) (msg : string) : wstate :=
  {| w_out := w_out s; w_warnings := (w_warnings s ++ [msg])%list; w_cells := w_cells s |}.

(* ===================================================================== *)
(** * Sample files and meshes *)
(* ===================================================================== *)

(** The text of a file with one vertex. *)
Definition one_vertex_text : string :=
  "MeshVersionFormatted 2" ++ nl ++ "Dimension 3" ++ nl ++ "Vertices" ++ nl ++
  "1" ++ nl ++ "0.0 0.0 0.0 7" ++ nl ++ "End" ++ nl.

(** The header of a little-endian binary file of version 3 and
    dimension 3. *)
Definition sample_header : list byte :=
  (encode_unsigned LittleEndian 4 1 ++ encode_unsigned LittleEndian 4 3 ++
   encode_unsigned LittleEndian 4 3 ++ encode_unsigned LittleEndian 8 24 ++
   encode_unsigned LittleEndian 4 3)%list.

(** A binary file with the header and the terminator only. *)
Definition no_vertices_file : list byte :=
  (sample_header ++ encode_unsigned LittleEndian 4 54 ++
   encode_unsigned LittleEndian 8 0)%list.

(** A binary file whose code word is 2. *)
Definition bad_code_file : list byte :=
  (encode_unsigned LittleEndian 4 2 ++ encode_unsigned LittleEndian 4 3)%list.

(** A binary file with the header and a keyword that no table holds. *)
Definition unknown_keyword_file : list byte :=
  (sample_header ++ encode_unsigned LittleEndian 4 1000)%list.

(** One point at the origin. *)
Definition origin (t : float_dtype) : ndarray :=
  FMat t 3 [[S754_zero false; S754_zero false; S754_zero false]].

(** A mesh of one single-precision point with the reference 16777217
    (2^24 + 1) and one triangle on it. *)
Definition big_label_mesh : Mesh :=
  {| points := Some (origin float32);
     cells := [ {| cb_type := "triangle"; cb_data := IMat int64 3 [[0; 0; 0]] |} ];
     point_data := [("medit:ref", IVec int64 [16777217])];
     cell_data := [("medit:ref", [IVec int64 [5]])] |}.

(** A mesh of one point and one 27-node hexahedron with the nodes
    0, ..., 26. *)
Definition hexahedron27_mesh : Mesh :=
  {| points := Some (origin float64);
     cells := [ {| cb_type := "hexahedron27";
                   cb_data := IMat int32 27 [map Z.of_nat (seq 0 27)] |} ];
     point_data := [("medit:ref", IVec int32 [1])];
     cell_data := [("medit:ref", [IVec int32 [2]])] |}.

(** A mesh with a block of an element type that the format has not. *)
Definition quad8_mesh : Mesh :=
  {| points := Some (origin float64);
     cells := [ {| cb_type := "quad8";
                   cb_data := IMat int32 8 [[0; 0; 0; 0; 0; 0; 0; 0]] |} ];
     point_data := [("medit:ref", IVec int32 [1])];
     cell_data := [("medit:ref", [IVec int32 [2]])] |}.

(* ===================================================================== *)
(** * Relations between the states of a writer *)
(* ===================================================================== *)

(** [keeps R c]: whatever state the action [c] starts in, the state it
    ends in is related to it by [R]. *)
Definition keeps (R : wstate -> wstate -> Prop) {A : Type} (c : W A) : Prop :=
  forall s, R s (fst (c s)).

(** The file has only grown. *)
Definition out_extends (s s' : wstate) : Prop :=
  exists rest, w_out s' = (w_out s ++ rest)%list.

(** The cell blocks of the caller are what they were. *)
Definition same_cells (s s' : wstate) : Prop := w_cells s' = w_cells s.

(** A field of one number in the byte order of the machine. *)
Definition plain_field (k : kind) (size : nat) : field :=
  {| f_repeat := None; f_order := None; f_kind := k; f_size := size |}.

(* ===================================================================== *)
(** * Comparing entries of the registry *)
(* ===================================================================== *)

(** Equality of two entries (name, number of nodes, tag), as a test. *)
Definition entry_eqb (a b : string * Z * Z) : bool :=
  let '(s1, n1, t1) := a in
  let '(s2, n2, t2) := b in
  String.eqb s1 s2 && (n1 =? n2) && (t1 =? t2).

(** [table[k] == v], false when [k] is not a key. *)
Definition lookup_is (table : dict (string * Z * Z)) (k : string) (v : string * Z * Z) : bool :=
  match dict_get table k with
  | Some v' => entry_eqb v' v
  | None => false
  end.

(* ===================================================================== *)
(** * Further sample meshes *)
(* ===================================================================== *)

(** Two points on a line: an array of points with one column. *)
Definition line_mesh : Mesh :=
  {| points := Some (FMat float64 1 [[S754_zero false]; [S754_zero false]]);
     cells := [];
     point_data := [];
     cell_data := [] |}.

(* ===================================================================== *)
(** * Blocks that the reordering takes *)
(* ===================================================================== *)

(** A block of 27-node hexahedra has 27 columns, in every row. *)
Definition block_wf (b : CellBlock) : Prop :=
  cb_type b = "hexahedron27" ->
  columns (cb_data b) = Some 27%nat /\ wf_array (cb_data b).

(* ===================================================================== *)
(** * Keywords of a text file *)
(* ===================================================================== *)

(** No character of the string is whitespace. *)
Definition no_space (s : string) : bool :=
  string_forallb (fun c => negb (py_space c)) s.

(** The keywords that [read_ascii_buffer] names in its chain of tests,
    apart from the element keywords of [DICT_MEDIT]. *)
Definition ascii_section_keywords : list string :=
  [ "MeshVersionFormatted"; "Dimension"; "Vertices"; "Corners"; "Normals";
    "NormalAtVertices"; "SubDomainFromMesh"; "SubDomainFromGeom";
    "VertexOnGeometricVertex"; "VertexOnGeometricEdge"; "EdgeOnGeometricEdge";
    "Identifier"; "Geometry"; "RequiredVertices"; "TangentAtVertices";
    "Tangents"; "Ridges"; "End"; "END" ].

(* ===================================================================== *)
(** * Two machines reading one binary file *)
(* ===================================================================== *)

Definition other_order (o : byteorder) : byteorder :=
  match o with LittleEndian => BigEndian | BigEndian => LittleEndian end.

(** The byte order in which a machine takes the numbers of a file whose
    code word it has read as [code]. *)
Definition file_order (native : byteorder) (code : Z) : byteorder :=
  if code =? 16777216 then other_order native else native.

(** Two fields that machines [n1] and [n2] decode alike. *)
Definition same_field (n1 n2 : byteorder) (a b : field) : Prop :=
  f_repeat a = f_repeat b /\ f_kind a = f_kind b /\ f_size a = f_size b /\
  order_of n1 a = order_of n2 b.

Definition same_dtype (n1 n2 : byteorder) (d1 d2 : np_dtype_t) : Prop :=
  match d1, d2 with
  | Plain a, Plain b => same_field n1 n2 a b
  | Structured fs, Structured gs => Forall2 (same_field n1 n2) fs gs
  | _, _ => False
  end.

Definition same_raw (n1 n2 : byteorder) (a b : raw_array) : Prop :=
  same_dtype n1 n2 (ra_dtype a) (ra_dtype b) /\ ra_items a = ra_items b.

(** Two results that are the same exception, or values related by [R]. *)
Definition same_result {A B : Type} (R : A -> B -> Prop) (r1 : result A) (r2 : result B)
  : Prop :=
  match r1, r2 with
  | Ok a, Ok b => R a b
  | Raise e1, Raise e2 => e1 = e2
  | _, _ => False
  end.

(** The layout of a template as a list of items: an item is closed by
    an ["i"] or an ["r"]; the repeat counts of a template that ends with
    ["d"] are an item of their own. *)
Fixpoint layout_items (dim : Z) (itype ftype : string) (template : string)
    (pre : string) : list string :=
  match template with
  | EmptyString => match pre with EmptyString => [] | _ => [pre] end
  | String s rest =>
      if Ascii.eqb s "i" then (pre ++ itype) :: layout_items dim itype ftype rest ""
      else if Ascii.eqb s "r" then (pre ++ ftype) :: layout_items dim itype ftype rest ""
      else layout_items dim itype ftype rest (pre ++ str_int dim)
  end.

(** No character of the string is a comma. *)
Definition no_comma (s : string) : bool :=
  string_forallb (fun c => negb (Ascii.eqb c ",")) s.

(** The string is empty or begins with a character that is no digit. *)
Definition starts_plain (s : string) : bool :=
  match s with
  | String c _ => negb (is_digit c)
  | EmptyString => true
  end.

(** A type string of one machine and the one of the other. *)
Definition same_type (n1 n2 : byteorder) (t1 t2 : string) : Prop :=
  starts_plain t1 = true /\ starts_plain t2 = true /\
  no_comma t1 = true /\ no_comma t2 = true /\
  same_result (same_field n1 n2) (parse_field t1) (parse_field t2).

(** Two items of a layout that are parsed alike. *)
Definition same_item (n1 n2 : byteorder) (a b : string) : Prop :=
  no_comma a = true /\ no_comma b = true /\
  same_result (same_field n1 n2) (parse_field a) (parse_field b).

(* ===================================================================== *)
(** * Cell blocks and their references *)
(* ===================================================================== *)

(** A block of cells and its array of references, as the readers build
    them: the element type is one of the registry, the data are a matrix
    of integers with the number of nodes of the type in every row, and
    the references a vector of the same dtype with one entry per row. *)
Definition block_aligned (b : CellBlock) (refs : ndarray) : Prop :=
  exists (key : string) (n tag : Z) (t : int_dtype) (rows : list (list Z))
         (labels : list Z),
    (dict_get DICT_MEDIT key = Some (cb_type b, n, tag) \/
     dict_get DICT_GMFMEDIT key = Some (cb_type b, n, tag)) /\
    cb_data b = IMat t (Z.to_nat n) rows /\
    rect (Z.to_nat n) rows /\
    refs = IVec t labels /\
    List.length labels = List.length rows.

(** The points of a state of the ASCII reader with their references. *)
Definition points_aligned (pts : option ndarray) (point_data : dict ndarray) : Prop :=
  match pts with
  | None => True
  | Some p =>
      exists (t : float_dtype) (d : nat) (rows : list (list spec_float))
             (labels : list Z),
        p = FMat t d rows /\ rect d rows /\
        dict_get point_data "medit:ref" = Some (IVec int64 labels) /\
        List.length labels = List.length rows
  end.

(** What the readers keep true of their variables. *)
Definition state_aligned (st : reader_state) : Prop :=
  Forall2 block_aligned (st_cells st) (st_cell_refs st) /\
  points_aligned (st_points st) (st_point_data st).

(** The state in which a turn of a loop ends. *)
Definition ctl_state {F : Type} (r : loop_ctl F) : reader_state :=
  match r with Break st => st | Continue _ st => st end.

(* ===================================================================== *)
(** * Further sample files *)
(* ===================================================================== *)

(** The mesh of the text [one_vertex_text]. *)
Definition one_vertex_mesh : Mesh :=
  {| points := Some (origin float64);
     cells := [];
     point_data := [("medit:ref", IVec int64 [7])];
     cell_data := [("medit:ref", [])] |}.

(** The binary file that a little-endian machine writes for
    [big_label_mesh]. *)
Definition triangle_file : list byte :=
  w_out (fst (run_writer (write_binary_file medit_codes_spec LittleEndian big_label_mesh)
                big_label_mesh)).

(** The points of a state of the binary reader with their references,
    in a file of dimension [dim]. *)
Definition binary_points_aligned (dim : Z) (pts : option ndarray)
    (point_data : dict ndarray) : Prop :=
  match pts with
  | None => True
  | Some p =>
      exists (t : float_dtype) (it : int_dtype) (rows : list (list spec_float))
             (labels : list Z),
        p = FMat t (Z.to_nat dim) rows /\ rect (Z.to_nat dim) rows /\
        dict_get point_data "medit:ref" = Some (IVec it labels) /\
        List.length labels = List.length rows
  end.

(** The table gives the vertices the template of [dim] reals and one
    integer. *)
Definition vertices_template (medit_codes : Z -> option (string * string * string))
  : Prop :=
  forall (tag : Z) (count_flag template : string),
    medit_codes tag = Some ("GmfVertices", count_flag, template) -> template = "dri".

(* ===================================================================== *)
(** * Numbers that a field holds *)
(* ===================================================================== *)

(** [z] is a value of the signed integers of [size] bytes. *)
Definition fits (size : nat) (z : Z) : Prop :=
  - 2 ^ (8 * Z.of_nat size - 1) <= z < 2 ^ (8 * Z.of_nat size - 1).

(** The numbers of the records of a block of cells: for every element
    its nodes, counted from one, and its reference. *)
Definition cell_records (t : int_dtype) (rows : list (list Z)) (labs : list Z)
  : list (list Z) :=
  map (fun i => (map (fun z => wrap_int t (z + 1)) (nth i rows []) ++ [nth i labs 0])%list)
      (seq 0 (List.length rows)).

(** The values of the binary64 format: zeros, infinities, the NaN, and
    the finite numbers with a canonical mantissa and exponent (normal
    or subnormal). *)
Definition valid_float64 (x : spec_float) : Prop :=
  match x with
  | S754_finite _ m e =>
      (2 ^ 52 <= Zpos m < 2 ^ 53 /\ -1074 <= e <= 971) \/
      (Zpos m < 2 ^ 52 /\ e = -1074)
  | _ => True
  end.

(* ===================================================================== *)
(** * ASCII words *)
(* ===================================================================== *)

(** [str.isascii]: every character of the string is below 128. *)
Definition isascii (s : string) : bool :=
  string_forallb (fun c => Nat.ltb (nat_of_ascii c) 128) s.

(* ===================================================================== *)
(** * Cell blocks of the binary reader *)
(* ===================================================================== *)

(** A block of cells and its array of references, as the binary reader
    builds them: the element type is one of the registry, the data are a
    matrix of integers with the number of nodes of the type in every
    row, and the references a vector of integers of the same width with
    one entry per row.  The two arrays need not have the same dtype: in
    a file of the other byte order the references keep the order of the
    file, the data do not. *)
Definition block_matched (b : CellBlock) (refs : ndarray) : Prop :=
  exists (key : string) (n tag : Z) (t t' : int_dtype) (rows : list (list Z))
         (labels : list Z),
    (dict_get DICT_MEDIT key = Some (cb_type b, n, tag) \/
     dict_get DICT_GMFMEDIT key = Some (cb_type b, n, tag)) /\
    cb_data b = IMat t (Z.to_nat n) rows /\
    rect (Z.to_nat n) rows /\
    refs = IVec t' labels /\
    isize t' = isize t /\
    List.length labels = List.length rows.

(* ===================================================================== *)
(** * A keyword of a solution field *)
(* ===================================================================== *)

(** A code table that has, besides the entries of [medit_codes_spec],
    the keyword of a solution field under tag 26: no element type goes
    with it, and its record template has a letter other than [i], [r]
    and [d]. *)
Definition solution_codes (tag : Z) : option (string * string * string) :=
  if tag =? 26 then Some ("GmfSolAtPyramids", "i", "sr") else medit_codes_spec tag.

(** A little-endian binary file of version 3 with the header, a block of
    that keyword with no item in it (the keyword, the position behind
    the block, the count 0) and the terminator. *)
Definition solution_file : list byte :=
  (sample_header ++
   encode_unsigned LittleEndian 4 26 ++ encode_unsigned LittleEndian 8 40 ++
   encode_unsigned LittleEndian 4 0 ++
   encode_unsigned LittleEndian 4 54 ++ encode_unsigned LittleEndian 8 0)%list.

(* ===================================================================== *)
(** * The widths of a binary file that was written *)
(* ===================================================================== *)



(* ===================================================================== *)
(** * Properties of the record templates *)
(* ===================================================================== *)

Section ProduceDtypeFacts.

Variable dim : Z.
Variables itype ftype : string.

Lemma produce_loop_invalid rest res :
  string_forallb template_char rest = false ->
  produce_loop dim itype ftype rest res = Raise (ReadError "Invalid string type").
Proof.
  revert res. induction rest as [|c rest IH]; intros res H; simpl in *.
  - discriminate.
  - unfold template_char in H.
    destruct (Ascii.eqb c "i"); [apply IH; exact H|].
    destruct (Ascii.eqb c "r"); [apply IH; exact H|].
    destruct (Ascii.eqb c "d"); [apply IH; exact H|].
    reflexivity.
Qed.

Lemma append_assoc3 (a b c : string) : (a ++ b) ++ c = a ++ b ++ c.
Proof. induction a; simpl; congruence. Qed.

Lemma append_empty_r (a : string) : a ++ "" = a.
Proof. induction a; simpl; congruence. Qed.

Lemma layout_fields_nonempty rest : forall pre,
  rest <> "" ->
  string_forallb template_char rest = true ->
  d_followed rest = true ->
  layout_fields dim itype ftype rest pre <> [].
Proof.
  induction rest as [|c rest IH]; intros pre Hne Hc Hd; [congruence|].
  simpl in *.
  apply andb_prop in Hc. destruct Hc as [Hc Hrest].
  apply andb_prop in Hd. destruct Hd as [Hd Hdrest].
  unfold template_char in Hc.
  destruct (Ascii.eqb c "i"); [discriminate|].
  destruct (Ascii.eqb c "r"); [discriminate|].
  destruct (Ascii.eqb c "d"); [|discriminate].
  apply IH; auto. destruct rest; [discriminate Hd|congruence].
Qed.

Lemma concat_cons (sep f : string) (fs : list string) :
  fs <> [] -> String.concat sep (f :: fs) = f ++ sep ++ String.concat sep fs.
Proof. destruct fs; [congruence|reflexivity]. Qed.

(** The loop's accumulator: [res] is the fields closed so far, each with
    its comma, and [pre] the repeat counts of the field being read. *)
Lemma produce_loop_valid rest : forall res pre,
  (rest = "" -> pre = "") ->
  string_forallb template_char rest = true ->
  d_followed rest = true ->
  produce_loop dim itype ftype rest (res ++ pre) =
  Ok (res ++ String.concat "," (layout_fields dim itype ftype rest pre)).
Proof.
  induction rest as [|c rest IH]; intros res pre Hpre Hc Hd.
  - rewrite (Hpre eq_refl). reflexivity.
  - cbn [produce_loop layout_fields string_forallb d_followed] in *.
    apply andb_prop in Hc. destruct Hc as [Hc Hrest].
    apply andb_prop in Hd. destruct Hd as [Hd Hdrest].
    assert (Hfield : forall ty,
      produce_loop dim itype ftype rest
        ((res ++ pre) ++ ty ++ match rest with "" => "" | _ => "," end) =
      Ok (res ++ String.concat ","
            ((pre ++ ty) :: layout_fields dim itype ftype rest ""))).
    { intros ty. destruct rest as [|c' rest'].
      - simpl. rewrite append_empty_r, append_assoc3. reflexivity.
      - rewrite <- (append_empty_r ((res ++ pre) ++ ty ++ ",")).
        rewrite IH by (auto; discriminate).
        rewrite concat_cons
          by (apply layout_fields_nonempty; auto; discriminate).
        rewrite !append_assoc3. reflexivity. }
    unfold template_char in Hc.
    destruct (Ascii.eqb c "i"); [apply Hfield|].
    destruct (Ascii.eqb c "r"); [apply Hfield|].
    destruct (Ascii.eqb c "d") eqn:Ed; [|discriminate].
    rewrite append_assoc3. apply IH; auto.
    intros ->. discriminate.
Qed.

(** C10. [_produce_dtype] raises [ReadError] on every template that has a
    character outside ["i"], ["r"], ["d"] (so it returns no layout for
    such a template), and on every template over these characters in
    which each ["d"] is followed by another character it returns the
    comma-separated layout: the index type for an ["i"], the float type
    for an ["r"], and [dim] as a repeat count in front of the field that
    follows a ["d"]. *)
Theorem produce_dtype_spec (string_type : string) :
  (string_forallb template_char string_type = false ->
   _produce_dtype dim itype ftype string_type = Raise (ReadError "Invalid string type")) /\
  (string_forallb template_char string_type = true ->
   d_followed string_type = true ->
   _produce_dtype dim itype ftype string_type =
   Ok (layout_of_template dim itype ftype string_type)).
Proof.
  split.
  - apply produce_loop_invalid.
  - intros Hc Hd. unfold _produce_dtype, layout_of_template.
    apply (produce_loop_valid string_type "" ""); auto.
Qed.

End ProduceDtypeFacts.

(** The vertex record of a three-dimensional version-3 file. *)
Lemma produce_dtype_spec_witness :
  _produce_dtype 3 "i4" "f8" "dri" = Ok "3f8,i4" /\
  _produce_dtype 3 "i4" "f8" "dxi" = Raise (ReadError "Invalid string type").
Proof.
  split.
  - rewrite (proj2 (produce_dtype_spec 3 "i4" "f8" "dri")); reflexivity.
  - apply (proj1 (produce_dtype_spec 3 "i4" "f8" "dxi")); reflexivity.
Defined.

(* ===================================================================== *)
(** * Properties of the cell reordering *)
(* ===================================================================== *)

(** The comprehension succeeds when the module is loaded, and gives the
    inverse order of the 27-node hexahedron. *)
Lemma meshio_to_medit_value :
  _meshio_to_medit_comprehension =
  Ok [ ("hexahedron27",
        (seq 0 20 ++ [24; 25; 22; 21; 23; 20; 26])%nat%list) ].
Proof. reflexivity. Qed.

Lemma select_length_27 {A : Type} (row : list A) :
  List.length row = 27%nat ->
  exists a0 a1 a2 a3 a4 a5 a6 a7 a8 a9 a10 a11 a12 a13 a14 a15 a16 a17 a18 a19
         a20 a21 a22 a23 a24 a25 a26,
    row = [a0; a1; a2; a3; a4; a5; a6; a7; a8; a9; a10; a11; a12; a13; a14;
           a15; a16; a17; a18; a19; a20; a21; a22; a23; a24; a25; a26].
Proof.
  intros H.
  do 27 (destruct row as [|? row]; [discriminate H|]).
  destruct row; [|discriminate H].
  repeat eexists.
Qed.

(** On one row of 27 entries the two orders undo each other, whichever
    is applied first. *)
Lemma select_hexa27_inverse {A : Type} (row : list A) :
  List.length row = 27%nat ->
  select hexa27_out (select hexa27_in row) = row /\
  select hexa27_in (select hexa27_out row) = row.
Proof.
  intros H. destruct (select_length_27 row H) as
    (a0 & a1 & a2 & a3 & a4 & a5 & a6 & a7 & a8 & a9 & a10 & a11 & a12 & a13 &
     a14 & a15 & a16 & a17 & a18 & a19 & a20 & a21 & a22 & a23 & a24 & a25 &
     a26 & ->).
  split; reflexivity.
Qed.

Lemma select_hexa27_length {A : Type} (row : list A) :
  List.length row = 27%nat ->
  List.length (select hexa27_in row) = 27%nat /\
  List.length (select hexa27_out row) = 27%nat.
Proof.
  intros H. destruct (select_length_27 row H) as
    (a0 & a1 & a2 & a3 & a4 & a5 & a6 & a7 & a8 & a9 & a10 & a11 & a12 & a13 &
     a14 & a15 & a16 & a17 & a18 & a19 & a20 & a21 & a22 & a23 & a24 & a25 &
     a26 & ->).
  split; reflexivity.
Qed.

Lemma map_select_inverse {A : Type} (rows : list (list A)) :
  rect 27 rows ->
  map (select hexa27_out) (map (select hexa27_in) rows) = rows /\
  map (select hexa27_in) (map (select hexa27_out) rows) = rows.
Proof.
  induction 1 as [|r rows Hr _ [IH1 IH2]]; [split; reflexivity|].
  cbn [map]. destruct (select_hexa27_inverse r Hr) as [E1 E2].
  rewrite E1, E2, IH1, IH2. split; reflexivity.
Qed.

Lemma rect_map_select_in {A : Type} (rows : list (list A)) :
  rect 27 rows -> rect 27 (map (select hexa27_in) rows).
Proof.
  induction 1 as [|r rows Hr Hrows IH]; constructor; [|exact IH].
  exact (proj1 (select_hexa27_length r Hr)).
Qed.

Lemma rect_map_select_out {A : Type} (rows : list (list A)) :
  rect 27 rows -> rect 27 (map (select hexa27_out) rows).
Proof.
  induction 1 as [|r rows Hr Hrows IH]; constructor; [|exact IH].
  exact (proj2 (select_hexa27_length r Hr)).
Qed.

(** Reading a 27-column block into meshio's order and writing it back to
    Medit's order gives the block again, and so does the other way round. *)
Lemma convert_hexahedron27_roundtrip (data : ndarray) :
  columns data = Some 27%nat -> wf_array data ->
  (data1 <- _convert_cell_data "hexahedron27" data _medit_to_meshio ;;
   _convert_cell_data "hexahedron27" data1 _meshio_to_medit) = Ok data /\
  (data1 <- _convert_cell_data "hexahedron27" data _meshio_to_medit ;;
   _convert_cell_data "hexahedron27" data1 _medit_to_meshio) = Ok data.
Proof.
  intros Hc Hwf.
  destruct data as [t v|t v|t c rows|t c rows]; try discriminate Hc;
    injection Hc as ->; simpl in Hwf;
    destruct (map_select_inverse rows Hwf) as [E1 E2];
    split; cbn -[select];
    [ change (map (select _) (map (select _) rows)) with
        (map (select hexa27_out) (map (select hexa27_in) rows)); rewrite E1
    | change (map (select _) (map (select _) rows)) with
        (map (select hexa27_in) (map (select hexa27_out) rows)); rewrite E2
    | change (map (select _) (map (select _) rows)) with
        (map (select hexa27_out) (map (select hexa27_in) rows)); rewrite E1
    | change (map (select _) (map (select _) rows)) with
        (map (select hexa27_in) (map (select hexa27_out) rows)); rewrite E2 ];
    reflexivity.
Qed.

(** An element type that the table does not list is left as it is. *)
Lemma convert_unlisted (cell_type : string) (data : ndarray) (table : dict (list nat)) :
  dict_get table cell_type = None ->
  _convert_cell_data cell_type data table = Ok data.
Proof. intros H. unfold _convert_cell_data. rewrite H. reflexivity. Qed.

Lemma dict_get_medit_to_meshio (cell_type : string) :
  cell_type <> "hexahedron27" ->
  dict_get _medit_to_meshio cell_type = None /\
  dict_get _meshio_to_medit cell_type = None.
Proof.
  intros H.
  assert (E : _meshio_to_medit =
              [ ("hexahedron27",
                 (seq 0 20 ++ [24; 25; 22; 21; 23; 20; 26])%nat%list) ])
    by reflexivity.
  rewrite E. unfold _medit_to_meshio. cbn [dict_get].
  destruct (String.eqb_spec "hexahedron27" cell_type); [congruence|].
  split; reflexivity.
Qed.

(** C4. On every row of 27 node indices the read-direction order
    [_medit_to_meshio] followed by the write-direction order
    [_meshio_to_medit] gives the row again (and the other way round, so the
    two are inverse permutations); [_convert_cell_data] does so on every
    block of 27 columns; on an element type that the table does not hold
    both directions of [_convert_cell_data] return the block unchanged. *)
Theorem hexahedron27_permutations_inverse :
  (forall row : list Z, List.length row = 27%nat ->
     apply_order "hexahedron27" _meshio_to_medit
       (apply_order "hexahedron27" _medit_to_meshio row) = row /\
     apply_order "hexahedron27" _medit_to_meshio
       (apply_order "hexahedron27" _meshio_to_medit row) = row) /\
  (forall data : ndarray, columns data = Some 27%nat -> wf_array data ->
     (data1 <- _convert_cell_data "hexahedron27" data _medit_to_meshio ;;
      _convert_cell_data "hexahedron27" data1 _meshio_to_medit) = Ok data) /\
  (forall (cell_type : string) (data : ndarray),
     dict_mem _medit_to_meshio cell_type = false ->
     _convert_cell_data cell_type data _medit_to_meshio = Ok data /\
     _convert_cell_data cell_type data _meshio_to_medit = Ok data).
Proof.
  split; [|split].
  - intros row H. exact (select_hexa27_inverse row H).
  - intros data Hc Hwf. exact (proj1 (convert_hexahedron27_roundtrip data Hc Hwf)).
  - intros cell_type data H.
    assert (Hne : cell_type <> "hexahedron27").
    { intros ->. discriminate H. }
    destruct (dict_get_medit_to_meshio cell_type Hne) as [H1 H2].
    split; apply convert_unlisted; assumption.
Qed.

(* ===================================================================== *)
(** * Properties of the registry *)
(* ===================================================================== *)

Lemma dict_get_In {V : Type} (d : dict V) (k : string) (v : V) :
  dict_get d k = Some v -> In (k, v) d.
Proof.
  induction d as [|[k' v'] d IH]; cbn [dict_get]; [discriminate|].
  destruct (String.eqb_spec k' k) as [->|Hne].
  - intros H. injection H as ->. left. reflexivity.
  - intros H. right. apply IH, H.
Qed.

(** In both reading tables the 27-node hexahedron has 27 nodes. *)
Lemma registry_hexahedron27 (table : dict (string * Z * Z)) (k ty : string) (n tag : Z) :
  table = DICT_MEDIT \/ table = DICT_GMFMEDIT ->
  dict_get table k = Some (ty, n, tag) ->
  ty = "hexahedron27" -> n = 27.
Proof.
  intros Ht Hget Hty. apply dict_get_In in Hget.
  assert (F : forall table', table' = DICT_MEDIT \/ table' = DICT_GMFMEDIT ->
              Forall (fun item : string * (string * Z * Z) =>
                        let '(_, (ty', n', _)) := item in
                        String.eqb ty' "hexahedron27" = true -> n' = 27) table').
  { intros table' [->| ->]; vm_compute; repeat constructor; intros; discriminate. }
  pose proof (proj1 (Forall_forall _ _) (F table Ht) _ Hget) as A.
  cbn in A. apply A. subst ty. reflexivity.
Qed.

(** A block of integers built by a reader is accepted by the
    reordering. *)
Lemma block_ok_reader (table : dict (string * Z * Z)) (k ty : string) (n tag : Z)
    (t : int_dtype) (rows : list (list Z)) :
  table = DICT_MEDIT \/ table = DICT_GMFMEDIT ->
  dict_get table k = Some (ty, n, tag) ->
  block_ok {| cb_type := ty;
              cb_data := np_add (IMat t (Z.to_nat n) rows) (-1) |}.
Proof.
  intros Ht Hget. unfold block_ok, _convert_cell_data. cbn [cb_type cb_data np_add].
  unfold _medit_to_meshio. cbn [dict_get].
  destruct (String.eqb_spec "hexahedron27" ty) as [<-|Hne]; [|reflexivity].
  rewrite (registry_hexahedron27 table k _ n tag Ht Hget eq_refl).
  reflexivity.
Qed.

Lemma convert_cells_ok (cells : list CellBlock) :
  Forall block_ok cells ->
  exists cells', _convert_cells cells _medit_to_meshio = Ok cells' /\
                 List.length cells' = List.length cells.
Proof.
  unfold _convert_cells.
  induction 1 as [|b cells Hb _ (cells' & IH & Hlen)].
  - exists []. split; reflexivity.
  - cbn [mapM]. unfold block_ok in Hb.
    destruct (_convert_cell_data (cb_type b) (cb_data b) _medit_to_meshio) as [d|];
      [|discriminate Hb].
    cbn [bind]. rewrite IH. cbn [bind]. eexists. split; [reflexivity|].
    cbn [List.length]. rewrite Hlen. reflexivity.
Qed.

(* ===================================================================== *)
(** * The binary reader *)
(* ===================================================================== *)

Section BinaryReaderFacts.

Variable medit_codes : Z -> option (string * string * string).
Variable native : byteorder.

Lemma keytype_widths (code version : Z) :
  keytype (widths_of native code version) = key_type native code.
Proof.
  unfold widths_of.
  destruct (version =? 1), (version =? 2), (version =? 3); reflexivity.
Qed.

(** C7. [read_binary_buffer] raises [ReadError] when the leading code
    word is neither 1 nor 16777216, when the version is outside 1..4,
    when the third field of the header is not the dimension keyword 3,
    and when the dimension is neither 2 nor 3; when the four checks pass
    it goes on with the loop over the blocks, on the rest of the file and
    with the widths of the version. *)
Theorem binary_header_checks (f f1 : list byte) (code : Z) :
  read_scalar native f "i4" = Ok (code, f1) ->
  (code <> 1 -> code <> 16777216 ->
   read_binary_buffer medit_codes native f = Raise (ReadError "Invalid code")) /\
  (forall (version : Z) (f2 : list byte),
     code = 1 \/ code = 16777216 ->
     read_scalar native f1 (key_type native code) = Ok (version, f2) ->
     (version < 1 \/ version > 4 ->
      read_binary_buffer medit_codes native f = Raise (ReadError "Invalid version")) /\
     (forall (field : Z) (f3 : list byte),
        1 <= version <= 4 ->
        read_scalar native f2 (key_type native code) = Ok (field, f3) ->
        (field <> 3 ->
         read_binary_buffer medit_codes native f =
         Raise (ReadError ("Invalid dimension code : " ++ str_int field ++ " it should be 3"))) /\
        (forall (pos : raw_array) (f4 f5 : list byte) (dim : Z),
           field = 3 ->
           np_fromfile f3 1 (postype (widths_of native code version)) = Ok (pos, f4) ->
           read_scalar native f4 (key_type native code) = Ok (dim, f5) ->
           (dim <> 2 -> dim <> 3 ->
            read_binary_buffer medit_codes native f =
            Raise (ReadError ("Invalid mesh dimension : " ++ str_int dim))) /\
           (dim = 2 \/ dim = 3 ->
            read_binary_buffer medit_codes native f =
            match read_binary_loop medit_codes native (S (List.length f5))
                    (widths_of native code version) dim f5 initial_state with
            | Some r => st <- r ;; finish_read st
            | None => Raise ValueError
            end)))).
Proof.
  intros Hcode. unfold read_binary_buffer, read_binary_header.
  rewrite Hcode. cbn [bind]. split.
  - intros H1 H2.
    apply Z.eqb_neq in H1, H2. rewrite H1, H2. reflexivity.
  - intros version f2 Hc Hversion.
    assert (Ec : negb (code =? 1) && negb (code =? 16777216) = false).
    { destruct Hc as [-> | ->]; reflexivity. }
    rewrite Ec, Hversion. cbn [bind]. split.
    + intros Hv.
      assert (Ev : (version <? 1) || (version >? 4) = true).
      { destruct Hv as [Hv | Hv].
        - apply Z.ltb_lt in Hv. rewrite Hv. reflexivity.
        - apply Z.gtb_gt in Hv. rewrite Hv. apply orb_true_r. }
      rewrite Ev. reflexivity.
    + intros field f3 Hv Hfield.
      assert (Ev : (version <? 1) || (version >? 4) = false).
      { apply orb_false_iff.
        split; [apply Z.ltb_ge; lia | rewrite Z.gtb_ltb; apply Z.ltb_ge; lia]. }
      rewrite Ev, keytype_widths, Hfield. cbn [bind]. split.
      * intros Hf. apply Z.eqb_neq in Hf. rewrite Hf. reflexivity.
      * intros pos f4 f5 dim -> Hpos Hdim.
        rewrite Hpos. cbn [bind negb Z.eqb Pos.eqb]. rewrite Hdim. cbn [bind]. split.
        -- intros H2 H3. apply Z.eqb_neq in H2, H3. rewrite H2, H3. reflexivity.
        -- intros Hd.
           assert (Ed : negb (dim =? 2) && negb (dim =? 3) = false).
           { destruct Hd as [-> | ->]; reflexivity. }
           rewrite Ed. reflexivity.
Qed.

(** ** Reading from a binary file *)

Lemma np_dtype_key_type (code : Z) :
  exists o, np_dtype (key_type native code) =
            Ok (Plain {| f_repeat := None; f_order := o; f_kind := KInt; f_size := 4 |}).
Proof.
  unfold key_type, order_prefix, swapped_order.
  destruct (code =? 16777216); [destruct native|]; eexists; reflexivity.
Qed.

Lemma firstn_skipn_length {A : Type} (n : nat) (l : list A) :
  (List.length (skipn n l) <= List.length l)%nat.
Proof. rewrite length_skipn. lia. Qed.

(** What is left of the file after a read is no longer than before. *)
Lemma np_fromfile_length (f f' : list byte) (count : Z) (dtype : string) (a : raw_array) :
  np_fromfile f count dtype = Ok (a, f') ->
  (List.length f' <= List.length f)%nat.
Proof.
  unfold np_fromfile. destruct (np_dtype dtype) as [d|]; [|discriminate]. cbn [bind].
  destruct (count <? 0); [|destruct (_ <? count)]; intros H; injection H as _ <-;
    try apply firstn_skipn_length. simpl. lia.
Qed.

Lemma read_scalar_length (f f' : list byte) (dtype : string) (v : Z) :
  read_scalar native f dtype = Ok (v, f') ->
  (List.length f' <= List.length f)%nat.
Proof.
  unfold read_scalar. destruct (np_fromfile f 1 dtype) as [[a f1]|] eqn:E; [|discriminate].
  cbn [bind]. destruct (np_item native a); [|discriminate]. cbn [bind].
  intros H. injection H as _ <-. eapply np_fromfile_length; eassumption.
Qed.

(** Reading the keyword of the next block: four bytes, or nothing at the
    end of the file. *)
Lemma np_fromfile_keyword (code : Z) (f : list byte) :
  exists fd,
    np_dtype (key_type native code) = Ok (Plain fd) /\ f_kind fd = KInt /\
    np_fromfile f 1 (key_type native code) =
    Ok (if Nat.leb 4 (List.length f)
        then ({| ra_dtype := Plain fd; ra_items := [firstn 4 f] |}, skipn 4 f)
        else ({| ra_dtype := Plain fd; ra_items := [] |}, [])).
Proof.
  destruct (np_dtype_key_type code) as [o E].
  eexists. split; [exact E|]. split; [reflexivity|].
  unfold np_fromfile. rewrite E. cbn [bind].
  change (dtype_itemsize _) with 4%nat.
  cbn [Z.ltb Z.compare].
  destruct (Nat.leb 4 (List.length f)) eqn:El.
  - apply Nat.leb_le in El.
    assert (Hd : (1 <= List.length f / 4)%nat).
    { apply Nat.div_le_lower_bound; lia. }
    destruct (Z.of_nat (List.length f / 4) <? 1) eqn:E1; [apply Z.ltb_lt in E1; lia|].
    reflexivity.
  - apply Nat.leb_gt in El.
    rewrite (Nat.div_small (List.length f) 4) by lia. reflexivity.
Qed.

(** ** One turn of the loop *)

(** With fewer than four bytes left, the turn warns and ends the loop. *)
Lemma read_binary_block_eof (code version dim : Z) (f : list byte) (st : reader_state) :
  (List.length f < 4)%nat ->
  read_binary_block medit_codes native (widths_of native code version) dim f st =
  Ok (Break (warn eof_message st)).
Proof.
  intros Hlen. unfold read_binary_block. rewrite keytype_widths.
  destruct (np_fromfile_keyword code f) as (fd & _ & _ & E). rewrite E.
  destruct (Nat.leb 4 (List.length f)) eqn:El; [apply Nat.leb_le in El; lia|].
  reflexivity.
Qed.

Lemma read_binary_block_keyword (code version dim : Z) (f : list byte) (st : reader_state) :
  (4 <= List.length f)%nat ->
  exists tag,
    next_keyword native code f = Ok tag /\
    read_binary_block medit_codes native (widths_of native code version) dim f st =
    match medit_codes tag with
    | None => Raise (ReadError "Unsupported field")
    | Some (name, count_flag, field_template) =>
        let w := widths_of native code version in
        let f := skipn 4 f in
        if String.eqb name "GmfEnd" then Ok (Break st)
        else if String.eqb name "GmfReserved" then Ok (Continue f st)
        else
          '(_, f) <- np_fromfile f 1 (postype w) ;;
          '(nitems, f) <-
             (if String.eqb count_flag "i" then read_scalar native f (itype w)
              else Ok (1, f)) ;;
          layout <- _produce_dtype dim (itype w) (ftype w) field_template ;;
          '(out, f) <- np_fromfile f nitems layout ;;
          match dict_get DICT_GMFMEDIT name with
          | None =>
              Ok (Continue f
                    (warn ("meshio doesn't know " ++ name ++ " type. Skipping.") st))
          | Some (meshio_type, ncols, _) =>
              if String.eqb name "GmfVertices" then
                pts <- get_field native out 0 ;;
                refs <- get_field native out 1 ;;
                Ok (Continue f
                      {| st_points := Some pts;
                         st_cells := st_cells st;
                         st_point_data := dict_set (st_point_data st) "medit:ref" refs;
                         st_cell_refs := st_cell_refs st;
                         st_warnings := st_warnings st |})
              else
                let n := Z.to_nat ncols in
                '(t, rows) <- view_reshape native out (itype w) nitems (S n) ;;
                Ok (Continue f
                      {| st_points := st_points st;
                         st_cells :=
                           (st_cells st ++
                            [ {| cb_type := meshio_type;
                                 cb_data := np_add (IMat t n (map (firstn n) rows)) (-1) |} ])%list;
                         st_point_data := st_point_data st;
                         st_cell_refs :=
                           (st_cell_refs st ++
                            [ IVec t (flat_map (fun r => skipn n r) rows) ])%list;
                         st_warnings := st_warnings st |})
          end
    end.
Proof.
  intros Hlen. unfold read_binary_block, next_keyword. rewrite keytype_widths.
  destruct (np_fromfile_keyword code f) as (fd & _ & Hk & E). rewrite E.
  destruct (Nat.leb 4 (List.length f)) eqn:El; [|apply Nat.leb_gt in El; lia].
  cbn [bind ra_items ra_dtype np_item]. rewrite Hk.
  eexists. split; [reflexivity|]. cbn [bind]. reflexivity.
Qed.

Ltac bind_case H :=
  match type of H with
  | context [bind ?c _] =>
      let E := fresh "E" in
      destruct c as [[? ?]|?] eqn:E; cbn [bind] in H; [|discriminate H]
  end.

Ltac bind_case1 H :=
  match type of H with
  | context [bind ?c _] =>
      let E := fresh "E" in
      destruct c as [?|?] eqn:E; cbn [bind] in H; [|discriminate H]
  end.

(** A turn that does not end the loop has read at least the four bytes
    of a keyword. *)
Lemma read_binary_block_shorter (code version dim : Z) (f f' : list byte)
    (st st' : reader_state) :
  read_binary_block medit_codes native (widths_of native code version) dim f st =
  Ok (Continue f' st') ->
  (List.length f' + 4 <= List.length f)%nat.
Proof.
  intros H.
  destruct (Nat.leb 4 (List.length f)) eqn:El.
  2:{ apply Nat.leb_gt in El. rewrite read_binary_block_eof in H by assumption.
      discriminate H. }
  apply Nat.leb_le in El.
  destruct (read_binary_block_keyword code version dim f st El) as (tag & _ & E).
  rewrite E in H. clear E.
  assert (Hskip : (List.length (skipn 4 f) + 4 <= List.length f)%nat).
  { rewrite length_skipn. lia. }
  destruct (medit_codes tag) as [[[name cf] tpl]|]; [|discriminate H].
  cbv zeta in H.
  destruct (String.eqb name "GmfEnd"); [discriminate H|].
  destruct (String.eqb name "GmfReserved").
  { injection H as <- _. exact Hskip. }
  bind_case H. apply np_fromfile_length in E.
  assert (Hn : exists nitems l0,
             (List.length l0 <= List.length l)%nat /\
             (if String.eqb cf "i"
              then read_scalar native l (itype (widths_of native code version))
              else Ok (1, l)) = Ok (nitems, l0)).
  { destruct (String.eqb cf "i").
    - bind_case H. exists z, l0. split; [|reflexivity].
      eapply read_scalar_length; eassumption.
    - exists 1, l. split; [lia|reflexivity]. }
  destruct Hn as (nitems & l0 & Hl0 & En). rewrite En in H. cbn [bind] in H.
  bind_case1 H. bind_case H. apply np_fromfile_length in E1.
  destruct (dict_get DICT_GMFMEDIT name) as [[[ty nc] tg]|].
  - destruct (String.eqb name "GmfVertices").
    + bind_case1 H. bind_case1 H. injection H as <- _. lia.
    + bind_case H. injection H as <- _. lia.
  - injection H as <- _. lia.
Qed.

(** ** The loop *)

Lemma read_binary_loop_more (fuel : nat) : forall w dim f st r,
  read_binary_loop medit_codes native fuel w dim f st = Some r ->
  read_binary_loop medit_codes native (S fuel) w dim f st = Some r.
Proof.
  induction fuel as [|fuel IH]; intros w dim f st r H; [discriminate H|].
  cbn [read_binary_loop] in H |- *.
  destruct (read_binary_block medit_codes native w dim f st) as [[st'|f' st']|e];
    try exact H.
  apply IH in H. exact H.
Qed.

Lemma read_binary_loop_le (fuel fuel' : nat) w dim f st r :
  (fuel <= fuel')%nat ->
  read_binary_loop medit_codes native fuel w dim f st = Some r ->
  read_binary_loop medit_codes native fuel' w dim f st = Some r.
Proof.
  induction 1 as [|fuel' _ IH]; [auto|].
  intros H. apply read_binary_loop_more, IH, H.
Qed.

(** The loop ends: one turn more than the file has bytes is enough. *)
Lemma read_binary_loop_terminates (code version dim : Z) (fuel : nat) :
  forall f st,
    (List.length f < fuel)%nat ->
    exists r,
      read_binary_loop medit_codes native fuel (widths_of native code version) dim f st
      = Some r.
Proof.
  induction fuel as [|fuel IH]; intros f st Hlen; [lia|].
  cbn [read_binary_loop].
  destruct (read_binary_block medit_codes native (widths_of native code version) dim f st)
    as [[st'|f' st']|e] eqn:E; try (eexists; reflexivity).
  apply read_binary_block_shorter in E. apply IH. lia.
Qed.

(** A run of the loop leads to the same end as the loop itself. *)
Lemma binary_reaches_loop w dim x y :
  binary_reaches medit_codes native w dim x y ->
  forall fuel r,
    read_binary_loop medit_codes native fuel w dim (fst y) (snd y) = Some r ->
    exists fuel',
      read_binary_loop medit_codes native fuel' w dim (fst x) (snd x) = Some r.
Proof.
  induction 1 as [x|f st f' st' y Hstep _ IH]; intros fuel r Hr.
  - exists fuel. exact Hr.
  - destruct (IH fuel r Hr) as [fuel' H']. exists (S fuel').
    cbn [read_binary_loop fst snd]. rewrite Hstep. exact H'.
Qed.

Lemma binary_reaches_result (code version dim : Z) f0 st0 f1 st1 fuel r :
  binary_reaches medit_codes native (widths_of native code version) dim (f0, st0) (f1, st1) ->
  read_binary_loop medit_codes native fuel (widths_of native code version) dim f1 st1
  = Some r ->
  read_binary_loop medit_codes native (S (List.length f0))
    (widths_of native code version) dim f0 st0 = Some r.
Proof.
  intros Hreach Hr.
  destruct (binary_reaches_loop _ _ _ _ Hreach fuel r Hr) as [fuel' H'].
  cbn [fst snd] in H'.
  destruct (read_binary_loop_terminates code version dim (S (List.length f0)) f0 st0)
    as [r' Hr']; [lia|].
  rewrite Hr'. f_equal.
  pose proof (read_binary_loop_le _ (Nat.max fuel' (S (List.length f0))) _ _ _ _ _
                (Nat.le_max_l _ _) H') as A.
  pose proof (read_binary_loop_le _ (Nat.max fuel' (S (List.length f0))) _ _ _ _ _
                (Nat.le_max_r _ _) Hr') as B.
  congruence.
Qed.

(** The widths that the header gives are those of a code word and a
    version. *)
Lemma read_binary_header_widths (f f0 : list byte) (w : widths) (dim : Z) :
  read_binary_header native f = Ok (w, dim, f0) ->
  exists code version, w = widths_of native code version /\ (dim = 2 \/ dim = 3).
Proof.
  unfold read_binary_header. intros H.
  bind_case H. destruct (negb (z =? 1) && negb (z =? 16777216)); [discriminate H|].
  bind_case H. destruct ((z0 <? 1) || (z0 >? 4)); [discriminate H|].
  bind_case H. destruct (negb (z1 =? 3)); [discriminate H|].
  bind_case H. bind_case H.
  destruct (negb (z2 =? 2) && negb (z2 =? 3)) eqn:Ed; [discriminate H|].
  injection H as <- <- _. exists z, z0. split; [reflexivity|].
  apply andb_false_iff in Ed.
  destruct Ed as [Ed|Ed]; apply negb_false_iff, Z.eqb_eq in Ed; auto.
Qed.

(** Every cell block that the loop has collected is accepted by the
    reordering that follows the loop. *)
Lemma read_binary_block_cells (w : widths) (dim : Z) (f f' : list byte)
    (st st' : reader_state) :
  read_binary_block medit_codes native w dim f st = Ok (Continue f' st') ->
  Forall block_ok (st_cells st) -> Forall block_ok (st_cells st').
Proof.
  unfold read_binary_block. intros H Hok.
  bind_case H. destruct (ra_items r); [discriminate H|].
  bind_case1 H.
  match type of H with
  | context [medit_codes ?t] =>
      destruct (medit_codes t) as [[[name cf] tpl]|]; [|discriminate H]
  end.
  destruct (String.eqb name "GmfEnd"); [discriminate H|].
  destruct (String.eqb name "GmfReserved").
  { injection H as _ <-. exact Hok. }
  bind_case H. bind_case H. bind_case1 H. bind_case H.
  destruct (dict_get DICT_GMFMEDIT name) as [[[ty nc] tg]|] eqn:Eg.
  - destruct (String.eqb name "GmfVertices").
    + bind_case1 H. bind_case1 H. injection H as _ <-. exact Hok.
    + bind_case H. injection H as _ <-. cbn [st_cells].
      apply Forall_app. split; [exact Hok|]. constructor; [|constructor].
      eapply block_ok_reader; [right; reflexivity|exact Eg].
  - injection H as _ <-. exact Hok.
Qed.

Lemma binary_reaches_cells w dim x y :
  binary_reaches medit_codes native w dim x y ->
  Forall block_ok (st_cells (snd x)) -> Forall block_ok (st_cells (snd y)).
Proof.
  induction 1 as [x|f st f' st' y Hstep _ IH]; [auto|].
  intros Hok. apply IH. cbn [snd] in *.
  eapply read_binary_block_cells; eassumption.
Qed.

(** C8. When the file ends where the keyword of the next block is to be
    read, before any [GmfEnd], [read_binary_buffer] raises nothing: it
    gives the warning and returns the mesh of what the loop has read so
    far (points, point references, cell references, and the cell blocks
    in meshio's node order). *)
Theorem truncated_binary_stream (f f0 f1 : list byte) (w : widths) (dim : Z)
    (st : reader_state) :
  read_binary_header native f = Ok (w, dim, f0) ->
  binary_reaches medit_codes native w dim (f0, initial_state) (f1, st) ->
  (List.length f1 < 4)%nat ->
  exists cells',
    _convert_cells (st_cells st) _medit_to_meshio = Ok cells' /\
    read_binary_buffer medit_codes native f =
    Ok ({| points := st_points st;
           cells := cells';
           point_data := st_point_data st;
           cell_data := [("medit:ref", st_cell_refs st)] |},
        (st_warnings st ++ [eof_message])%list).
Proof.
  intros Hh Hreach Hlen.
  destruct (read_binary_header_widths f f0 w dim Hh) as (code & version & -> & _).
  assert (Hok : Forall block_ok (st_cells st)).
  { apply (binary_reaches_cells _ _ _ _ Hreach). constructor. }
  destruct (convert_cells_ok _ Hok) as (cells' & Hc & _).
  exists cells'. split; [exact Hc|].
  unfold read_binary_buffer. rewrite Hh. cbn [bind].
  erewrite binary_reaches_result with (fuel := 1%nat); [|exact Hreach|].
  2:{ cbn [read_binary_loop]. rewrite read_binary_block_eof by exact Hlen. reflexivity. }
  cbn [bind]. unfold finish_read. cbn [warn st_cells]. rewrite Hc. reflexivity.
Qed.

(** ** Keywords that the tables do not hold *)

(** A keyword that [medit_codes] does not hold ends the read with
    [ReadError], wherever in the file it stands. *)
Lemma unknown_keyword_fatal (f f0 f1 : list byte) (w : widths) (dim : Z)
    (st : reader_state) (code version tag : Z) :
  read_binary_header native f = Ok (w, dim, f0) ->
  w = widths_of native code version ->
  binary_reaches medit_codes native w dim (f0, initial_state) (f1, st) ->
  (4 <= List.length f1)%nat ->
  next_keyword native code f1 = Ok tag ->
  medit_codes tag = None ->
  read_binary_block medit_codes native w dim f1 st = Raise (ReadError "Unsupported field") /\
  read_binary_buffer medit_codes native f = Raise (ReadError "Unsupported field").
Proof.
  intros Hh -> Hreach Hlen Htag Hnone.
  assert (Hb : read_binary_block medit_codes native (widths_of native code version) dim f1 st
               = Raise (ReadError "Unsupported field")).
  { destruct (read_binary_block_keyword code version dim f1 st Hlen) as (tag' & Ht & E).
    rewrite Htag in Ht. injection Ht as <-. rewrite E, Hnone. reflexivity. }
  split; [exact Hb|].
  unfold read_binary_buffer. rewrite Hh. cbn [bind].
  erewrite binary_reaches_result with (fuel := 1%nat); [|exact Hreach|].
  2:{ cbn [read_binary_loop]. rewrite Hb. reflexivity. }
  reflexivity.
Qed.

(** A keyword of [medit_codes] that has no element type in
    [DICT_GMFMEDIT] is skipped: its block is read, a warning is given, and
    the loop goes on behind the block. *)
Lemma unmapped_keyword_skipped (f f2 f3 f4 : list byte) (dim : Z) (st : reader_state)
    (code version tag nitems : Z) (name count_flag template layout : string)
    (pos out : raw_array) :
  let w := widths_of native code version in
  (4 <= List.length f)%nat ->
  next_keyword native code f = Ok tag ->
  medit_codes tag = Some (name, count_flag, template) ->
  name <> "GmfEnd" -> name <> "GmfReserved" ->
  dict_get DICT_GMFMEDIT name = None ->
  np_fromfile (skipn 4 f) 1 (postype w) = Ok (pos, f2) ->
  (if String.eqb count_flag "i" then read_scalar native f2 (itype w) else Ok (1, f2))
  = Ok (nitems, f3) ->
  _produce_dtype dim (itype w) (ftype w) template = Ok layout ->
  np_fromfile f3 nitems layout = Ok (out, f4) ->
  read_binary_block medit_codes native w dim f st =
  Ok (Continue f4 (warn ("meshio doesn't know " ++ name ++ " type. Skipping.") st)).
Proof.
  intros w Hlen Htag Hcode Hend Hres Hnone Hpos Hn Hlayout Hout.
  destruct (read_binary_block_keyword code version dim f st Hlen) as (tag' & Ht & E).
  rewrite Htag in Ht. injection Ht as <-. unfold w. rewrite E, Hcode. cbv zeta.
  apply String.eqb_neq in Hend, Hres. rewrite Hend, Hres.
  fold w. rewrite Hpos. cbn [bind]. rewrite Hn. cbn [bind].
  rewrite Hlayout. cbn [bind]. rewrite Hout. cbn [bind]. rewrite Hnone. reflexivity.
Qed.

End BinaryReaderFacts.

(* ===================================================================== *)
(** * The writers: element types outside the registry *)
(* ===================================================================== *)

Lemma unregistered_not_listed (cell_type : string) :
  dict_get DICT_MESHIO cell_type = None ->
  dict_get _meshio_to_medit cell_type = None.
Proof.
  intros H. apply dict_get_medit_to_meshio. intros ->. vm_compute in H. discriminate H.
Qed.

(** The ASCII writer skips a block of an unregistered type: it writes
    nothing for it and warns. *)
Lemma write_ascii_unregistered (mesh : Mesh) (labels_key : option string) (k : nat)
    (b : CellBlock) (s : wstate) :
  dict_get DICT_MESHIO (cb_type b) = None ->
  write_ascii_cell_block mesh labels_key (k, b) s =
  (warned s (skip_message (cb_type b)), Ok tt).
Proof.
  intros H. unfold write_ascii_cell_block, bindW, liftW.
  rewrite (convert_unlisted _ _ _ (unregistered_not_listed _ H)), H.
  reflexivity.
Qed.

Lemma set_other_cells (data : ndarray) (m : nat) (l : list CellBlock) : forall n : nat,
  (m < n)%nat ->
  map (fun '(i, x) =>
         if Nat.eqb i m then {| cb_type := cb_type x; cb_data := data |} else x)
      (combine (seq n (List.length l)) l) = l.
Proof.
  induction l as [|y l IH]; intros n Hn; [reflexivity|].
  cbn [List.length seq combine map].
  destruct (Nat.eqb_spec n m); [lia|].
  f_equal. apply IH. lia.
Qed.

Lemma set_same_cell (l : list CellBlock) : forall (start k : nat) (b : CellBlock),
  nth_error l k = Some b ->
  map (fun '(i, x) =>
         if Nat.eqb i (start + k)
         then {| cb_type := cb_type x; cb_data := cb_data b |} else x)
      (combine (seq start (List.length l)) l) = l.
Proof.
  induction l as [|x l IH]; intros start k b H; [destruct k; discriminate H|].
  cbn [List.length seq combine map]. destruct k as [|k].
  - cbn in H. injection H as ->. rewrite Nat.add_0_r, Nat.eqb_refl.
    f_equal.
    + destruct b; reflexivity.
    + apply set_other_cells. lia.
  - cbn [nth_error] in H.
    destruct (Nat.eqb_spec start (start + S k)); [lia|].
    f_equal. replace (start + S k)%nat with (S start + k)%nat by lia.
    apply IH, H.
Qed.

Section BinaryWriterFacts.

Variable medit_codes : Z -> option (string * string * string).
Variable native : byteorder.

(** The binary writer skips a block of an unregistered type: it writes
    nothing for it, warns, and leaves [pos] and the block as they are. *)
Lemma write_binary_unregistered (mesh : Mesh) (pr : profile) (dim : nat)
    (labels_key : option string) (pos : Z) (k : nat) (b b' : CellBlock) (s : wstate) :
  nth_error (w_cells s) k = Some b ->
  dict_get DICT_MESHIO (cb_type b) = None ->
  write_binary_cell_block medit_codes native mesh pr dim labels_key pos (k, b') s =
  (warned s (skip_message (cb_type b)), Ok pos).
Proof.
  intros Hk H.
  unfold write_binary_cell_block, bindW, liftW, get_cell, set_cell_data, retW, warnW.
  cbn [fst]. rewrite Hk. cbn [of_option].
  rewrite (convert_unlisted _ _ _ (unregistered_not_listed _ H)), H.
  cbn [w_out w_warnings w_cells]. unfold warned, enumerate.
  pose proof (set_same_cell (w_cells s) 0 k b Hk) as Hset. cbn [Nat.add] in Hset.
  rewrite Hset. reflexivity.
Qed.

End BinaryWriterFacts.


(* ===================================================================== *)
(** * What the readers return on files without vertices *)
(* ===================================================================== *)

(** The ASCII reader returns no mesh without points. *)
Lemma read_ascii_buffer_points (f : string) (m : Mesh) (w : warnings) :
  read_ascii_buffer f = Ok (m, w) -> points m <> None.
Proof.
  unfold read_ascii_buffer.
  destruct (read_ascii_loop _ _ _ _) as [[st|e]|]; try discriminate. cbn [bind].
  destruct (st_points st) as [p|] eqn:Ep; [|discriminate].
  destruct (_convert_cells _ _); [|discriminate]. cbn [bind].
  intros H. injection H as <- _. cbn [points mesh_of_state]. rewrite Ep. discriminate.
Qed.

(** C3 (what the code does).  The ASCII reader never returns a mesh
    without points: a file in which no [Vertices] section is read ends
    with an exception.  The binary reader has no such check: on a file
    with the header and the terminator only it returns a mesh whose
    points are [None], and raises nothing. *)
Theorem missing_vertices :
  (forall (f : string) (m : Mesh) (w : warnings),
     read_ascii_buffer f = Ok (m, w) -> points m <> None) /\
  (forall (medit_codes : Z -> option (string * string * string)) (a b : string),
     medit_codes 54 = Some ("GmfEnd", a, b) ->
     read_binary_buffer medit_codes LittleEndian no_vertices_file =
     Ok ({| points := None; cells := []; point_data := [];
            cell_data := [("medit:ref", [])] |}, [])).
Proof.
  split; [exact read_ascii_buffer_points|].
  intros medit_codes a b H.
  unfold read_binary_buffer.
  assert (Hh : read_binary_header LittleEndian no_vertices_file =
               Ok (widths_of LittleEndian 1 3, 3,
                   (encode_unsigned LittleEndian 4 54 ++
                    encode_unsigned LittleEndian 8 0)%list))
    by (vm_compute; reflexivity).
  rewrite Hh. cbn [bind].
  assert (Hb : forall st,
             read_binary_block medit_codes LittleEndian (widths_of LittleEndian 1 3) 3
               (encode_unsigned LittleEndian 4 54 ++ encode_unsigned LittleEndian 8 0)%list st
             = Ok (Break st)).
  { intros st.
    destruct (read_binary_block_keyword medit_codes LittleEndian 1 3 3
                (encode_unsigned LittleEndian 4 54 ++ encode_unsigned LittleEndian 8 0)%list
                st) as (tag & Ht & E); [vm_compute; lia|].
    assert (tag = 54) by (vm_compute in Ht; congruence). subst tag.
    rewrite E, H. reflexivity. }
  cbn [read_binary_loop]. rewrite Hb. reflexivity.
Qed.

(** The table of the specification has the terminator. *)
Lemma missing_vertices_witness :
  read_binary_buffer medit_codes_spec LittleEndian no_vertices_file =
  Ok ({| points := None; cells := []; point_data := [];
         cell_data := [("medit:ref", [])] |}, []).
Proof. exact (proj2 missing_vertices medit_codes_spec "" "" eq_refl). Defined.

(* ===================================================================== *)
(** * The ASCII reader on a file with one vertex *)
(* ===================================================================== *)

(** C9. On the text [MeshVersionFormatted 2 / Dimension 3 / Vertices / 1 /
    0.0 0.0 0.0 7 / End] the ASCII reader returns a mesh with exactly one
    point, at (0.0, 0.0, 0.0), the point references [7], and no cell
    block (and gives no warning). *)
Theorem read_one_vertex :
  read_ascii_buffer one_vertex_text =
  Ok ({| points := Some (FMat float64 3 [[S754_zero false; S754_zero false; S754_zero false]]);
         cells := [];
         point_data := [("medit:ref", IVec int64 [7])];
         cell_data := [("medit:ref", [])] |}, []).
Proof. vm_compute. reflexivity. Qed.

(* ===================================================================== *)
(** * Invariants of the writers *)
(* ===================================================================== *)

Section Keeps.

Variable R : wstate -> wstate -> Prop.
Hypothesis R_refl : forall s, R s s.
Hypothesis R_trans : forall s1 s2 s3, R s1 s2 -> R s2 s3 -> R s1 s3.

Lemma keeps_ret {A : Type} (a : A) : keeps R (retW a).
Proof. intros s. apply R_refl. Qed.

Lemma keeps_lift {A : Type} (r : result A) : keeps R (liftW r).
Proof. intros s. apply R_refl. Qed.

Lemma keeps_bind {A B : Type} (c : W A) (k : A -> W B) :
  keeps R c -> (forall a, keeps R (k a)) -> keeps R (bindW c k).
Proof.
  intros Hc Hk s. unfold bindW. specialize (Hc s).
  destruct (c s) as [s' [a|e]]; cbn [fst] in *; [|exact Hc].
  eapply R_trans; [exact Hc|apply Hk].
Qed.

Lemma keeps_for {A : Type} (body : A -> W unit) (l : list A) :
  (forall x, keeps R (body x)) -> keeps R (forW l body).
Proof.
  intros Hb. induction l as [|x l IH]; cbn [forW]; [apply keeps_ret|].
  apply keeps_bind; [apply Hb|intros _; exact IH].
Qed.

Lemma keeps_fold {A B : Type} (body : B -> A -> W B) (l : list A) :
  (forall acc x, keeps R (body acc x)) -> forall acc, keeps R (foldW l acc body).
Proof.
  intros Hb. induction l as [|x l IH]; intros acc; cbn [foldW]; [apply keeps_ret|].
  apply keeps_bind; [apply Hb|intros acc'; apply IH].
Qed.

Hypothesis R_emit : forall b, keeps R (emit_bytes b).
Hypothesis R_warn : forall msg, keeps R (warnW msg).

Ltac keeps_step :=
  match goal with
  | |- keeps R (bindW _ _) => apply keeps_bind; [|intros]
  | |- keeps R (liftW _) => apply keeps_lift
  | |- keeps R (retW _) => apply keeps_ret
  | |- keeps R (emit_bytes _) => apply R_emit
  | |- keeps R (emit _) => apply R_emit
  | |- keeps R (warnW _) => apply R_warn
  | |- keeps R (forW _ _) => apply keeps_for; intros
  | |- keeps R (foldW _ _ _) => apply keeps_fold; intros
  | |- keeps R (match ?x with _ => _ end) => destruct x
  end.

Lemma keeps_warn_skipped what key other : keeps R (warn_skipped what key other).
Proof. unfold warn_skipped. repeat keeps_step. Qed.

Lemma keeps_write_ascii_cell_block mesh labels_key item :
  keeps R (write_ascii_cell_block mesh labels_key item).
Proof.
  unfold write_ascii_cell_block, write_ascii_cell. destruct item as [k b].
  repeat keeps_step.
Qed.

Lemma keeps_write_ascii_file mesh : keeps R (write_ascii_file mesh).
Proof.
  unfold write_ascii_file, write_ascii_point.
  repeat first [apply keeps_warn_skipped | apply keeps_write_ascii_cell_block | keeps_step].
Qed.

Section KeepsBinary.

Variable medit_codes : Z -> option (string * string * string).
Variable native : byteorder.
Hypothesis R_set : forall k data, keeps R (set_cell_data k data).

Lemma keeps_get_cell k : keeps R (get_cell k).
Proof. intros s. apply R_refl. Qed.

Lemma keeps_write_binary_cell_block mesh pr dim labels_key pos item :
  keeps R (write_binary_cell_block medit_codes native mesh pr dim labels_key pos item).
Proof.
  unfold write_binary_cell_block.
  repeat first [apply keeps_get_cell | apply R_set | keeps_step].
Qed.

Lemma keeps_write_binary_blocks mesh pr pts num_verts dim pos :
  keeps R (write_binary_blocks medit_codes native mesh pr pts num_verts dim pos).
Proof.
  unfold write_binary_blocks.
  repeat first [apply keeps_warn_skipped | apply keeps_write_binary_cell_block | keeps_step].
Qed.

Lemma keeps_write_binary_file mesh : keeps R (write_binary_file medit_codes native mesh).
Proof.
  unfold write_binary_file.
  repeat first [apply keeps_write_binary_blocks | keeps_step].
Qed.

End KeepsBinary.

End Keeps.

(** ** The file only grows *)

Lemma out_extends_refl s : out_extends s s.
Proof. exists []. symmetry. apply app_nil_r. Qed.

Lemma out_extends_trans s1 s2 s3 :
  out_extends s1 s2 -> out_extends s2 s3 -> out_extends s1 s3.
Proof.
  intros [r1 H1] [r2 H2]. exists (r1 ++ r2)%list. rewrite H2, H1. symmetry. apply app_assoc.
Qed.

Lemma out_extends_emit b : keeps out_extends (emit_bytes b).
Proof. intros s. exists b. reflexivity. Qed.

Lemma out_extends_warn msg : keeps out_extends (warnW msg).
Proof. intros s. exists []. cbn. symmetry. apply app_nil_r. Qed.

Lemma out_extends_set k data : keeps out_extends (set_cell_data k data).
Proof. intros s. exists []. cbn. symmetry. apply app_nil_r. Qed.

(** ** The ASCII writer and the cell blocks of the caller *)

Lemma same_cells_refl s : same_cells s s.
Proof. reflexivity. Qed.

Lemma same_cells_trans s1 s2 s3 : same_cells s1 s2 -> same_cells s2 s3 -> same_cells s1 s3.
Proof. unfold same_cells. congruence. Qed.

(** [write_ascii_file] leaves every cell block of the caller as it is,
    however the call ends. *)
Lemma write_ascii_file_same_cells (mesh : Mesh) (s : wstate) :
  w_cells (fst (write_ascii_file mesh s)) = w_cells s.
Proof.
  apply (keeps_write_ascii_file same_cells same_cells_refl same_cells_trans).
  - intros b s'. reflexivity.
  - intros msg s'. reflexivity.
Qed.

Section BinaryWriterWidths.

Variable medit_codes : Z -> option (string * string * string).
Variable native : byteorder.


Lemma header_bytes_file (a b c d e : Z) :
  header_bytes native [keytype_w; keytype_w; keytype_w; postype_w; keytype_w] [a; b; c; d; e] =
  Ok (encode_unsigned native 4 a ++ encode_unsigned native 4 b ++
      encode_unsigned native 4 c ++ encode_unsigned native 8 d ++
      encode_unsigned native 4 e)%list.
Proof.
  unfold header_bytes.
  change (np_dtype _) with
    (Ok (Structured [plain_field KInt 4; plain_field KInt 4; plain_field KInt 4;
                     plain_field KInt 8; plain_field KInt 4])).
  cbn -[encode_unsigned]. rewrite !app_nil_r. reflexivity.
Qed.

Lemma header_bytes_block (mesh : Mesh) (a b c : Z) :
  header_bytes native [keytype_w; postype_w; p_itype (profile_of mesh)] [a; b; c] =
  Ok (encode_unsigned native 4 a ++ encode_unsigned native 8 b ++
      encode_unsigned native (Z.to_nat (p_itype_size (profile_of mesh))) c)%list.
Proof.
  unfold header_bytes, profile_of.
  destruct (has_big_ints mesh); cbn [p_itype p_itype_size].
  - change (np_dtype _) with
      (Ok (Structured [plain_field KInt 4; plain_field KInt 8; plain_field KInt 8])).
    cbn -[encode_unsigned]. rewrite !app_nil_r. reflexivity.
  - change (np_dtype _) with
      (Ok (Structured [plain_field KInt 4; plain_field KInt 8; plain_field KInt 4])).
    cbn -[encode_unsigned]. rewrite !app_nil_r. reflexivity.
Qed.

Lemma header_bytes_end (a b : Z) :
  header_bytes native [keytype_w; postype_w] [a; b] =
  Ok (encode_unsigned native 4 a ++ encode_unsigned native 8 b)%list.
Proof.
  unfold header_bytes.
  change (np_dtype _) with (Ok (Structured [plain_field KInt 4; plain_field KInt 8])).
  cbn -[encode_unsigned]. rewrite !app_nil_r. reflexivity.
Qed.

End BinaryWriterWidths.

(* ===================================================================== *)
(** * The container of the caller after a call of a writer *)
(* ===================================================================== *)

(** C2 (what the code does).  [write_ascii_file] leaves the container of
    the caller as it was: it works on a local [data].  [write_binary_file]
    assigns the reordered array to [cell_block.data]: after it has
    written a mesh with a block of 27-node hexahedra, that block of the
    caller holds the nodes in Medit's order. *)
Theorem writers_and_caller_mesh :
  (forall mesh : Mesh,
     mesh_after mesh (fst (run_writer (write_ascii_file mesh) mesh)) = mesh) /\
  (let r := run_writer (write_binary_file medit_codes_spec LittleEndian hexahedron27_mesh)
              hexahedron27_mesh in
   snd r = Ok tt /\
   w_cells (fst r) =
   [ {| cb_type := "hexahedron27";
        cb_data := IMat int32 27
                     [[0; 1; 2; 3; 4; 5; 6; 7; 8; 9; 10; 11; 12; 13; 14; 15; 16; 17; 18; 19;
                       24; 25; 22; 21; 23; 20; 26]] |} ] /\
   mesh_after hexahedron27_mesh (fst r) <> hexahedron27_mesh).
Proof.
  split.
  - intros mesh. unfold mesh_after, run_writer.
    rewrite write_ascii_file_same_cells. destruct mesh; reflexivity.
  - cbv zeta.
    assert (E : run_writer (write_binary_file medit_codes_spec LittleEndian hexahedron27_mesh)
                  hexahedron27_mesh =
                (fst (run_writer (write_binary_file medit_codes_spec LittleEndian
                                    hexahedron27_mesh) hexahedron27_mesh), Ok tt))
      by (vm_compute; reflexivity).
    split; [rewrite E; reflexivity|].
    assert (C : w_cells (fst (run_writer (write_binary_file medit_codes_spec LittleEndian
                                            hexahedron27_mesh) hexahedron27_mesh)) =
                [ {| cb_type := "hexahedron27";
                     cb_data := IMat int32 27
                       [[0; 1; 2; 3; 4; 5; 6; 7; 8; 9; 10; 11; 12; 13; 14; 15; 16; 17; 18;
                         19; 24; 25; 22; 21; 23; 20; 26]] |} ])
      by (vm_compute; reflexivity).
    split; [exact C|].
    unfold mesh_after. rewrite C. intros H.
    apply (f_equal cells) in H. vm_compute in H. discriminate H.
Qed.

(* ===================================================================== *)
(** * A point reference that the ASCII round trip changes *)
(* ===================================================================== *)

(** C1 (what the code does).  The [Vertices] section is read as numbers
    of the float type of the file and the last column is converted to
    integers afterwards.  The mesh [big_label_mesh] (single precision, one
    point with the reference 16777217) is written without error, and read
    back from the file its point has the reference 16777216: the points
    and the triangle come back, the point reference does not. *)
Theorem ascii_round_trip_big_label :
  let written := run_writer (write medit_codes_spec LittleEndian "big.mesh" big_label_mesh)
                   big_label_mesh in
  snd written = Ok tt /\
  read medit_codes_spec LittleEndian "big.mesh" (w_out (fst written)) =
  Ok ({| points := points big_label_mesh;
         cells := cells big_label_mesh;
         point_data := [("medit:ref", IVec int64 [16777216])];
         cell_data := cell_data big_label_mesh |}, []) /\
  point_data big_label_mesh = [("medit:ref", IVec int64 [16777217])].
Proof. vm_compute. repeat split. Qed.

(* ===================================================================== *)
(** * Sample runs of the binary reader *)
(* ===================================================================== *)

(** A code word of 2 is refused. *)
Lemma binary_header_checks_witness :
  read_binary_buffer medit_codes_spec LittleEndian bad_code_file =
  Raise (ReadError "Invalid code").
Proof.
  refine (proj1 (binary_header_checks medit_codes_spec LittleEndian bad_code_file
                   (encode_unsigned LittleEndian 4 3) 2 _) _ _).
  - vm_compute. reflexivity.
  - discriminate.
  - discriminate.
Defined.

(** A file that ends behind its header gives a mesh with nothing in it,
    and the warning. *)
Lemma truncated_binary_stream_witness :
  exists cells',
    _convert_cells (st_cells initial_state) _medit_to_meshio = Ok cells' /\
    read_binary_buffer medit_codes_spec LittleEndian sample_header =
    Ok ({| points := None; cells := cells'; point_data := [];
           cell_data := [("medit:ref", [])] |}, [eof_message]).
Proof.
  refine (truncated_binary_stream medit_codes_spec LittleEndian sample_header [] []
            (widths_of LittleEndian 1 3) 3 initial_state _ _ _).
  - vm_compute. reflexivity.
  - apply binary_reaches_refl.
  - cbn. lia.
Defined.


(* ===================================================================== *)
(** * The three tables of the registry agree *)
(* ===================================================================== *)

Lemma entry_eqb_eq (a b : string * Z * Z) : entry_eqb a b = true -> a = b.
Proof.
  destruct a as [[s1 n1] t1], b as [[s2 n2] t2]. cbn.
  intros H. apply andb_prop in H. destruct H as [H Ht].
  apply andb_prop in H. destruct H as [Hs Hn].
  apply String.eqb_eq in Hs. apply Z.eqb_eq in Hn, Ht. congruence.
Qed.

Lemma lookup_is_eq table k v : lookup_is table k v = true -> dict_get table k = Some v.
Proof.
  unfold lookup_is. destruct (dict_get table k) as [v'|]; [|discriminate].
  intros H. apply entry_eqb_eq in H. congruence.
Qed.

(** X1. Every element type of [DICT_MESHIO] is found again under its Medit
    keyword in [DICT_MEDIT] and under its Gmf keyword in [DICT_GMFMEDIT],
    with the same number of nodes and the same tag; and every entry of
    the two derived tables comes from [DICT_MESHIO], apart from the
    alternate spelling [Hexaedra], which stands for [hexahedron]. *)
Theorem registry_tables_agree :
  (forall (name medit : string) (nPe tag : Z),
     dict_get DICT_MESHIO name = Some (medit, nPe, tag) ->
     dict_get DICT_MEDIT medit = Some (name, nPe, tag) /\
     dict_get DICT_GMFMEDIT ("Gmf" ++ medit) = Some (name, nPe, tag)) /\
  (forall (medit name : string) (nPe tag : Z),
     dict_get DICT_MEDIT medit = Some (name, nPe, tag) ->
     dict_get DICT_MESHIO name = Some (medit, nPe, tag) \/
     (medit = "Hexaedra" /\
      dict_get DICT_MESHIO name = Some ("Hexahedra", nPe, tag))) /\
  (forall (gmf name : string) (nPe tag : Z),
     dict_get DICT_GMFMEDIT gmf = Some (name, nPe, tag) ->
     (exists medit, gmf = "Gmf" ++ medit /\
                    dict_get DICT_MESHIO name = Some (medit, nPe, tag)) \/
     (gmf = "GmfHexaedra" /\
      dict_get DICT_MESHIO name = Some ("Hexahedra", nPe, tag))).
Proof.
  split; [|split].
  - intros name medit nPe tag H. apply dict_get_In in H.
    assert (F : forallb (fun item : string * (string * Z * Z) =>
                           let '(name, (medit, nPe, tag)) := item in
                           lookup_is DICT_MEDIT medit (name, nPe, tag) &&
                           lookup_is DICT_GMFMEDIT ("Gmf" ++ medit) (name, nPe, tag))
                        DICT_MESHIO = true) by (vm_compute; reflexivity).
    pose proof (proj1 (forallb_forall _ _) F _ H) as A. cbn beta iota in A.
    apply andb_prop in A. destruct A as [A B].
    split; apply lookup_is_eq; assumption.
  - intros medit name nPe tag H. apply dict_get_In in H.
    assert (F : forallb (fun item : string * (string * Z * Z) =>
                           let '(medit, (name, nPe, tag)) := item in
                           lookup_is DICT_MESHIO name (medit, nPe, tag) ||
                           (String.eqb medit "Hexaedra" &&
                            lookup_is DICT_MESHIO name ("Hexahedra", nPe, tag)))
                        DICT_MEDIT = true) by (vm_compute; reflexivity).
    pose proof (proj1 (forallb_forall _ _) F _ H) as A. cbn beta iota in A.
    apply orb_prop in A. destruct A as [A|A].
    + left. apply lookup_is_eq, A.
    + right. apply andb_prop in A. destruct A as [A B].
      split; [apply String.eqb_eq, A|apply lookup_is_eq, B].
  - intros gmf name nPe tag H. apply dict_get_In in H.
    assert (F : forallb (fun item : string * (string * Z * Z) =>
                           let '(gmf, (name, nPe, tag)) := item in
                           match dict_get DICT_MESHIO name with
                           | Some (medit, nPe', tag') =>
                               (String.eqb gmf ("Gmf" ++ medit) && (nPe' =? nPe) && (tag' =? tag))
                               || (String.eqb gmf "GmfHexaedra" &&
                                   entry_eqb (medit, nPe', tag') ("Hexahedra", nPe, tag))
                           | None => false
                           end)
                        DICT_GMFMEDIT = true) by (vm_compute; reflexivity).
    pose proof (proj1 (forallb_forall _ _) F _ H) as A. cbn beta iota in A.
    destruct (dict_get DICT_MESHIO name) as [[[medit nPe'] tag']|]; [|discriminate A].
    apply orb_prop in A. destruct A as [A|A].
    + left. apply andb_prop in A. destruct A as [A Ht].
      apply andb_prop in A. destruct A as [Ag An].
      apply String.eqb_eq in Ag. apply Z.eqb_eq in An, Ht. subst.
      exists medit. split; reflexivity.
    + right. apply andb_prop in A. destruct A as [Ag Ae].
      apply String.eqb_eq in Ag. apply entry_eqb_eq in Ae. subst gmf. rewrite Ae.
      split; reflexivity.
Qed.

(* ===================================================================== *)
(** * When [_produce_dtype] raises *)
(* ===================================================================== *)

Lemma produce_loop_ok (dim : Z) (itype ftype : string) (rest : string) : forall res,
  string_forallb template_char rest = true ->
  exists layout, produce_loop dim itype ftype rest res = Ok layout.
Proof.
  induction rest as [|c rest IH]; intros res H; cbn [produce_loop].
  - eexists. reflexivity.
  - cbn [string_forallb] in H. apply andb_prop in H. destruct H as [Hc Hrest].
    unfold template_char in Hc.
    destruct (Ascii.eqb c "i"); [apply IH, Hrest|].
    destruct (Ascii.eqb c "r"); [apply IH, Hrest|].
    destruct (Ascii.eqb c "d"); [apply IH, Hrest|discriminate Hc].
Qed.

(** X2. [_produce_dtype] raises exactly on the templates that have a
    character other than ["i"], ["r"] and ["d"], and then it raises
    [ReadError("Invalid string type")]; on every other template, also one
    that ends with ["d"], it returns a layout. *)
Theorem produce_dtype_raises_iff (dim : Z) (itype ftype : string) (string_type : string) :
  (string_forallb template_char string_type = false <->
   _produce_dtype dim itype ftype string_type = Raise (ReadError "Invalid string type")) /\
  (string_forallb template_char string_type = true <->
   exists layout, _produce_dtype dim itype ftype string_type = Ok layout).
Proof.
  unfold _produce_dtype.
  destruct (string_forallb template_char string_type) eqn:E.
  - destruct (produce_loop_ok dim itype ftype string_type "" E) as [layout H].
    split; split; intros A; try discriminate; try reflexivity.
    + rewrite H in A. discriminate A.
    + exists layout. exact H.
  - pose proof (produce_loop_invalid dim itype ftype string_type "" E) as H.
    split; split; intros A; try discriminate; try reflexivity; try exact H.
    destruct A as [layout A]. rewrite H in A. discriminate A.
Qed.

(* ===================================================================== *)
(** * [_convert_cells] *)
(* ===================================================================== *)

(** X3. When [_convert_cells] returns, it returns as many blocks as it was
    given, with the same element types in the same order; the data of a
    block whose type the table does not list is unchanged. *)
Theorem convert_cells_types (table : dict (list nat)) (cells : list CellBlock) :
  forall cells',
    _convert_cells cells table = Ok cells' ->
    map cb_type cells' = map cb_type cells /\
    forall (k : nat) (b b' : CellBlock),
      nth_error cells k = Some b -> nth_error cells' k = Some b' ->
      dict_get table (cb_type b) = None -> b' = b.
Proof.
  unfold _convert_cells.
  induction cells as [|c cells IH]; intros cells' H; cbn [mapM] in H.
  - injection H as <-. split; [reflexivity|]. intros [|k] b b' Hb; discriminate Hb.
  - destruct (_convert_cell_data (cb_type c) (cb_data c) table) as [d|] eqn:Ed;
      [|discriminate H]. cbn [bind] in H.
    destruct (mapM _ cells) as [cs|] eqn:Ecs; [|discriminate H]. cbn [bind] in H.
    injection H as <-. destruct (IH cs eq_refl) as [IH1 IH2].
    split; [cbn [map cb_type]; rewrite IH1; reflexivity|].
    intros [|k] b b' Hb Hb' Hnone; cbn [nth_error] in Hb, Hb'.
    + injection Hb as <-. injection Hb' as <-.
      unfold _convert_cell_data in Ed. rewrite Hnone in Ed. injection Ed as <-.
      destruct c; reflexivity.
    + eapply IH2; eassumption.
Qed.

Lemma convert_cells_types_witness :
  exists cells',
    _convert_cells (cells hexahedron27_mesh) _meshio_to_medit = Ok cells' /\
    map cb_type cells' = ["hexahedron27"].
Proof.
  eexists. split.
  - vm_compute. reflexivity.
  - refine (proj1 (convert_cells_types _meshio_to_medit (cells hexahedron27_mesh) _ _)).
    vm_compute. reflexivity.
Defined.

(** X4. A block of 27-node hexahedra with fewer than 27 columns cannot be
    reordered: the conversion raises [IndexError], in both directions.  A
    block with more than 27 columns loses the columns behind the 27th. *)
Theorem convert_hexahedron27_columns (table : dict (list nat)) (t : int_dtype) (c : nat)
    (rows : list (list Z)) :
  table = _medit_to_meshio \/ table = _meshio_to_medit ->
  ((c < 27)%nat ->
   _convert_cell_data "hexahedron27" (IMat t c rows) table = Raise IndexError) /\
  ((27 <= c)%nat ->
   exists rows', _convert_cell_data "hexahedron27" (IMat t c rows) table =
                 Ok (IMat t 27 rows') /\ List.length rows' = List.length rows).
Proof.
  intros Ht.
  assert (Hidx : exists idx, dict_get table "hexahedron27" = Some idx /\
                             List.length idx = 27%nat /\
                             (forall j, In j idx -> (j < 27)%nat) /\ In 26%nat idx).
  { destruct Ht as [-> | ->]; eexists; (split; [reflexivity|]);
      (split; [reflexivity|]);
      (split; [|cbn; tauto]);
      intros j Hj; cbn in Hj; repeat (destruct Hj as [<-|Hj]; [lia|]); contradiction. }
  destruct Hidx as (idx & Hget & Hlen & Hlt & H26).
  unfold _convert_cell_data. rewrite Hget. cbn [take_columns]. split.
  - intros Hc.
    destruct (forallb (fun j => Nat.ltb j c) idx) eqn:E; [|reflexivity].
    exfalso. pose proof (proj1 (forallb_forall _ _) E _ H26) as A.
    apply Nat.ltb_lt in A. lia.
  - intros Hc.
    assert (E : forallb (fun j => Nat.ltb j c) idx = true).
    { apply forallb_forall. intros j Hj. apply Nat.ltb_lt. specialize (Hlt j Hj). lia. }
    rewrite E, Hlen. eexists. split; [reflexivity|]. apply length_map.
Qed.

Lemma convert_hexahedron27_columns_witness :
  _convert_cell_data "hexahedron27" (IMat int32 8 [[0; 1; 2; 3; 4; 5; 6; 7]]) _meshio_to_medit
  = Raise IndexError.
Proof.
  refine (proj1 (convert_hexahedron27_columns _meshio_to_medit int32 8 _ _) _).
  - right. reflexivity.
  - lia.
Defined.

(* ===================================================================== *)
(** * Integers in a binary file *)
(* ===================================================================== *)

Lemma encode_unsigned_length (o : byteorder) (n : nat) (z : Z) :
  List.length (encode_unsigned o n z) = n.
Proof.
  destruct o; cbn [encode_unsigned]; [|rewrite length_rev]; apply length_le_split.
Qed.

Lemma decode_encode_unsigned (o : byteorder) (n : nat) (z : Z) :
  decode_unsigned o (encode_unsigned o n z) = z mod 2 ^ (Z.of_nat n * 8).
Proof.
  destruct o; cbn [encode_unsigned decode_unsigned]; [|rewrite rev_involutive];
    apply le_combine_split.
Qed.

(** A signed integer of [n] bytes is read as it was written, in either
    byte order. *)
Lemma decode_int_encode (o : byteorder) (n : nat) (z : Z) :
  (0 < n)%nat ->
  - 2 ^ (8 * Z.of_nat n - 1) <= z < 2 ^ (8 * Z.of_nat n - 1) ->
  decode_int o (encode_unsigned o n z) = z.
Proof.
  intros Hn Hz. unfold decode_int, wrap_int.
  rewrite encode_unsigned_length, decode_encode_unsigned. cbn [signed isize].
  replace (Z.of_nat n * 8) with (8 * Z.of_nat n) by lia.
  set (m := 2 ^ (8 * Z.of_nat n)).
  assert (Hm : m = 2 * 2 ^ (8 * Z.of_nat n - 1)).
  { unfold m. rewrite <- Z.pow_succ_r by lia. f_equal. lia. }
  assert (Hhalf : m / 2 = 2 ^ (8 * Z.of_nat n - 1)).
  { rewrite Hm. rewrite Z.mul_comm. apply Z.div_mul. lia. }
  rewrite Hhalf. rewrite Zplus_mod_idemp_l.
  rewrite Z.mod_small by lia. lia.
Qed.

(** Reading one item whose bytes head the file. *)
Lemma np_fromfile_one (dtype : string) (fd : field) (b rest : list byte) :
  np_dtype dtype = Ok (Plain fd) ->
  (0 < field_size fd)%nat ->
  List.length b = field_size fd ->
  np_fromfile (b ++ rest)%list 1 dtype =
  Ok ({| ra_dtype := Plain fd; ra_items := [b] |}, rest).
Proof.
  intros Hd Hpos Hlen. unfold np_fromfile. rewrite Hd. cbn [bind].
  assert (Hsize : dtype_itemsize (Plain fd) = field_size fd).
  { cbn. lia. }
  rewrite Hsize. cbn [Z.ltb Z.compare].
  assert (Hav : (1 <= List.length (b ++ rest) / field_size fd)%nat).
  { apply Nat.div_le_lower_bound; [lia|]. rewrite length_app. lia. }
  destruct (Z.of_nat (List.length (b ++ rest) / field_size fd) <? 1) eqn:E;
    [apply Z.ltb_lt in E; lia|].
  change (Z.to_nat 1) with 1%nat. cbn [chunks Nat.mul]. rewrite Nat.add_0_r.
  rewrite <- Hlen.
  rewrite firstn_app, Nat.sub_diag, firstn_all, firstn_O, app_nil_r.
  rewrite skipn_app, Nat.sub_diag, skipn_all. reflexivity.
Qed.

Section BinaryScalars.

Variable native : byteorder.

(** An integer of the index or keyword type of a file is read back from
    its bytes, whatever follows in the file. *)
Lemma read_scalar_encode (dtype : string) (fd : field) (z : Z) (rest : list byte) :
  np_dtype dtype = Ok (Plain fd) ->
  f_kind fd = KInt -> f_repeat fd = None -> (0 < f_size fd)%nat ->
  - 2 ^ (8 * Z.of_nat (f_size fd) - 1) <= z < 2 ^ (8 * Z.of_nat (f_size fd) - 1) ->
  read_scalar native (encode_unsigned (order_of native fd) (f_size fd) z ++ rest)%list dtype
  = Ok (z, rest).
Proof.
  intros Hd Hk Hr Hpos Hz. unfold read_scalar.
  assert (Hfs : field_size fd = f_size fd).
  { unfold field_size, field_count. rewrite Hr. lia. }
  rewrite (np_fromfile_one dtype fd _ rest Hd);
    [|lia|rewrite encode_unsigned_length; lia].
  cbn [bind np_item ra_dtype ra_items]. rewrite Hk.
  rewrite decode_int_encode by assumption. reflexivity.
Qed.

End BinaryScalars.

(* ===================================================================== *)
(** * The header of a written binary file, read back *)
(* ===================================================================== *)

Section WrittenHeader.

Variable medit_codes : Z -> option (string * string * string).
Variable native : byteorder.

Lemma read_scalar_i4 (z : Z) (rest : list byte) :
  - 2 ^ 31 <= z < 2 ^ 31 ->
  read_scalar native (encode_unsigned native 4 z ++ rest)%list "i4" = Ok (z, rest).
Proof.
  intros Hz.
  apply (read_scalar_encode native "i4" (plain_field KInt 4) z rest);
    try reflexivity; cbn; lia.
Qed.

(** The five words the writer puts first, followed by anything: the
    reader takes the widths of the version and the dimension from them,
    and refuses a dimension other than 2 and 3. *)
Lemma read_written_header (version dim : Z) (rest : list byte) :
  version = 3 \/ version = 4 ->
  0 <= dim < 2 ^ 31 ->
  read_binary_header native
    (encode_unsigned native 4 1 ++ encode_unsigned native 4 version ++
     encode_unsigned native 4 3 ++ encode_unsigned native 8 24 ++
     encode_unsigned native 4 dim ++ rest)%list =
  if negb (dim =? 2) && negb (dim =? 3)
  then Raise (ReadError ("Invalid mesh dimension : " ++ str_int dim))
  else Ok (widths_of native 1 version, dim, rest).
Proof.
  intros Hv Hd. unfold read_binary_header.
  rewrite read_scalar_i4 by lia. cbn [bind].
  change (negb (1 =? 1) && negb (1 =? 16777216)) with false. cbv iota.
  change (key_type native 1) with "i4".
  rewrite read_scalar_i4 by (destruct Hv; subst; lia). cbn [bind].
  assert (Hver : (version <? 1) || (version >? 4) = false).
  { destruct Hv; subst; reflexivity. }
  rewrite Hver. cbv iota. cbv zeta.
  assert (Hk : keytype (widths_of native 1 version) = "i4").
  { destruct Hv; subst; reflexivity. }
  assert (Hp : postype (widths_of native 1 version) = "i8").
  { destruct Hv; subst; reflexivity. }
  rewrite Hk, Hp.
  rewrite read_scalar_i4 by lia. cbn [bind].
  change (negb (3 =? 3)) with false. cbv iota.
  rewrite (np_fromfile_one "i8" (plain_field KInt 8));
    [|reflexivity|cbn; lia|rewrite encode_unsigned_length; reflexivity].
  cbn [bind].
  rewrite read_scalar_i4 by lia. cbn [bind].
  reflexivity.
Qed.

(** The bytes [write_binary_file] puts out begin with its header. *)
Lemma write_binary_file_header (mesh : Mesh) (pts : ndarray) (n dim : nat) :
  points mesh = Some pts ->
  shape2 pts = Ok (n, dim) ->
  exists rest,
    w_out (fst (run_writer (write_binary_file medit_codes native mesh) mesh)) =
    (encode_unsigned native 4 1 ++
     encode_unsigned native 4 (p_version (profile_of mesh)) ++
     encode_unsigned native 4 3 ++ encode_unsigned native 8 24 ++
     encode_unsigned native 4 (Z.of_nat dim) ++ rest)%list.
Proof.
  intros Hp Hs.
  unfold run_writer, write_binary_file.
  unfold bindW at 1. unfold liftW at 1. rewrite Hp. cbn [of_option].
  unfold bindW at 1. unfold liftW at 1. rewrite Hs.
  unfold bindW at 1. unfold liftW at 1. rewrite header_bytes_file.
  unfold bindW at 1. unfold emit_bytes at 1. cbn [w_out w_warnings w_cells app].
  match goal with
  | |- context [write_binary_blocks _ _ _ _ _ _ _ _ ?s] =>
      destruct (keeps_write_binary_blocks out_extends out_extends_refl out_extends_trans
                  out_extends_emit out_extends_warn medit_codes native out_extends_set
                  mesh (profile_of mesh) pts n dim (4 * keyword_size + postype_size) s)
        as [rest Hrest]
  end.
  exists rest. rewrite Hrest. cbn [w_out]. rewrite <- !app_assoc. reflexivity.
Qed.

(** X5. What [write_binary_file] puts out for points of two or three
    columns has a header that [read_binary_buffer]'s header reader
    accepts: it finds the dimension of the points, the index type the
    writer chose and the float and position types the writer uses, in the
    byte order of the machine. *)
Theorem written_header_accepted (mesh : Mesh) (pts : ndarray) (n dim : nat) :
  points mesh = Some pts ->
  shape2 pts = Ok (n, dim) ->
  dim = 2%nat \/ dim = 3%nat ->
  exists w rest,
    read_binary_header native
      (w_out (fst (run_writer (write_binary_file medit_codes native mesh) mesh))) =
    Ok (w, Z.of_nat dim, rest) /\
    itype w = p_itype (profile_of mesh) /\
    ftype w = ftype_w /\ postype w = postype_w /\ keytype w = keytype_w.
Proof.
  intros Hp Hs Hdim.
  destruct (write_binary_file_header mesh pts n dim Hp Hs) as [rest Hout].
  exists (widths_of native 1 (p_version (profile_of mesh))), rest.
  split.
  - rewrite Hout. rewrite read_written_header.
    + destruct Hdim; subst; reflexivity.
    + unfold profile_of. destruct (has_big_ints mesh); cbn; auto.
    + destruct Hdim; subst; cbn; lia.
  - unfold profile_of. destruct (has_big_ints mesh); cbn; auto.
Qed.

(** X6. The binary writer takes points of any number of columns, the
    binary reader only two or three: a file written from points of
    another width is refused on reading with [Invalid mesh dimension]. *)
Theorem written_dimension_refused (mesh : Mesh) (pts : ndarray) (n dim : nat) :
  points mesh = Some pts ->
  shape2 pts = Ok (n, dim) ->
  dim <> 2%nat -> dim <> 3%nat -> Z.of_nat dim < 2 ^ 31 ->
  read_binary_buffer medit_codes native
    (w_out (fst (run_writer (write_binary_file medit_codes native mesh) mesh))) =
  Raise (ReadError ("Invalid mesh dimension : " ++ str_int (Z.of_nat dim))).
Proof.
  intros Hp Hs H2 H3 Hlt.
  destruct (write_binary_file_header mesh pts n dim Hp Hs) as [rest Hout].
  unfold read_binary_buffer. rewrite Hout. rewrite read_written_header.
  - destruct (Z.of_nat dim =? 2) eqn:E2; [apply Z.eqb_eq in E2; lia|].
    destruct (Z.of_nat dim =? 3) eqn:E3; [apply Z.eqb_eq in E3; lia|].
    reflexivity.
  - unfold profile_of. destruct (has_big_ints mesh); cbn; auto.
  - lia.
Qed.

End WrittenHeader.

Lemma written_header_accepted_witness :
  exists w rest,
    read_binary_header LittleEndian
      (w_out (fst (run_writer (write_binary_file medit_codes_spec LittleEndian
                                 hexahedron27_mesh) hexahedron27_mesh))) =
    Ok (w, 3, rest) /\
    itype w = "i4" /\ ftype w = "f8" /\ postype w = "i8" /\ keytype w = "i4".
Proof.
  exact (written_header_accepted medit_codes_spec LittleEndian hexahedron27_mesh
           (origin float64) 1 3 eq_refl eq_refl (or_intror eq_refl)).
Defined.

Lemma written_dimension_refused_witness :
  read_binary_buffer medit_codes_spec LittleEndian
    (w_out (fst (run_writer (write_binary_file medit_codes_spec LittleEndian line_mesh)
                   line_mesh))) =
  Raise (ReadError "Invalid mesh dimension : 1").
Proof.
  refine (written_dimension_refused medit_codes_spec LittleEndian line_mesh
            (FMat float64 1 [[S754_zero false]; [S754_zero false]]) 2 1
            eq_refl eq_refl _ _ _); [discriminate|discriminate|reflexivity].
Defined.

(* ===================================================================== *)
(** * Reordering the blocks of a mesh, there and back *)
(* ===================================================================== *)

Lemma convert_block_round_trip (t1 t2 : dict (list nat)) (b : CellBlock) :
  (t1 = _meshio_to_medit /\ t2 = _medit_to_meshio) \/
  (t1 = _medit_to_meshio /\ t2 = _meshio_to_medit) ->
  block_wf b ->
  exists d, _convert_cell_data (cb_type b) (cb_data b) t1 = Ok d /\
            _convert_cell_data (cb_type b) d t2 = Ok (cb_data b).
Proof.
  intros Ht Hwf. destruct b as [ty data]. cbn [cb_type cb_data] in *.
  destruct (String.eqb_spec ty "hexahedron27") as [->|Hne].
  - destruct (Hwf eq_refl) as [Hc Hr]. cbn [cb_type cb_data] in Hc, Hr.
    destruct (convert_hexahedron27_roundtrip data Hc Hr) as [A B].
    destruct Ht as [[-> ->]|[-> ->]].
    + destruct (_convert_cell_data "hexahedron27" data _meshio_to_medit) as [d|];
        [|discriminate B].
      exists d. split; [reflexivity|exact B].
    + destruct (_convert_cell_data "hexahedron27" data _medit_to_meshio) as [d|];
        [|discriminate A].
      exists d. split; [reflexivity|exact A].
  - destruct (dict_get_medit_to_meshio ty Hne) as [H1 H2].
    exists data. destruct Ht as [[-> ->]|[-> ->]]; split; apply convert_unlisted; assumption.
Qed.

(** X7. [_convert_cells] with the writing table followed by
    [_convert_cells] with the reading table gives the list of blocks
    again, and so does the other order, when the blocks of 27-node
    hexahedra have 27 columns: what the writers reorder, the readers put
    back. *)
Theorem convert_cells_round_trip (cells : list CellBlock) :
  Forall block_wf cells ->
  (cells1 <- _convert_cells cells _meshio_to_medit ;;
   _convert_cells cells1 _medit_to_meshio) = Ok cells /\
  (cells1 <- _convert_cells cells _medit_to_meshio ;;
   _convert_cells cells1 _meshio_to_medit) = Ok cells.
Proof.
  assert (G : forall t1 t2,
            (t1 = _meshio_to_medit /\ t2 = _medit_to_meshio) \/
            (t1 = _medit_to_meshio /\ t2 = _meshio_to_medit) ->
            Forall block_wf cells ->
            (cells1 <- _convert_cells cells t1 ;; _convert_cells cells1 t2) = Ok cells).
  { intros t1 t2 Ht. unfold _convert_cells.
    induction 1 as [|b cells Hb _ IH]; [reflexivity|].
    cbn [mapM].
    destruct (convert_block_round_trip t1 t2 b Ht Hb) as (d & E1 & E2).
    rewrite E1. cbn [bind].
    destruct (mapM _ cells) as [cs|e]; [|discriminate IH].
    cbn [bind] in IH |- *. cbn [mapM cb_type cb_data]. rewrite E2. cbn [bind].
    rewrite IH. cbn [bind]. destruct b; reflexivity. }
  intros H. split; apply G; auto.
Qed.

Lemma convert_cells_round_trip_witness :
  (cells1 <- _convert_cells (cells hexahedron27_mesh) _meshio_to_medit ;;
   _convert_cells cells1 _medit_to_meshio) = Ok (cells hexahedron27_mesh).
Proof.
  refine (proj1 (convert_cells_round_trip (cells hexahedron27_mesh) _)).
  constructor; [|constructor].
  intros _. split; [reflexivity|].
  constructor; [reflexivity|constructor].
Defined.

(* ===================================================================== *)
(** * The terminator and the progress of the binary reader *)
(* ===================================================================== *)

Section BinaryLoopFacts.

Variable medit_codes : Z -> option (string * string * string).
Variable native : byteorder.

(** X8. The binary reader stops at the keyword [GmfEnd]: it reads the
    four bytes of the keyword and nothing behind them, neither the
    position that the writer puts there nor anything else, and returns
    what it has read so far without a warning. *)
Theorem gmf_end_stops_reading (f f0 f1 : list byte) (w : widths) (dim : Z)
    (st : reader_state) (code version tag : Z) (count_flag template : string) :
  read_binary_header native f = Ok (w, dim, f0) ->
  w = widths_of native code version ->
  binary_reaches medit_codes native w dim (f0, initial_state) (f1, st) ->
  (4 <= List.length f1)%nat ->
  next_keyword native code f1 = Ok tag ->
  medit_codes tag = Some ("GmfEnd", count_flag, template) ->
  exists cells',
    _convert_cells (st_cells st) _medit_to_meshio = Ok cells' /\
    read_binary_buffer medit_codes native f =
    Ok ({| points := st_points st;
           cells := cells';
           point_data := st_point_data st;
           cell_data := [("medit:ref", st_cell_refs st)] |},
        st_warnings st).
Proof.
  intros Hh -> Hreach Hlen Htag Hcode.
  assert (Hok : Forall block_ok (st_cells st)).
  { apply (binary_reaches_cells _ _ _ _ _ _ Hreach). constructor. }
  destruct (convert_cells_ok _ Hok) as (cells' & Hc & _).
  exists cells'. split; [exact Hc|].
  unfold read_binary_buffer. rewrite Hh. cbn [bind].
  erewrite binary_reaches_result with (fuel := 1%nat); [|exact Hreach|].
  2:{ cbn [read_binary_loop].
      destruct (read_binary_block_keyword medit_codes native code version dim f1 st Hlen)
        as (tag' & Ht & E).
      rewrite Htag in Ht. injection Ht as <-. rewrite E, Hcode. reflexivity. }
  cbn [bind]. unfold finish_read. rewrite Hc. reflexivity.
Qed.

(** X9. Every turn of the loop of [read_binary_buffer] that goes on has
    read at least the four bytes of a keyword, so the loop ends on every
    file: with a mesh, a warning at the end of the file, or an error. *)
Theorem binary_loop_ends (f f0 : list byte) (w : widths) (dim : Z) :
  read_binary_header native f = Ok (w, dim, f0) ->
  (forall f1 st f2 st',
     read_binary_block medit_codes native w dim f1 st = Ok (Continue f2 st') ->
     (List.length f2 + 4 <= List.length f1)%nat) /\
  (exists r,
     read_binary_loop medit_codes native (S (List.length f0)) w dim f0 initial_state
     = Some r /\
     read_binary_buffer medit_codes native f = (st <- r ;; finish_read st)).
Proof.
  intros Hh.
  destruct (read_binary_header_widths native f f0 w dim Hh) as (code & version & -> & _).
  split.
  - intros f1 st f2 st' H.
    exact (read_binary_block_shorter medit_codes native code version dim f1 f2 st st' H).
  - destruct (read_binary_loop_terminates medit_codes native code version dim
                (S (List.length f0)) f0 initial_state) as [r Hr]; [lia|].
    exists r. split; [exact Hr|].
    unfold read_binary_buffer. rewrite Hh. cbn [bind]. rewrite Hr. reflexivity.
Qed.

End BinaryLoopFacts.

(** A file that ends right behind the keyword [GmfEnd]. *)
Lemma gmf_end_stops_reading_witness :
  read_binary_buffer medit_codes_spec LittleEndian
    (sample_header ++ encode_unsigned LittleEndian 4 54)%list =
  Ok ({| points := None; cells := []; point_data := [];
         cell_data := [("medit:ref", [])] |}, []).
Proof.
  destruct (gmf_end_stops_reading medit_codes_spec LittleEndian
              (sample_header ++ encode_unsigned LittleEndian 4 54)%list
              (encode_unsigned LittleEndian 4 54) (encode_unsigned LittleEndian 4 54)
              (widths_of LittleEndian 1 3) 3 initial_state 1 3 54 "" "")
    as (cells' & Hc & Hr).
  - vm_compute. reflexivity.
  - reflexivity.
  - apply binary_reaches_refl.
  - vm_compute. lia.
  - vm_compute. reflexivity.
  - vm_compute. reflexivity.
  - vm_compute in Hc. injection Hc as <-. exact Hr.
Defined.

Lemma binary_loop_ends_witness :
  exists r,
    read_binary_loop medit_codes_spec LittleEndian 13 (widths_of LittleEndian 1 3) 3
      (encode_unsigned LittleEndian 4 54 ++ encode_unsigned LittleEndian 8 0)%list
      initial_state = Some r.
Proof.
  destruct (proj2 (binary_loop_ends medit_codes_spec LittleEndian no_vertices_file
             (encode_unsigned LittleEndian 4 54 ++ encode_unsigned LittleEndian 8 0)%list
             (widths_of LittleEndian 1 3) 3 ltac:(vm_compute; reflexivity)))
    as (r & Hr & _).
  exists r. exact Hr.
Defined.

(* ===================================================================== *)
(** * The ASCII reader: what is left of the file *)
(* ===================================================================== *)

Lemma readline_length (f : string) :
  (String.length (fst (readline f)) + String.length (snd (readline f)) =
   String.length f)%nat.
Proof.
  induction f as [|c f IH]; cbn [readline]; [reflexivity|].
  destruct (Ascii.eqb c newline); [cbn; lia|].
  destruct (readline f) as [l r]. cbn in *. lia.
Qed.

Lemma readline_empty (f : string) : fst (readline f) = "" -> f = "".
Proof.
  destruct f as [|c f]; [reflexivity|]. cbn [readline].
  destruct (Ascii.eqb c newline); [discriminate|].
  destruct (readline f). discriminate.
Qed.

Lemma readline_rest (f : string) :
  (String.length (snd (readline f)) <= String.length f)%nat.
Proof. pose proof (readline_length f). lia. Qed.

Lemma lstrip_length (p : ascii -> bool) (s : string) :
  (String.length (lstrip p s) <= String.length s)%nat.
Proof.
  induction s as [|c s IH]; cbn [lstrip]; [lia|].
  destruct (p c); cbn [String.length]; lia.
Qed.

Lemma span_digits_length (s : string) :
  (String.length (snd (span_digits s)) <= String.length s)%nat.
Proof.
  induction s as [|c s IH]; cbn [span_digits]; [cbn; lia|].
  destruct (is_digit c); [|cbn; lia].
  destruct (span_digits s). cbn in *. lia.
Qed.

Lemma scan_sign_length (s : string) :
  (String.length (snd (scan_sign s)) <= String.length s)%nat.
Proof.
  destruct s as [|c r]; [cbn; lia|].
  destruct c as [b0 b1 b2 b3 b4 b5 b6 b7].
  destruct b0, b1, b2, b3, b4, b5, b6, b7; cbn; lia.
Qed.

Lemma match_word_length (w : string) : forall s r,
  match_word w s = Some r -> (String.length r <= String.length s)%nat.
Proof.
  induction w as [|a w IH]; intros s r H; cbn [match_word] in H.
  - injection H as <-. lia.
  - destruct s as [|c s]; [discriminate H|].
    destruct (Ascii.eqb a (lower c)); [|discriminate H].
    apply IH in H. cbn [String.length]. lia.
Qed.

Lemma scan_long_length (f : string) (v : Z) (r : string) :
  scan_long f = Some (v, r) -> (String.length r <= String.length f)%nat.
Proof.
  unfold scan_long. intros H.
  pose proof (lstrip_length c_space f) as A.
  pose proof (scan_sign_length (lstrip c_space f)) as B.
  destruct (scan_sign (lstrip c_space f)) as [sign f1]. cbn [snd] in B.
  pose proof (span_digits_length f1) as C.
  destruct (span_digits f1) as [d f2]. cbn [snd] in C.
  destruct d; [discriminate H|]. injection H as _ <-. lia.
Qed.

Lemma scan_double_length (f : string) (x : spec_float) (r : string) :
  scan_double f = Some (x, r) -> (String.length r <= String.length f)%nat.
Proof.
  unfold scan_double. intros H.
  pose proof (lstrip_length c_space f) as A.
  pose proof (scan_sign_length (lstrip c_space f)) as B.
  destruct (scan_sign (lstrip c_space f)) as [sign f1]. cbn [snd] in B.
  destruct (match_word "inf" f1) as [r0|] eqn:Ei.
  { apply match_word_length in Ei.
    destruct (match_word "inity" r0) as [r1|] eqn:E2;
      [apply match_word_length in E2|]; injection H as _ <-; lia. }
  destruct (match_word "nan" f1) as [r0|] eqn:En.
  { apply match_word_length in En. injection H as _ <-. lia. }
  pose proof (span_digits_length f1) as C.
  destruct (span_digits f1) as [ip f2]. cbn [snd] in C.
  match type of H with
  | context [match ?E with pair _ _ => _ end] =>
      assert (D : exists fp f3, E = (fp, f3) /\
                                (String.length f3 <= String.length f2)%nat)
  end.
  { destruct f2 as [|c s]; [eexists _, _; split; [reflexivity|lia]|].
    pose proof (span_digits_length s) as S.
    destruct (span_digits s) as [fp f3] eqn:Es. cbn [snd] in S.
    destruct c as [b0 b1 b2 b3 b4 b5 b6 b7].
    destruct b0, b1, b2, b3, b4, b5, b6, b7;
      (eexists _, _; split; [reflexivity|cbn [String.length]; lia]). }
  destruct D as (fp & f3 & ED & D). rewrite ED in H. clear ED.
  match type of H with
  | context [match ?E with pair _ _ => _ end] =>
      assert (G : exists e10 f4, E = (e10, f4) /\
                                 (String.length f4 <= String.length f3)%nat)
  end.
  { destruct f3 as [|c s]; [eexists _, _; split; [reflexivity|lia]|].
    destruct (Ascii.eqb (lower c) "e"); [|eexists _, _; split; [reflexivity|lia]].
    pose proof (scan_sign_length s) as S1.
    destruct (scan_sign s) as [esign r1]. cbn [snd] in S1.
    pose proof (span_digits_length r1) as S2.
    destruct (span_digits r1) as [ed r2]. cbn [snd] in S2.
    destruct ed; (eexists _, _; split; [reflexivity|cbn [String.length] in *; lia]). }
  destruct G as (e10 & f4 & EG & G). rewrite EG in H. clear EG.
  destruct ip; [destruct fp; [discriminate H|]|]; injection H as _ <-; lia.
Qed.

Lemma scan_float_length (t : float_dtype) (f : string) (x : spec_float) (r : string) :
  scan_float t f = Some (x, r) -> (String.length r <= String.length f)%nat.
Proof.
  unfold scan_float. destruct (scan_double f) as [[y r']|] eqn:E; [|discriminate].
  cbn [option_map]. intros H. injection H as _ <-.
  eapply scan_double_length, E.
Qed.

Lemma fromfile_text_length {A : Type} (scan : string -> option (A * string)) :
  (forall f v r, scan f = Some (v, r) -> (String.length r <= String.length f)%nat) ->
  forall fuel count f,
    (String.length (snd (fromfile_text scan fuel count f)) <= String.length f)%nat.
Proof.
  intros Hscan. induction fuel as [|fuel IH]; intros count f; cbn [fromfile_text].
  - cbn. lia.
  - destruct (count =? 0); [cbn; lia|].
    destruct (scan f) as [[v f1]|] eqn:E; [|cbn; lia].
    apply Hscan in E.
    pose proof (lstrip_length c_space f1) as L.
    destruct (lstrip c_space f1) as [|c f2] eqn:El; [cbn; lia|].
    destruct (Nat.eqb _ _); [cbn [snd]; lia|].
    specialize (IH (count - 1) (String c f2)).
    destruct (fromfile_text scan fuel (count - 1) (String c f2)) as [vs f3].
    cbn [snd] in *. lia.
Qed.

Lemma np_fromfile_text_length {A : Type} (scan : string -> option (A * string)) :
  (forall f v r, scan f = Some (v, r) -> (String.length r <= String.length f)%nat) ->
  forall count f,
    (String.length (snd (np_fromfile_text scan count f)) <= String.length f)%nat.
Proof. intros H count f. apply fromfile_text_length, H. Qed.

Lemma read_int_line_length (f f' : string) (n : Z) :
  read_int_line f = Ok (n, f') -> (String.length f' <= String.length f)%nat.
Proof.
  unfold read_int_line. pose proof (readline_rest f) as R.
  destruct (readline f) as [line f1]. cbn [snd] in R.
  destruct (py_int line); cbn [bind]; [|discriminate].
  intros H. injection H as _ <-. exact R.
Qed.

Lemma discard_section_length {A : Type} (scan : string -> option (A * string))
    (per_item : option Z) (f f' : string) :
  (forall f v r, scan f = Some (v, r) -> (String.length r <= String.length f)%nat) ->
  discard_section scan per_item f = Ok f' ->
  (String.length f' <= String.length f)%nat.
Proof.
  intros Hscan. unfold discard_section.
  destruct (read_int_line f) as [[num f1]|] eqn:E; cbn [bind]; [|discriminate].
  apply read_int_line_length in E.
  destruct per_item as [k|].
  - pose proof (np_fromfile_text_length scan Hscan (num * k) f1) as L.
    destruct (np_fromfile_text scan (num * k) f1) as [out f2]. cbn [snd] in L.
    destruct (reshape out num k); cbn [bind]; [|discriminate].
    intros H. injection H as <-. lia.
  - pose proof (np_fromfile_text_length scan Hscan num f1) as L.
    intros H. injection H as <-. lia.
Qed.

Lemma skip_lines_length (n : nat) : forall f,
  (String.length (skip_lines n f) <= String.length f)%nat.
Proof.
  induction n as [|n IH]; intros f; cbn [skip_lines]; [lia|].
  pose proof (readline_rest f). specialize (IH (snd (readline f))). lia.
Qed.

(** Case analysis on the computation that a [bind] in [H] runs first. *)
Ltac bind_pair H :=
  match type of H with
  | context [bind ?c _] =>
      let E := fresh "E" in
      destruct c as [[? ?]|?] eqn:E; cbn [bind] in H; [|discriminate H]
  end.

Ltac bind_one H :=
  match type of H with
  | context [bind ?c _] =>
      let E := fresh "E" in
      destruct c as [?|?] eqn:E; cbn [bind] in H; [|discriminate H]
  end.

(** The test [len(line) == 0 or line[0] == "#"] as one case analysis. *)
Lemma comment_match {A : Type} (l : string) (x y z : A) :
  match l with
  | EmptyString => x
  | String "#" _ => y
  | String _ _ => z
  end =
  match l with
  | EmptyString => x
  | String c _ => if Ascii.eqb c "#" then y else z
  end.
Proof.
  destruct l as [|c l]; [reflexivity|].
  destruct c as [b0 b1 b2 b3 b4 b5 b6 b7].
  destruct b0, b1, b2, b3, b4, b5, b6, b7; reflexivity.
Qed.

(** A turn of the loop of [read_ascii_buffer] that goes on has read a
    line of at least one character, and what it leaves of the file is
    shorter than what it found. *)
Lemma read_ascii_line_shorter (f f' : string) (v v' : ascii_vars)
    (st st' : reader_state) :
  read_ascii_line f v st = Ok (Continue (f', v') st') ->
  (String.length f' < String.length f)%nat.
Proof.
  unfold read_ascii_line. intros H.
  pose proof (readline_length f) as R.
  destruct (readline f) as [line f1]. cbn [fst snd] in R.
  destruct line as [|c line]; [discriminate H|].
  cbn [String.length] in R.
  assert (R1 : (String.length f1 < String.length f)%nat) by lia.
  clear R. cbv zeta in H.
  set (l := strip (String c line)) in H. clearbody l.
  assert (Hlong : forall (A : Type) (scan : string -> option (A * string)) g g' k,
            (forall f v r, scan f = Some (v, r) ->
                           (String.length r <= String.length f)%nat) ->
            discard_section scan k g = Ok g' ->
            (String.length g' <= String.length g)%nat).
  { intros. eapply discard_section_length; eassumption. }
  rewrite comment_match in H.
  destruct l as [|c0 l0]; [injection H as <- _ _; exact R1|].
  destruct (Ascii.eqb c0 "#"); [injection H as <- _ _; exact R1|].
  destruct (split (String c0 l0)) as [|kw args]; [discriminate H|].
  destruct (negb (isalpha kw) && negb (dict_mem DICT_MEDIT kw)); [discriminate H|].
  destruct (String.eqb kw "MeshVersionFormatted").
  { destruct args as [|version args']; [discriminate H|].
    destruct (in_list version ["0"; "1"]); [injection H as <- _ _; exact R1|].
    destruct (in_list version ["2"; "3"]); [injection H as <- _ _; exact R1|discriminate H]. }
  destruct (String.eqb kw "Dimension").
  { destruct args as [|d args'].
    - bind_pair H. apply read_int_line_length in E. injection H as <- _ _. lia.
    - bind_one H. injection H as <- _ _. exact R1. }
  destruct (String.eqb kw "Vertices").
  { destruct (a_dim v <=? 0); [discriminate H|].
    destruct (a_dtype v) as [dtype|]; [|discriminate H].
    bind_pair H. apply read_int_line_length in E.
    match type of H with
    | context [np_fromfile_text ?scan ?n ?g] =>
        pose proof (np_fromfile_text_length scan (scan_float_length dtype) n g) as L;
        destruct (np_fromfile_text scan n g) as [out f2]
    end.
    cbn [snd] in L. bind_pair H. injection H as <- _ _. lia. }
  destruct (dict_get DICT_MEDIT kw) as [[[ty n] tg]|].
  { bind_pair H. apply read_int_line_length in E.
    match type of H with
    | context [np_fromfile_text ?scan ?n ?g] =>
        pose proof (np_fromfile_text_length scan scan_long_length n g) as L;
        destruct (np_fromfile_text scan n g) as [out f2]
    end.
    cbn [snd] in L. bind_pair H. injection H as <- _ _. lia. }
  repeat match type of H with
         | (if in_list kw ["RequiredVertices"; _; _; _] then _ else _) = _ =>
             destruct (in_list kw ["RequiredVertices"; "TangentAtVertices";
                                   "Tangents"; "Ridges"]);
             [ bind_pair H; apply read_int_line_length in E; injection H as <- _ _;
               match goal with
               | |- context [skip_lines ?n ?g] => pose proof (skip_lines_length n g)
               end; lia
             | ]
         | (if in_list kw ["End"; "END"] then _ else _) = _ =>
             destruct (in_list kw ["End"; "END"]);
             [injection H as <- _ _; exact R1|discriminate H]
         | (if String.eqb kw "Identifier" || String.eqb kw "Geometry" then _ else _) = _ =>
             destruct (String.eqb kw "Identifier" || String.eqb kw "Geometry");
             [ injection H as <- _ _;
               match goal with
               | |- context [readline ?g] => pose proof (readline_rest g)
               end; lia
             | ]
         | (if String.eqb kw ?w then _ else _) = _ =>
             destruct (String.eqb kw w);
             [ bind_one H; apply Hlong in E;
               [ injection H as <- _ _; lia
               | first [ apply scan_long_length | apply scan_float_length ] ]
             | ]
         end.
Qed.

(* ===================================================================== *)
(** * The loop of the ASCII reader *)
(* ===================================================================== *)

Lemma read_ascii_loop_S (n : nat) (f : string) (v : ascii_vars) (st : reader_state) :
  read_ascii_loop (S n) f v st =
  match read_ascii_line f v st with
  | Raise e => Some (Raise e)
  | Ok (Break st') => Some (Ok st')
  | Ok (Continue (f', v') st') => read_ascii_loop n f' v' st'
  end.
Proof. reflexivity. Qed.

Lemma read_ascii_loop_terminates (fuel : nat) : forall f v st,
  (String.length f < fuel)%nat ->
  exists r, read_ascii_loop fuel f v st = Some r.
Proof.
  induction fuel as [|fuel IH]; intros f v st Hlen; [lia|].
  rewrite read_ascii_loop_S.
  destruct (read_ascii_line f v st) as [[st'|[f' v'] st']|e] eqn:E;
    try (eexists; reflexivity).
  apply read_ascii_line_shorter in E. apply IH. lia.
Qed.

(** X10. Every turn of the loop of [read_ascii_buffer] that goes on has
    taken at least one character from the file, so the loop ends on every
    text, with the variables it has built or with an exception. *)
Theorem ascii_loop_ends (f : string) (v : ascii_vars) (st : reader_state) :
  (forall f' v' st',
     read_ascii_line f v st = Ok (Continue (f', v') st') ->
     (String.length f' < String.length f)%nat) /\
  (exists r, read_ascii_loop (S (String.length f)) f v st = Some r).
Proof.
  split.
  - intros f' v' st'. apply read_ascii_line_shorter.
  - apply read_ascii_loop_terminates. lia.
Qed.

(** X11. The keyword [End] does not end the ASCII reader: the loop goes
    on with the line behind it, in the same state, and stops only where
    the file stops.  So what follows [End] in a file is still read: a
    section is taken into the mesh, an unknown keyword is an error. *)
Theorem end_keyword_goes_on (f : string) (v : ascii_vars) (st : reader_state)
    (fuel : nat) :
  read_ascii_line ("End" ++ nl ++ f) v st = Ok (Continue (f, v) st) /\
  read_ascii_line ("END" ++ nl ++ f) v st = Ok (Continue (f, v) st) /\
  read_ascii_loop (S fuel) ("End" ++ nl ++ f) v st = read_ascii_loop fuel f v st /\
  read_ascii_buffer (one_vertex_text ++ "Edges" ++ nl ++ "1" ++ nl ++ "1 1 5" ++ nl) =
  Ok ({| points := Some (origin float64);
         cells := [ {| cb_type := "line"; cb_data := IMat int64 2 [[0; 0]] |} ];
         point_data := [("medit:ref", IVec int64 [7])];
         cell_data := [("medit:ref", [IVec int64 [5]])] |}, []) /\
  read_ascii_buffer (one_vertex_text ++ "Finish" ++ nl) =
  Raise (ReadError "Unknown keyword 'Finish'.").
Proof.
  assert (A : read_ascii_line ("End" ++ nl ++ f) v st = Ok (Continue (f, v) st))
    by (vm_compute; reflexivity).
  split; [exact A|]. split; [vm_compute; reflexivity|].
  split; [rewrite read_ascii_loop_S, A; reflexivity|].
  split; vm_compute; reflexivity.
Qed.

(** X12. A [Vertices] section needs the dimension and the version before
    it: with no positive dimension read so far the reader raises
    [ReadError] with an empty message, also when the version is missing
    as well; with a dimension and without [MeshVersionFormatted] it raises
    [ReadError] with the message that names the missing keyword. *)
Theorem vertices_section_preconditions (f : string) (v : ascii_vars)
    (st : reader_state) :
  (a_dim v <= 0 ->
   read_ascii_line ("Vertices" ++ nl ++ f) v st = Raise (ReadError "")) /\
  (0 < a_dim v -> a_dtype v = None ->
   read_ascii_line ("Vertices" ++ nl ++ f) v st =
   Raise (ReadError "Expected `MeshVersionFormatted` before `Vertices`")) /\
  read_ascii_buffer ("Vertices" ++ nl ++ f) = Raise (ReadError "") /\
  read_ascii_buffer ("MeshVersionFormatted 2" ++ nl ++ "Vertices" ++ nl ++ f) =
  Raise (ReadError "") /\
  read_ascii_buffer ("Dimension 3" ++ nl ++ "Vertices" ++ nl ++ f) =
  Raise (ReadError "Expected `MeshVersionFormatted` before `Vertices`").
Proof.
  assert (A : forall v' st', a_dim v' <= 0 ->
            read_ascii_line ("Vertices" ++ nl ++ f) v' st' = Raise (ReadError "")).
  { intros [d t] st' H. cbn [a_dim] in H. destruct d; try lia; vm_compute; reflexivity. }
  assert (B : forall v' st', 0 < a_dim v' -> a_dtype v' = None ->
            read_ascii_line ("Vertices" ++ nl ++ f) v' st' =
            Raise (ReadError "Expected `MeshVersionFormatted` before `Vertices`")).
  { intros [d t] st' H Ht. cbn [a_dim a_dtype] in H, Ht. subst t.
    destruct d; try lia. vm_compute. reflexivity. }
  split; [apply A|]. split; [apply B|].
  unfold read_ascii_buffer. split; [|split].
  - cbn [append nl String.length]. rewrite read_ascii_loop_S.
    pose proof (A {| a_dim := 0; a_dtype := None |} initial_state) as A'.
    cbn [append nl a_dim] in A'. rewrite A' by lia. reflexivity.
  - cbn [append nl String.length]. rewrite read_ascii_loop_S.
    assert (E : read_ascii_line ("MeshVersionFormatted 2" ++ nl ++ "Vertices" ++ nl ++ f)
                  {| a_dim := 0; a_dtype := None |} initial_state =
                Ok (Continue ("Vertices" ++ nl ++ f,
                              {| a_dim := 0; a_dtype := Some c_double |}) initial_state))
      by (vm_compute; reflexivity).
    cbn [append nl] in E. rewrite E. rewrite read_ascii_loop_S.
    pose proof (A {| a_dim := 0; a_dtype := Some c_double |} initial_state) as A'.
    cbn [append nl a_dim] in A'. rewrite A' by lia. reflexivity.
  - cbn [append nl String.length]. rewrite read_ascii_loop_S.
    assert (E : read_ascii_line ("Dimension 3" ++ nl ++ "Vertices" ++ nl ++ f)
                  {| a_dim := 0; a_dtype := None |} initial_state =
                Ok (Continue ("Vertices" ++ nl ++ f,
                              {| a_dim := 3; a_dtype := None |}) initial_state))
      by (vm_compute; reflexivity).
    cbn [append nl] in E. rewrite E. rewrite read_ascii_loop_S.
    pose proof (B {| a_dim := 3; a_dtype := None |} initial_state) as B'.
    cbn [append nl a_dim a_dtype] in B'. rewrite B' by (lia || reflexivity). reflexivity.
Qed.

(* ===================================================================== *)
(** * A line that holds one unknown word *)
(* ===================================================================== *)

Lemma alpha_no_space_char (c : ascii) : is_alpha_char c = true -> py_space c = false.
Proof.
  destruct c as [b0 b1 b2 b3 b4 b5 b6 b7].
  destruct b0, b1, b2, b3, b4, b5, b6, b7; vm_compute; intros H;
    first [reflexivity | discriminate H].
Qed.

Lemma alpha_no_space (s : string) :
  string_forallb is_alpha_char s = true -> no_space s = true.
Proof.
  unfold no_space. induction s as [|c s IH]; cbn [string_forallb]; [reflexivity|].
  intros H. apply andb_prop in H. destruct H as [Hc Hs].
  rewrite (alpha_no_space_char c Hc), IH by exact Hs. reflexivity.
Qed.

Lemma no_space_newline (c : ascii) : py_space c = false -> Ascii.eqb c newline = false.
Proof.
  intros H. destruct (Ascii.eqb_spec c newline) as [->|]; [|reflexivity].
  discriminate H.
Qed.

Lemma readline_token (s f : string) :
  no_space s = true -> readline (s ++ nl ++ f) = (s ++ nl, f).
Proof.
  unfold no_space. induction s as [|c s IH]; cbn [string_forallb]; intros H.
  - reflexivity.
  - apply andb_prop in H. destruct H as [Hc Hs]. apply negb_true_iff in Hc.
    cbn [append readline]. rewrite (no_space_newline c Hc).
    change (s ++ String newline f) with (s ++ nl ++ f). rewrite (IH Hs). reflexivity.
Qed.

Lemma rstrip_token (s : string) : no_space s = true -> rstrip py_space (s ++ nl) = s.
Proof.
  unfold no_space. induction s as [|c s IH]; cbn [string_forallb]; intros H.
  - reflexivity.
  - apply andb_prop in H. destruct H as [Hc Hs]. apply negb_true_iff in Hc.
    cbn [append rstrip]. rewrite (IH Hs). rewrite Hc. destruct s; reflexivity.
Qed.

Lemma strip_token (c : ascii) (s : string) :
  no_space (String c s) = true -> strip (String c s ++ nl) = String c s.
Proof.
  intros H. unfold strip.
  assert (Hc : py_space c = false).
  { unfold no_space in H. cbn [string_forallb] in H. apply andb_prop in H.
    destruct H as [Hc _]. apply negb_true_iff in Hc. exact Hc. }
  cbn [append lstrip]. rewrite Hc.
  exact (rstrip_token (String c s) H).
Qed.

Lemma split_ws_token (s : string) : forall cur,
  no_space s = true -> split_ws s (Some cur) = [cur ++ s].
Proof.
  unfold no_space. induction s as [|c s IH]; intros cur H; cbn [split_ws].
  - rewrite append_empty_r. reflexivity.
  - cbn [string_forallb] in H. apply andb_prop in H. destruct H as [Hc Hs].
    apply negb_true_iff in Hc. rewrite Hc. rewrite (IH _ Hs).
    rewrite append_assoc3. reflexivity.
Qed.

Lemma split_token (c : ascii) (s : string) :
  no_space (String c s) = true -> split (String c s) = [String c s].
Proof.
  intros H. unfold split. cbn [split_ws].
  unfold no_space in H. cbn [string_forallb] in H. apply andb_prop in H.
  destruct H as [Hc Hs]. apply negb_true_iff in Hc. rewrite Hc.
  rewrite (split_ws_token s _ Hs). reflexivity.
Qed.

Lemma in_list_keys_get {V : Type} (d : dict V) (k : string) :
  in_list k (dict_keys d) = false -> dict_get d k = None.
Proof.
  unfold in_list, dict_keys. induction d as [|[k' v] d IH]; cbn [map existsb dict_get fst].
  - reflexivity.
  - intros H. apply orb_false_elim in H. destruct H as [Hk Hd].
    rewrite String.eqb_sym, Hk. apply IH, Hd.
Qed.

(** X13. A line that holds one word without whitespace that does not
    begin with [#]: when the word is an ASCII word that is not made of
    letters only and is no keyword of [DICT_MEDIT], the ASCII reader
    raises [ReadError] with an empty message; when it is made of the
    letters [A]-[Z] and [a]-[z] and is none of the keywords that the
    reader tests for, the reader raises [ReadError] with the message
    [Unknown keyword '<word>'.].  A word with a character beyond ASCII
    is left out: Python may take it for a word of letters. *)
Theorem unknown_word (c : ascii) (s f : string) (v : ascii_vars) (st : reader_state) :
  no_space (String c s) = true ->
  c <> "#"%char ->
  let kw := String c s in
  (isascii kw = true -> isalpha kw = false -> dict_mem DICT_MEDIT kw = false ->
   read_ascii_line (kw ++ nl ++ f) v st = Raise (ReadError "")) /\
  (isalpha kw = true ->
   in_list kw (dict_keys DICT_MEDIT ++ ascii_section_keywords) = false ->
   read_ascii_line (kw ++ nl ++ f) v st =
   Raise (ReadError ("Unknown keyword '" ++ kw ++ "'."))).
Proof.
  intros Hns Hc kw.
  assert (Hread : readline (kw ++ nl ++ f) = (kw ++ nl, f)).
  { apply readline_token, Hns. }
  assert (Hsharp : Ascii.eqb c "#" = false).
  { destruct (Ascii.eqb_spec c "#") as [E|_]; [contradiction|reflexivity]. }
  assert (Hturn : forall r : result (loop_ctl (string * ascii_vars)),
            (isalpha kw = false -> dict_mem DICT_MEDIT kw = false ->
             r = Raise (ReadError "")) ->
            (isalpha kw = true ->
             in_list kw (dict_keys DICT_MEDIT ++ ascii_section_keywords) = false ->
             r = Raise (ReadError ("Unknown keyword '" ++ kw ++ "'."))) ->
            (isascii kw = true -> isalpha kw = false -> dict_mem DICT_MEDIT kw = false ->
             r = Raise (ReadError "")) /\
            (isalpha kw = true ->
             in_list kw (dict_keys DICT_MEDIT ++ ascii_section_keywords) = false ->
             r = Raise (ReadError ("Unknown keyword '" ++ kw ++ "'.")))) by (split; auto).
  pose proof (strip_token c s Hns) as Hstrip. fold kw in Hstrip.
  pose proof (split_token c s Hns) as Hsplit. fold kw in Hsplit.
  apply Hturn; clear Hturn; intros Ha Hk; unfold read_ascii_line; rewrite Hread;
    change (kw ++ nl) with (String c (s ++ nl)) at 1; cbv iota zeta;
    rewrite Hstrip, comment_match; unfold kw at 1; rewrite Hsharp, Hsplit.
  - rewrite Ha, Hk. reflexivity.
  - rewrite Ha. cbn [negb andb].
    unfold in_list in Hk. rewrite existsb_app in Hk.
    apply orb_false_elim in Hk. destruct Hk as [Hd Hs].
    rewrite (in_list_keys_get DICT_MEDIT kw Hd).
    unfold ascii_section_keywords in Hs. cbn [existsb] in Hs.
    repeat (apply orb_false_elim in Hs; let E := fresh "E" in destruct Hs as [E Hs]).
    unfold in_list. cbn [existsb].
    repeat match goal with
           | E : String.eqb kw _ = false |- _ => rewrite E; clear E
           end.
    reflexivity.
Qed.

Lemma unknown_word_witness :
  read_ascii_line ("12" ++ nl ++ "0 0 0 0") {| a_dim := 3; a_dtype := None |} initial_state =
  Raise (ReadError "") /\
  read_ascii_line ("Finish" ++ nl) {| a_dim := 3; a_dtype := None |} initial_state =
  Raise (ReadError "Unknown keyword 'Finish'.").
Proof.
  split.
  - refine (proj1 (unknown_word "1" "2" "0 0 0 0" _ _ _ _) _ _ _);
      [reflexivity|discriminate|reflexivity|reflexivity|reflexivity].
  - refine (proj2 (unknown_word "F" "inish" "" _ _ _ _) _ _);
      [reflexivity|discriminate|reflexivity|reflexivity].
Defined.

(* ===================================================================== *)
(** * The frame of a text file that was written *)
(* ===================================================================== *)

Lemma bindW_ok {A B : Type} (c : W A) (k : A -> W B) (s s' : wstate) (b : B) :
  bindW c k s = (s', Ok b) ->
  exists s1 a, c s = (s1, Ok a) /\ k a s1 = (s', Ok b).
Proof.
  unfold bindW. destruct (c s) as [s1 [a|e]]; [|discriminate].
  intros H. exists s1, a. split; [reflexivity|exact H].
Qed.

Lemma liftW_ok {A : Type} (r : result A) (s s' : wstate) (a : A) :
  liftW r s = (s', Ok a) -> r = Ok a /\ s' = s.
Proof. unfold liftW. intros H. injection H as <- ->. split; reflexivity. Qed.

Lemma emit_out (text : string) (s s' : wstate) (u : unit) :
  emit text s = (s', Ok u) ->
  w_out s' = (w_out s ++ list_byte_of_string text)%list.
Proof. unfold emit, emit_bytes. intros H. injection H as <-. reflexivity. Qed.

Lemma keeps_out (c : W unit) (s s' : wstate) (r : result unit) :
  keeps out_extends c -> c s = (s', r) ->
  exists rest, w_out s' = (w_out s ++ rest)%list.
Proof. intros K E. specialize (K s). rewrite E in K. exact K. Qed.

(** X14. When [write_ascii_file] returns, the points of the mesh are a
    two-dimensional array of floats of four or eight bytes, and the text
    it has written begins with the version line (1 for four bytes, 2 for
    eight), the dimension line with the number of columns, an empty
    line, [Vertices] and the number of points, and ends with an empty
    line and [End]. *)
Theorem write_ascii_file_frame (mesh : Mesh) (s : wstate) :
  run_writer (write_ascii_file mesh) mesh = (s, Ok tt) ->
  exists t c rows body,
    points mesh = Some (FMat t c rows) /\
    (fsize t = 4%nat \/ fsize t = 8%nat) /\
    w_out s =
    (list_byte_of_string
       ("MeshVersionFormatted " ++ (if Nat.eqb (fsize t) 4 then "1" else "2") ++ nl) ++
     list_byte_of_string ("Dimension " ++ str_int (Z.of_nat c) ++ nl) ++
     list_byte_of_string (nl ++ "Vertices" ++ nl) ++
     list_byte_of_string (str_int (Z.of_nat (List.length rows)) ++ nl) ++
     body ++
     list_byte_of_string (nl ++ "End" ++ nl))%list.
Proof.
  unfold run_writer, write_ascii_file. intros H.
  apply bindW_ok in H. destruct H as (s1 & version & Hv & H).
  apply liftW_ok in Hv. destruct Hv as [Hv ->].
  apply bindW_ok in H. destruct H as (s2 & [] & E1 & H). apply emit_out in E1.
  apply bindW_ok in H. destruct H as (s3 & pts & Hp & H).
  apply liftW_ok in Hp. destruct Hp as [Hp ->].
  apply bindW_ok in H. destruct H as (s4 & [n d] & Hs & H).
  apply liftW_ok in Hs. destruct Hs as [Hs ->].
  apply bindW_ok in H. destruct H as (s5 & [] & E2 & H). apply emit_out in E2.
  apply bindW_ok in H. destruct H as (s6 & [] & E3 & H). apply emit_out in E3.
  apply bindW_ok in H. destruct H as (s7 & [] & E4 & H). apply emit_out in E4.
  destruct (points mesh) as [p|] eqn:Ep; [|discriminate Hv].
  cbn [of_option] in Hp. injection Hp as <-.
  destruct p as [t0 l|t l|t0 c rows|t c rows]; try discriminate Hv; try discriminate Hs.
  cbn [shape2] in Hs. injection Hs as <- <-.
  assert (Hver : (fsize t = 4%nat \/ fsize t = 8%nat) /\
                 str_int version = if Nat.eqb (fsize t) 4 then "1" else "2").
  { destruct (Nat.eqb (fsize t) 4) eqn:E4'.
    - injection Hv as <-. apply Nat.eqb_eq in E4'. split; [left; exact E4'|reflexivity].
    - destruct (Nat.eqb (fsize t) 8) eqn:E8; [|discriminate Hv].
      injection Hv as <-. apply Nat.eqb_eq in E8. split; [right; exact E8|reflexivity]. }
  destruct Hver as [Hsize Hver]. rewrite Hver in E1.
  destruct (_pick_first_int_data is_int_array (point_data mesh)) as [lk other].
  apply bindW_ok in H. destruct H as (s8 & [] & E5 & H).
  apply (keeps_out _ _ _ _ (keeps_warn_skipped out_extends out_extends_refl
                              out_extends_warn _ _ _)) in E5.
  destruct E5 as [r5 E5].
  apply bindW_ok in H. destruct H as (s9 & labels & Hl & H).
  apply liftW_ok in Hl. destruct Hl as [_ ->].
  apply bindW_ok in H. destruct H as (s10 & [] & E6 & H).
  apply keeps_out in E6.
  2:{ apply (keeps_for out_extends out_extends_refl out_extends_trans). intros [x label].
      unfold write_ascii_point.
      apply (keeps_bind out_extends out_extends_trans); [apply keeps_lift, out_extends_refl|].
      intros xs.
      apply (keeps_bind out_extends out_extends_trans); [apply keeps_lift, out_extends_refl|].
      intros line. apply out_extends_emit. }
  destruct E6 as [r6 E6].
  destruct (_pick_first_int_data is_int_list (cell_data mesh)) as [lk' other'].
  apply bindW_ok in H. destruct H as (s11 & [] & E7 & H).
  apply (keeps_out _ _ _ _ (keeps_warn_skipped out_extends out_extends_refl
                              out_extends_warn _ _ _)) in E7.
  destruct E7 as [r7 E7].
  apply bindW_ok in H. destruct H as (s12 & [] & E8 & H).
  apply keeps_out in E8.
  2:{ apply (keeps_for out_extends out_extends_refl out_extends_trans). intros item.
      apply (keeps_write_ascii_cell_block out_extends out_extends_refl out_extends_trans
               out_extends_emit out_extends_warn). }
  destruct E8 as [r8 E8].
  apply emit_out in H.
  exists t, c, rows, (r5 ++ r6 ++ r7 ++ r8)%list.
  split; [reflexivity|]. split; [exact Hsize|].
  rewrite H, E8, E7, E6, E5, E4, E3, E2, E1. cbn [w_out app].
  rewrite <- !app_assoc. reflexivity.
Qed.

Lemma write_ascii_file_frame_witness :
  exists t c rows body,
    points big_label_mesh = Some (FMat t c rows) /\
    (fsize t = 4%nat \/ fsize t = 8%nat) /\
    w_out (fst (run_writer (write_ascii_file big_label_mesh) big_label_mesh)) =
    (list_byte_of_string
       ("MeshVersionFormatted " ++ (if Nat.eqb (fsize t) 4 then "1" else "2") ++ nl) ++
     list_byte_of_string ("Dimension " ++ str_int (Z.of_nat c) ++ nl) ++
     list_byte_of_string (nl ++ "Vertices" ++ nl) ++
     list_byte_of_string (str_int (Z.of_nat (List.length rows)) ++ nl) ++
     body ++
     list_byte_of_string (nl ++ "End" ++ nl))%list.
Proof.
  exact (write_ascii_file_frame big_label_mesh
           (fst (run_writer (write_ascii_file big_label_mesh) big_label_mesh))
           ltac:(vm_compute; reflexivity)).
Defined.

(* ===================================================================== *)
(** * The frame of a binary file that was written *)
(* ===================================================================== *)

Section BinaryFrame.

Variable medit_codes : Z -> option (string * string * string).
Variable native : byteorder.

Lemma emit_bytes_out (b : list byte) (s s' : wstate) (u : unit) :
  emit_bytes b s = (s', Ok u) -> w_out s' = (w_out s ++ b)%list.
Proof. unfold emit_bytes. intros H. injection H as <-. reflexivity. Qed.

(** X15. When [write_binary_file] returns, the points of the mesh are a
    two-dimensional array and the file is: the header of 24 bytes; the
    header of the vertices, which is the keyword 4, the position behind
    the vertex records (each of [dim] floats of 8 bytes and one index)
    and the number of points; the records of the vertices and the blocks
    of the cells; and at the end the keyword 54 with the position 0. *)
Theorem write_binary_file_frame (mesh : Mesh) (s : wstate) :
  run_writer (write_binary_file medit_codes native mesh) mesh = (s, Ok tt) ->
  exists pts n dim body,
    points mesh = Some pts /\ shape2 pts = Ok (n, dim) /\
    let pr := profile_of mesh in
    let isize := p_itype_size pr in
    w_out s =
    ((encode_unsigned native 4 1 ++ encode_unsigned native 4 (p_version pr) ++
      encode_unsigned native 4 3 ++ encode_unsigned native 8 24 ++
      encode_unsigned native 4 (Z.of_nat dim)) ++
     (encode_unsigned native 4 4 ++
      encode_unsigned native 8
        (24 + Z.of_nat n * Z.of_nat dim * 8 + Z.of_nat n * isize + (4 + 8 + isize)) ++
      encode_unsigned native (Z.to_nat isize) (Z.of_nat n)) ++
     body ++
     (encode_unsigned native 4 54 ++ encode_unsigned native 8 0))%list.
Proof.
  unfold run_writer, write_binary_file. intros H.
  apply bindW_ok in H. destruct H as (s1 & pts & Hp & H).
  apply liftW_ok in Hp. destruct Hp as [Hp ->].
  apply bindW_ok in H. destruct H as (s2 & [n dim] & Hs & H).
  apply liftW_ok in Hs. destruct Hs as [Hs ->].
  apply bindW_ok in H. destruct H as (s3 & hdr & Hh & H).
  apply liftW_ok in Hh. destruct Hh as [Hh ->].
  rewrite header_bytes_file in Hh. injection Hh as <-.
  apply bindW_ok in H. destruct H as (s4 & [] & E1 & H). apply emit_bytes_out in E1.
  unfold write_binary_blocks in H.
  apply bindW_ok in H. destruct H as (s5 & field_code & Hf & H).
  apply liftW_ok in Hf. destruct Hf as [_ ->]. cbv zeta in H.
  apply bindW_ok in H. destruct H as (s6 & hdr & Hh & H).
  apply liftW_ok in Hh. destruct Hh as [Hh ->].
  rewrite header_bytes_block in Hh. injection Hh as <-.
  apply bindW_ok in H. destruct H as (s7 & [] & E2 & H). apply emit_bytes_out in E2.
  apply bindW_ok in H. destruct H as (s8 & layout & Hl & H).
  apply liftW_ok in Hl. destruct Hl as [_ ->].
  apply bindW_ok in H. destruct H as (s9 & dtype & Hd & H).
  apply liftW_ok in Hd. destruct Hd as [_ ->].
  destruct (_pick_first_int_data is_int_array (point_data mesh)) as [lk other].
  apply bindW_ok in H. destruct H as (s10 & [] & E3 & H).
  apply (keeps_out _ _ _ _ (keeps_warn_skipped out_extends out_extends_refl
                              out_extends_warn _ _ _)) in E3.
  destruct E3 as [r3 E3].
  apply bindW_ok in H. destruct H as (s11 & labels & Hlab & H).
  apply liftW_ok in Hlab. destruct Hlab as [_ ->].
  apply bindW_ok in H. destruct H as (s12 & block & Hb & H).
  apply liftW_ok in Hb. destruct Hb as [_ ->].
  apply bindW_ok in H. destruct H as (s13 & [] & E4 & H). apply emit_bytes_out in E4.
  destruct (_pick_first_int_data is_int_list (cell_data mesh)) as [lk' other'].
  apply bindW_ok in H. destruct H as (s14 & [] & E5 & H).
  apply (keeps_out _ _ _ _ (keeps_warn_skipped out_extends out_extends_refl
                              out_extends_warn _ _ _)) in E5.
  destruct E5 as [r5 E5].
  apply bindW_ok in H. destruct H as (s15 & pos' & E6 & H).
  assert (K6 : exists r6, w_out s15 = (w_out s14 ++ r6)%list).
  { pose proof (keeps_fold out_extends out_extends_refl out_extends_trans
                  (write_binary_cell_block medit_codes native mesh (profile_of mesh) dim lk')
                  (enumerate (cells mesh))
                  (fun acc x =>
                     keeps_write_binary_cell_block out_extends out_extends_refl
                       out_extends_trans out_extends_emit out_extends_warn
                       medit_codes native out_extends_set mesh (profile_of mesh) dim lk' acc x)
                  (4 * keyword_size + postype_size +
                   Z.of_nat n * Z.of_nat dim * ftype_size +
                   Z.of_nat n * p_itype_size (profile_of mesh) +
                   (keyword_size + postype_size + p_itype_size (profile_of mesh))) s14) as K.
    rewrite E6 in K. exact K. }
  destruct K6 as [r6 K6].
  apply bindW_ok in H. destruct H as (s16 & hdr & Hh & H).
  apply liftW_ok in Hh. destruct Hh as [Hh ->].
  rewrite header_bytes_end in Hh. injection Hh as <-.
  apply emit_bytes_out in H.
  destruct (points mesh) as [p|] eqn:Ep; [|discriminate Hp].
  cbn [of_option] in Hp. injection Hp as <-.
  exists p, n, dim, (r3 ++ block ++ r5 ++ r6)%list.
  split; [reflexivity|]. split; [exact Hs|].
  cbv zeta. rewrite H, K6, E5, E4, E3, E2, E1. cbn [w_out app].
  unfold keyword_size, postype_size, ftype_size.
  rewrite <- !app_assoc. reflexivity.
Qed.

End BinaryFrame.

Lemma write_binary_file_frame_witness :
  exists pts n dim body,
    points big_label_mesh = Some pts /\ shape2 pts = Ok (n, dim) /\
    w_out (fst (run_writer (write_binary_file medit_codes_spec LittleEndian big_label_mesh)
                  big_label_mesh)) =
    ((encode_unsigned LittleEndian 4 1 ++ encode_unsigned LittleEndian 4 4 ++
      encode_unsigned LittleEndian 4 3 ++ encode_unsigned LittleEndian 8 24 ++
      encode_unsigned LittleEndian 4 (Z.of_nat dim)) ++
     (encode_unsigned LittleEndian 4 4 ++
      encode_unsigned LittleEndian 8
        (24 + Z.of_nat n * Z.of_nat dim * 8 + Z.of_nat n * 8 + (4 + 8 + 8)) ++
      encode_unsigned LittleEndian 8 (Z.of_nat n)) ++
     body ++
     (encode_unsigned LittleEndian 4 54 ++ encode_unsigned LittleEndian 8 0))%list.
Proof.
  exact (write_binary_file_frame medit_codes_spec LittleEndian big_label_mesh
           (fst (run_writer (write_binary_file medit_codes_spec LittleEndian big_label_mesh)
                   big_label_mesh))
           ltac:(vm_compute; reflexivity)).
Defined.

(* ===================================================================== *)
(** * The binary reader on machines of either byte order *)
(* ===================================================================== *)

Section SameDecoding.

Variables n1 n2 : byteorder.

Lemma same_field_size (a b : field) :
  same_field n1 n2 a b -> field_size a = field_size b /\ field_count a = field_count b.
Proof.
  intros (Hr & _ & Hs & _). unfold field_size, field_count. rewrite Hr, Hs. auto.
Qed.

Lemma same_dtype_itemsize (d1 d2 : np_dtype_t) :
  same_dtype n1 n2 d1 d2 -> dtype_itemsize d1 = dtype_itemsize d2.
Proof.
  unfold dtype_itemsize. destruct d1 as [a|fs], d2 as [b|gs]; cbn; try contradiction.
  - intros H. apply same_field_size in H. destruct H as [-> _]. reflexivity.
  - induction 1 as [|a b fs gs Hab _ IH]; cbn; [reflexivity|].
    apply same_field_size in Hab. destruct Hab as [-> _]. rewrite IH. reflexivity.
Qed.

(** Reading with two type strings that denote the same layout takes the
    same bytes and leaves the same rest. *)
Lemma np_fromfile_same (f : list byte) (count : Z) (t1 t2 : string) :
  same_result (same_dtype n1 n2) (np_dtype t1) (np_dtype t2) ->
  same_result (fun x y => same_raw n1 n2 (fst x) (fst y) /\ snd x = snd y)
    (np_fromfile f count t1) (np_fromfile f count t2).
Proof.
  unfold np_fromfile. intros H.
  destruct (np_dtype t1) as [d1|e1], (np_dtype t2) as [d2|e2]; cbn in H |- *;
    try contradiction; [|exact H].
  rewrite (same_dtype_itemsize d1 d2 H).
  destruct (count <? 0); [cbn; unfold same_raw; cbn; auto|].
  destruct (_ <? count); cbn; unfold same_raw; cbn; auto.
Qed.

Lemma np_item_same (a b : raw_array) :
  same_raw n1 n2 a b -> np_item n1 a = np_item n2 b.
Proof.
  intros [Hd Hi]. unfold np_item. rewrite Hi.
  destruct (ra_dtype a) as [x|fs], (ra_dtype b) as [y|gs]; cbn in Hd; try contradiction;
    [|reflexivity].
  destruct Hd as (_ & Hk & _ & Ho). rewrite Hk, Ho. reflexivity.
Qed.

Lemma read_scalar_same (f : list byte) (t1 t2 : string) :
  same_result (same_dtype n1 n2) (np_dtype t1) (np_dtype t2) ->
  read_scalar n1 f t1 = read_scalar n2 f t2.
Proof.
  intros H. unfold read_scalar.
  pose proof (np_fromfile_same f 1 t1 t2 H) as K.
  destruct (np_fromfile f 1 t1) as [[a f1]|e1], (np_fromfile f 1 t2) as [[b f2]|e2];
    cbn in K |- *; try contradiction; [|congruence].
  destruct K as [Hab ->]. rewrite (np_item_same a b Hab). reflexivity.
Qed.

Lemma decode_ints_same (a b : field) (bs : list byte) :
  same_field n1 n2 a b -> decode_ints n1 a bs = decode_ints n2 b bs.
Proof.
  intros H. unfold decode_ints.
  destruct (same_field_size a b H) as [_ Hc]. destruct H as (_ & _ & Hs & Ho).
  rewrite Hc, Hs, Ho. reflexivity.
Qed.

Lemma decode_floats_same (a b : field) (bs : list byte) :
  same_field n1 n2 a b -> decode_floats n1 a bs = decode_floats n2 b bs.
Proof.
  intros H. unfold decode_floats.
  destruct (same_field_size a b H) as [_ Hc]. destruct H as (_ & _ & Hs & Ho).
  rewrite Hc, Hs, Ho. reflexivity.
Qed.

Lemma field_bytes_same (fs gs : list field) :
  Forall2 (same_field n1 n2) fs gs ->
  forall k item,
    option_map snd (field_bytes fs k item) = option_map snd (field_bytes gs k item) /\
    same_result (same_field n1 n2) (of_option ValueError (nth_error fs k))
      (of_option ValueError (nth_error gs k)).
Proof.
  induction 1 as [|a b fs gs Hab _ IH]; intros k item.
  - destruct k; cbn; auto.
  - destruct (same_field_size a b Hab) as [Hs _].
    destruct k as [|k]; cbn [field_bytes nth_error option_map snd of_option same_result].
    + rewrite Hs. auto.
    + rewrite Hs. apply IH.
Qed.

Lemma get_field_same (a b : raw_array) (k : nat) :
  same_raw n1 n2 a b -> get_field n1 a k = get_field n2 b k.
Proof.
  intros [Hd Hi]. unfold get_field. rewrite Hi.
  destruct (ra_dtype a) as [x|fs], (ra_dtype b) as [y|gs]; cbn in Hd; try contradiction;
    [reflexivity|].
  pose proof (field_bytes_same fs gs Hd k) as K.
  destruct (nth_error fs k) as [fd|], (nth_error gs k) as [gd|];
    try (destruct (K []) as [_ K']; cbn in K'; first [contradiction | discriminate]);
    [|reflexivity].
  assert (Hsame : same_field n1 n2 fd gd) by (destruct (K []) as [_ K']; exact K').
  assert (Hcut : map (fun item => match field_bytes fs k item with
                                  | Some (_, bs) => bs | None => [] end) (ra_items b) =
                 map (fun item => match field_bytes gs k item with
                                  | Some (_, bs) => bs | None => [] end) (ra_items b)).
  { apply map_ext. intros item. destruct (K item) as [K1 _].
    destruct (field_bytes fs k item) as [[? ?]|], (field_bytes gs k item) as [[? ?]|];
      cbn in K1; congruence. }
  cbv zeta. rewrite Hcut.
  assert (Hi' : int_dtype_of fd = int_dtype_of gd).
  { unfold int_dtype_of. destruct Hsame as (_ & _ & -> & _). reflexivity. }
  assert (Hdi : forall bs, decode_ints n1 fd bs = decode_ints n2 gd bs).
  { intros bs. apply decode_ints_same, Hsame. }
  assert (Hdf : forall bs, decode_floats n1 fd bs = decode_floats n2 gd bs).
  { intros bs. apply decode_floats_same, Hsame. }
  destruct Hsame as (Hr & Hk & Hs & _). rewrite Hk, Hr, Hs, Hi'.
  destruct (f_kind gd), (f_repeat gd); do 2 f_equal;
    first [apply map_ext | apply flat_map_ext]; intros bs;
    first [apply Hdi | apply Hdf].
Qed.

Lemma view_reshape_same (a b : raw_array) (t1 t2 : string) (nitems : Z) (k : nat) :
  same_raw n1 n2 a b ->
  same_result (same_dtype n1 n2) (np_dtype t1) (np_dtype t2) ->
  view_reshape n1 a t1 nitems k = view_reshape n2 b t2 nitems k.
Proof.
  intros [_ Hi] H. unfold view_reshape. rewrite Hi.
  destruct (np_dtype t1) as [d1|e1], (np_dtype t2) as [d2|e2]; cbn in H |- *;
    try contradiction; [|congruence].
  destruct d1 as [x|fs], d2 as [y|gs]; cbn in H; try contradiction; [|reflexivity].
  destruct H as (_ & _ & Hs & Ho).
  unfold int_dtype_of. rewrite Hs, Ho. reflexivity.
Qed.

End SameDecoding.

(* ===================================================================== *)
(** ** Layout strings *)
(* ===================================================================== *)

Lemma split_on_no_comma (s : string) :
  no_comma s = true -> split_on "," s = [s].
Proof.
  unfold no_comma. induction s as [|c s IH]; cbn [string_forallb split_on]; intros H.
  - reflexivity.
  - apply andb_prop in H. destruct H as [Hc Hs]. apply negb_true_iff in Hc.
    rewrite Hc, (IH Hs). reflexivity.
Qed.

Lemma split_on_app (a b : string) :
  no_comma a = true -> split_on "," (a ++ "," ++ b) = a :: split_on "," b.
Proof.
  unfold no_comma. induction a as [|c a IH]; cbn [string_forallb append split_on]; intros H.
  - reflexivity.
  - apply andb_prop in H. destruct H as [Hc Hs]. apply negb_true_iff in Hc.
    rewrite Hc. change (a ++ String "," b) with (a ++ "," ++ b).
    rewrite (IH Hs). reflexivity.
Qed.

Lemma split_on_concat (l : list string) :
  l <> [] -> Forall (fun s => no_comma s = true) l ->
  split_on "," (String.concat "," l) = l.
Proof.
  induction l as [|a l IH]; intros Hne Hl; [congruence|].
  inversion Hl as [|? ? Ha Hl']; subst.
  destruct l as [|b l].
  - cbn [String.concat]. apply split_on_no_comma, Ha.
  - change (String.concat "," (a :: b :: l)) with (a ++ "," ++ String.concat "," (b :: l)).
    rewrite (split_on_app _ _ Ha), IH by (congruence || assumption). reflexivity.
Qed.

Lemma span_digits_app (ds rest : string) :
  string_forallb is_digit ds = true -> starts_plain rest = true ->
  span_digits (ds ++ rest) = (ds, rest).
Proof.
  induction ds as [|c ds IH]; cbn [string_forallb append]; intros Hd Hr.
  - destruct rest as [|c r]; [reflexivity|]. cbn [span_digits].
    cbn [starts_plain] in Hr. apply negb_true_iff in Hr. rewrite Hr. reflexivity.
  - apply andb_prop in Hd. destruct Hd as [Hc Hd]. cbn [span_digits].
    rewrite Hc, (IH Hd Hr). reflexivity.
Qed.

(** The repeat count in front of a type string goes to [f_repeat]. *)
Lemma parse_field_repeat (ds ty : string) :
  string_forallb is_digit ds = true -> starts_plain ty = true ->
  parse_field (ds ++ ty) =
  (fd <- parse_field ty ;;
   Ok {| f_repeat := nat_of_digits ds; f_order := f_order fd;
         f_kind := f_kind fd; f_size := f_size fd |}).
Proof.
  intros Hd Hp. unfold parse_field.
  rewrite (span_digits_app ds ty Hd Hp).
  pose proof (span_digits_app "" ty eq_refl Hp) as E. cbn [append] in E. rewrite E.
  destruct (parse_order ty) as [o s2].
  destruct s2 as [|k sz]; [reflexivity|].
  destruct (if Ascii.eqb k "i" then Some KInt
            else if Ascii.eqb k "f" then Some KFloat else None) as [kd|]; [|reflexivity].
  destruct (nat_of_digits sz) as [n|]; [|reflexivity].
  destruct (match kd with
            | KInt => Nat.eqb n 1 || Nat.eqb n 2 || Nat.eqb n 4 || Nat.eqb n 8
            | KFloat => Nat.eqb n 2 || Nat.eqb n 4 || Nat.eqb n 8
            end); reflexivity.
Qed.

Lemma parse_field_digits (ds : string) :
  string_forallb is_digit ds = true -> parse_field ds = Raise TypeError.
Proof.
  intros Hd. unfold parse_field.
  pose proof (span_digits_app ds "" Hd eq_refl) as E. rewrite append_empty_r in E.
  rewrite E. reflexivity.
Qed.

Lemma digits_no_comma (ds : string) :
  string_forallb is_digit ds = true -> no_comma ds = true.
Proof.
  unfold no_comma. induction ds as [|c ds IH]; cbn [string_forallb]; [reflexivity|].
  intros H. apply andb_prop in H. destruct H as [Hc Hd]. rewrite (IH Hd), andb_true_r.
  apply negb_true_iff. destruct (Ascii.eqb_spec c ","); [subst; discriminate Hc|reflexivity].
Qed.

Lemma no_comma_app (a b : string) :
  no_comma a = true -> no_comma b = true -> no_comma (a ++ b) = true.
Proof.
  unfold no_comma. induction a as [|c a IH]; cbn [string_forallb append]; intros Ha Hb.
  - exact Hb.
  - apply andb_prop in Ha. destruct Ha as [Hc Ha]. rewrite Hc, (IH Ha Hb). reflexivity.
Qed.

Lemma digits_app (a b : string) :
  string_forallb is_digit a = true -> string_forallb is_digit b = true ->
  string_forallb is_digit (a ++ b) = true.
Proof.
  induction a as [|c a IH]; cbn [string_forallb append]; intros Ha Hb.
  - exact Hb.
  - apply andb_prop in Ha. destruct Ha as [Hc Ha]. rewrite Hc, (IH Ha Hb). reflexivity.
Qed.

Section Layouts.

Variables n1 n2 : byteorder.
Variable dim : Z.
Hypothesis dim_digits : all_digits (str_int dim) = true.

Lemma dim_digits_chars : string_forallb is_digit (str_int dim) = true.
Proof.
  pose proof dim_digits as H. unfold all_digits in H.
  destruct (str_int dim); [discriminate H|exact H].
Qed.

Lemma dim_nonempty (pre : string) : pre ++ str_int dim <> "".
Proof.
  pose proof dim_digits as H. unfold all_digits in H.
  destruct (str_int dim); [discriminate H|].
  destruct pre; discriminate.
Qed.

Lemma same_item_type (ds t1 t2 : string) :
  string_forallb is_digit ds = true -> same_type n1 n2 t1 t2 -> same_item n1 n2 (ds ++ t1) (ds ++ t2).
Proof.
  intros Hd (P1 & P2 & C1 & C2 & H).
  split; [apply no_comma_app; [apply digits_no_comma, Hd|exact C1]|].
  split; [apply no_comma_app; [apply digits_no_comma, Hd|exact C2]|].
  rewrite (parse_field_repeat ds t1 Hd P1), (parse_field_repeat ds t2 Hd P2).
  destruct (parse_field t1) as [a|e1], (parse_field t2) as [b|e2]; cbn in H |- *;
    try contradiction; [|exact H].
  destruct H as (_ & Hk & Hs & Ho). unfold same_field, order_of in *. cbn. auto.
Qed.

Lemma same_item_digits (ds : string) :
  string_forallb is_digit ds = true -> same_item n1 n2 ds ds.
Proof.
  intros Hd. split; [apply digits_no_comma, Hd|]. split; [apply digits_no_comma, Hd|].
  rewrite (parse_field_digits ds Hd). reflexivity.
Qed.

Variables it1 ft1 it2 ft2 : string.
Hypothesis it_same : same_type n1 n2 it1 it2.
Hypothesis ft_same : same_type n1 n2 ft1 ft2.

Lemma layout_items_same (tpl : string) : forall pre,
  string_forallb is_digit pre = true ->
  Forall2 (same_item n1 n2) (layout_items dim it1 ft1 tpl pre) (layout_items dim it2 ft2 tpl pre).
Proof.
  induction tpl as [|c tpl IH]; intros pre Hpre; cbn [layout_items].
  - destruct pre as [|c0 pre0]; [constructor|].
    constructor; [apply same_item_digits, Hpre|constructor].
  - destruct (Ascii.eqb c "i").
    { constructor; [apply same_item_type; assumption|apply IH; reflexivity]. }
    destruct (Ascii.eqb c "r").
    { constructor; [apply same_item_type; assumption|apply IH; reflexivity]. }
    apply IH. apply digits_app; [exact Hpre|apply dim_digits_chars].
Qed.

Lemma mapM_parse_same (l1 l2 : list string) :
  Forall2 (same_item n1 n2) l1 l2 ->
  same_result (Forall2 (same_field n1 n2)) (mapM parse_field l1) (mapM parse_field l2).
Proof.
  induction 1 as [|a b l1 l2 (_ & _ & Hab) _ IH]; cbn [mapM]; [constructor|].
  destruct (parse_field a) as [x|e1], (parse_field b) as [y|e2]; cbn in Hab |- *;
    try contradiction; [|exact Hab].
  destruct (mapM parse_field l1) as [xs|e1], (mapM parse_field l2) as [ys|e2];
    cbn in IH |- *; try contradiction; [|exact IH].
  constructor; assumption.
Qed.

Lemma np_dtype_items_same (l1 l2 : list string) :
  Forall2 (same_item n1 n2) l1 l2 ->
  same_result (same_dtype n1 n2) (np_dtype (String.concat "," l1))
    (np_dtype (String.concat "," l2)).
Proof.
  intros H. unfold np_dtype.
  destruct H as [|a b l1 l2 Hab Hl].
  - cbn. reflexivity.
  - assert (F1 : Forall (fun s => no_comma s = true) (a :: l1)).
    { constructor; [apply Hab|].
      clear - Hl. induction Hl as [|? ? ? ? (? & _) _ IH]; constructor; assumption. }
    assert (F2 : Forall (fun s => no_comma s = true) (b :: l2)).
    { constructor; [apply Hab|].
      clear - Hl. induction Hl as [|? ? ? ? (_ & ? & _) _ IH]; constructor; assumption. }
    rewrite (split_on_concat (a :: l1)), (split_on_concat (b :: l2))
      by (congruence || assumption).
    pose proof (mapM_parse_same (a :: l1) (b :: l2) (Forall2_cons _ _ Hab Hl)) as M.
    destruct Hl as [|a' b' l1 l2 Hab' Hl].
    + destruct Hab as (_ & _ & Hab).
      destruct (parse_field a) as [x|e1], (parse_field b) as [y|e2]; cbn in Hab |- *;
        try contradiction; assumption.
    + destruct (mapM parse_field (a :: a' :: l1)) as [xs|e1],
               (mapM parse_field (b :: b' :: l2)) as [ys|e2]; cbn in M |- *;
        try contradiction; assumption.
Qed.

(** The loop of [_produce_dtype] joins the items with commas. *)
Lemma produce_loop_items (it ft : string) (rest : string) : forall res pre,
  string_forallb template_char rest = true ->
  produce_loop dim it ft rest (res ++ pre) =
  Ok (res ++ String.concat "," (layout_items dim it ft rest pre)).
Proof.
  induction rest as [|c rest IH]; intros res pre Hc.
  - cbn [produce_loop layout_items]. destruct pre; [|reflexivity].
    cbn. reflexivity.
  - cbn [produce_loop layout_items string_forallb] in *.
    apply andb_prop in Hc. destruct Hc as [Hc Hrest].
    assert (Hne : forall p, rest <> "" -> layout_items dim it ft rest p <> []).
    { clear - Hrest dim_digits. revert Hrest.
      induction rest as [|c rest IH]; intros Hrest p Hn; [congruence|].
      cbn [layout_items string_forallb] in *.
      apply andb_prop in Hrest. destruct Hrest as [_ Hrest].
      destruct (Ascii.eqb c "i"); [discriminate|].
      destruct (Ascii.eqb c "r"); [discriminate|].
      destruct rest as [|c' rest'].
      - cbn [layout_items]. pose proof (dim_nonempty p) as D.
        destruct (p ++ str_int dim); [congruence|discriminate].
      - apply IH; [exact Hrest|discriminate]. }
    assert (Hfield : forall ty,
      produce_loop dim it ft rest
        ((res ++ pre) ++ ty ++ match rest with "" => "" | _ => "," end) =
      Ok (res ++ String.concat "," ((pre ++ ty) :: layout_items dim it ft rest ""))).
    { intros ty. destruct rest as [|c' rest'].
      - cbn. rewrite append_empty_r, append_assoc3. reflexivity.
      - rewrite <- (append_empty_r ((res ++ pre) ++ ty ++ ",")).
        rewrite IH by exact Hrest.
        rewrite concat_cons by (apply Hne; discriminate).
        rewrite !append_assoc3. reflexivity. }
    unfold template_char in Hc.
    destruct (Ascii.eqb c "i"); [apply Hfield|].
    destruct (Ascii.eqb c "r"); [apply Hfield|].
    destruct (Ascii.eqb c "d"); [|discriminate Hc].
    rewrite append_assoc3. apply IH, Hrest.
Qed.

(** The layouts that two machines build from one template denote the
    same record. *)
Lemma produce_dtype_same (tpl : string) :
  same_result
    (fun l1 l2 => same_result (same_dtype n1 n2) (np_dtype l1) (np_dtype l2))
    (_produce_dtype dim it1 ft1 tpl) (_produce_dtype dim it2 ft2 tpl).
Proof.
  unfold _produce_dtype.
  destruct (string_forallb template_char tpl) eqn:E.
  - pose proof (produce_loop_items it1 ft1 tpl "" "" E) as P1.
    pose proof (produce_loop_items it2 ft2 tpl "" "" E) as P2.
    cbn [append] in P1, P2. rewrite P1, P2. cbn [same_result].
    apply np_dtype_items_same, layout_items_same. reflexivity.
  - rewrite !(produce_loop_invalid _ _ _ _ _ E). reflexivity.
Qed.

End Layouts.

(* ===================================================================== *)
(** ** The type strings of the two machines *)
(* ===================================================================== *)

Lemma digit_dimension (dim : Z) : dim = 2 \/ dim = 3 -> all_digits (str_int dim) = true.
Proof. intros [-> | ->]; reflexivity. Qed.

Lemma widths_same (n1 n2 : byteorder) (c1 c2 v : Z) :
  file_order n1 c1 = file_order n2 c2 ->
  let w1 := widths_of n1 c1 v in
  let w2 := widths_of n2 c2 v in
  same_result (same_dtype n1 n2) (np_dtype (keytype w1)) (np_dtype (keytype w2)) /\
  same_result (same_dtype n1 n2) (np_dtype (itype w1)) (np_dtype (itype w2)) /\
  same_result (same_dtype n1 n2) (np_dtype (postype w1)) (np_dtype (postype w2)) /\
  same_type n1 n2 (itype w1) (itype w2) /\
  same_type n1 n2 (ftype w1) (ftype w2).
Proof.
  unfold file_order, widths_of, key_type, order_prefix, swapped_order.
  intros H.
  destruct (c1 =? 16777216), (c2 =? 16777216), n1, n2; cbn [other_order] in H;
    try discriminate H;
    destruct (v =? 1), (v =? 2), (v =? 3);
    vm_compute; repeat split; reflexivity.
Qed.

Section SameBlock.

Variable medit_codes : Z -> option (string * string * string).
Variables n1 n2 : byteorder.
Variables c1 c2 v dim : Z.
Hypothesis same_order : file_order n1 c1 = file_order n2 c2.
Hypothesis dim_ok : dim = 2 \/ dim = 3.

(** One turn of the loop gives the same on both machines. *)
Lemma read_binary_block_same (f : list byte) (st : reader_state) :
  read_binary_block medit_codes n1 (widths_of n1 c1 v) dim f st =
  read_binary_block medit_codes n2 (widths_of n2 c2 v) dim f st.
Proof.
  destruct (widths_same n1 n2 c1 c2 v same_order) as (Hk & Hi & Hp & Hit & Hft).
  unfold read_binary_block.
  set (w1 := widths_of n1 c1 v) in *. set (w2 := widths_of n2 c2 v) in *.
  generalize (np_fromfile_same n1 n2 f 1 _ _ Hk).
  generalize (np_fromfile f 1 (keytype w1)) (np_fromfile f 1 (keytype w2)).
  intros [[a f1]|e1] [[b f2]|e2] K; cbn [same_result fst snd] in K;
    [|exfalso; exact K|exfalso; exact K|rewrite K; reflexivity].
  destruct K as [Hab ->]. cbn [bind].
  rewrite (proj2 Hab). destruct (ra_items b) as [|item items] eqn:Eb; [reflexivity|].
  assert (Hitem : np_item n1 a = np_item n2 b) by (apply np_item_same, Hab).
  rewrite Hitem. destruct (np_item n2 b) as [field|e]; [|reflexivity]. cbn [bind].
  destruct (medit_codes field) as [[[name cf] tpl]|]; [|reflexivity].
  destruct (String.eqb name "GmfEnd"); [reflexivity|].
  destruct (String.eqb name "GmfReserved"); [reflexivity|].
  pose proof (np_fromfile_same n1 n2 f2 1 _ _ Hp) as P.
  destruct (np_fromfile f2 1 (postype w1)) as [[pa g1]|e1],
           (np_fromfile f2 1 (postype w2)) as [[pb g2]|e2];
    cbn in P; try contradiction; [|subst; reflexivity].
  destruct P as [_ ->]. cbn [bind].
  assert (Hn : (if String.eqb cf "i" then read_scalar n1 g2 (itype w1) else Ok (1, g2)) =
               (if String.eqb cf "i" then read_scalar n2 g2 (itype w2) else Ok (1, g2))).
  { destruct (String.eqb cf "i"); [|reflexivity]. apply read_scalar_same, Hi. }
  rewrite Hn.
  destruct (if String.eqb cf "i" then read_scalar n2 g2 (itype w2) else Ok (1, g2))
    as [[nitems g3]|e]; [|reflexivity]. cbn [bind].
  pose proof (produce_dtype_same n1 n2 dim (digit_dimension dim dim_ok)
                _ _ _ _ Hit Hft tpl) as L.
  destruct (_produce_dtype dim (itype w1) (ftype w1) tpl) as [l1|e1],
           (_produce_dtype dim (itype w2) (ftype w2) tpl) as [l2|e2];
    cbn in L; try contradiction; [|subst; reflexivity].
  cbn [bind].
  pose proof (np_fromfile_same n1 n2 g3 nitems l1 l2 L) as O.
  destruct (np_fromfile g3 nitems l1) as [[o1 h1]|e1],
           (np_fromfile g3 nitems l2) as [[o2 h2]|e2];
    cbn in O; try contradiction; [|subst; reflexivity].
  destruct O as [Ho ->]. cbn [bind].
  destruct (dict_get DICT_GMFMEDIT name) as [[[ty ncols] tag]|]; [|reflexivity].
  destruct (String.eqb name "GmfVertices").
  - rewrite (get_field_same n1 n2 o1 o2 0 Ho), (get_field_same n1 n2 o1 o2 1 Ho).
    reflexivity.
  - rewrite (view_reshape_same n1 n2 o1 o2 _ _ nitems (S (Z.to_nat ncols)) Ho Hi).
    reflexivity.
Qed.

Lemma read_binary_loop_same (fuel : nat) : forall f st,
  read_binary_loop medit_codes n1 fuel (widths_of n1 c1 v) dim f st =
  read_binary_loop medit_codes n2 fuel (widths_of n2 c2 v) dim f st.
Proof.
  induction fuel as [|fuel IH]; intros f st; cbn [read_binary_loop]; [reflexivity|].
  rewrite read_binary_block_same.
  destruct (read_binary_block medit_codes n2 (widths_of n2 c2 v) dim f st)
    as [[st'|f' st']|e]; try reflexivity.
  apply IH.
Qed.

End SameBlock.

(* ===================================================================== *)
(** ** The code word and the header *)
(* ===================================================================== *)

(** Four bytes that a machine reads as a small non-negative number are
    that number in the byte order of the machine. *)
Lemma decode_int_inv (o : byteorder) (b : list byte) (c : Z) :
  List.length b = 4%nat -> 0 <= c < 2 ^ 31 ->
  decode_int o b = c -> b = encode_unsigned o 4 c.
Proof.
  intros Hlen Hc H. unfold decode_int, wrap_int in H. rewrite Hlen in H.
  cbn [signed isize] in H.
  assert (Hb : 0 <= decode_unsigned o b < 2 ^ 32).
  { destruct o; cbn [decode_unsigned].
    - pose proof (le_combine_bound b) as B. rewrite Hlen in B. exact B.
    - pose proof (le_combine_bound (List.rev b)) as B. rewrite length_rev, Hlen in B.
      exact B. }
  change (8 * Z.of_nat 4) with 32 in H.
  change (2 ^ 32 / 2) with (2 ^ 31) in H.
  assert (Hx : decode_unsigned o b = c).
  { destruct (Z_lt_le_dec (decode_unsigned o b + 2 ^ 31) (2 ^ 32)) as [L|L].
    - rewrite Z.mod_small in H by lia. lia.
    - assert (E : (decode_unsigned o b + 2 ^ 31) mod 2 ^ 32 =
                  decode_unsigned o b + 2 ^ 31 - 2 ^ 32).
      { symmetry. apply Z.mod_unique with (q := 1); lia. }
      rewrite E in H. lia. }
  destruct o; cbn [decode_unsigned encode_unsigned] in *.
  - rewrite <- Hx, <- Hlen. symmetry. apply split_le_combine.
  - rewrite <- Hx. rewrite <- Hlen, <- (length_rev b).
    rewrite split_le_combine. symmetry. apply rev_involutive.
Qed.

(** What one machine reads as the code word 1, the other reads as
    16777216, and the other way round. *)
Lemma code_word_cases (b : list byte) :
  List.length b = 4%nat ->
  (decode_int LittleEndian b = 1 /\ decode_int BigEndian b = 16777216) \/
  (decode_int LittleEndian b = 16777216 /\ decode_int BigEndian b = 1) \/
  ((decode_int LittleEndian b =? 1) = false /\
   (decode_int LittleEndian b =? 16777216) = false /\
   (decode_int BigEndian b =? 1) = false /\
   (decode_int BigEndian b =? 16777216) = false).
Proof.
  intros Hlen.
  assert (A : forall o c, 0 <= c < 2 ^ 31 -> decode_int o b = c ->
              b = encode_unsigned o 4 c).
  { intros o c Hc H. apply decode_int_inv; assumption. }
  destruct (Z.eqb_spec (decode_int LittleEndian b) 1) as [E1|N1].
  { left. split; [exact E1|]. rewrite (A LittleEndian 1 ltac:(lia) E1). reflexivity. }
  destruct (Z.eqb_spec (decode_int LittleEndian b) 16777216) as [E2|N2].
  { right. left. split; [exact E2|].
    rewrite (A LittleEndian 16777216 ltac:(lia) E2). reflexivity. }
  right. right.
  destruct (Z.eqb_spec (decode_int BigEndian b) 1) as [E3|N3].
  { exfalso. apply N2. rewrite (A BigEndian 1 ltac:(lia) E3). reflexivity. }
  destruct (Z.eqb_spec (decode_int BigEndian b) 16777216) as [E4|N4].
  { exfalso. apply N1. rewrite (A BigEndian 16777216 ltac:(lia) E4). reflexivity. }
  auto.
Qed.

Lemma read_code_word (n : byteorder) (f : list byte) :
  read_scalar n f "i4" =
  if Nat.leb 4 (List.length f)
  then Ok (decode_int n (firstn 4 f), skipn 4 f)
  else Raise ValueError.
Proof.
  destruct (Nat.leb 4 (List.length f)) eqn:El.
  - apply Nat.leb_le in El.
    rewrite <- (firstn_skipn 4 f) at 1.
    unfold read_scalar.
    rewrite (np_fromfile_one "i4" (plain_field KInt 4));
      [reflexivity|reflexivity
      |change (field_size (plain_field KInt 4)) with 4%nat; lia
      |rewrite length_firstn; change (field_size (plain_field KInt 4)) with 4%nat; lia].
  - unfold read_scalar.
    destruct (np_fromfile_keyword n 1 f) as (fd & _ & _ & E).
    change (key_type n 1) with "i4" in E. rewrite E, El. reflexivity.
Qed.

(** What is left of the header behind the code word. *)
Lemma header_rest_same (n1 n2 : byteorder) (c1 c2 : Z) (f : list byte) :
  file_order n1 c1 = file_order n2 c2 ->
  forall R : widths * Z * list byte -> widths * Z * list byte -> Prop,
  (forall v dim g, dim = 2 \/ dim = 3 ->
     R (widths_of n1 c1 v, dim, g) (widths_of n2 c2 v, dim, g)) ->
  same_result R
    ('(version, f) <- read_scalar n1 f (key_type n1 c1) ;;
     if (version <? 1) || (version >? 4) then Raise (ReadError "Invalid version")
     else
       let w := widths_of n1 c1 version in
       '(field, f) <- read_scalar n1 f (keytype w) ;;
       if negb (field =? 3) then
         Raise (ReadError ("Invalid dimension code : " ++ str_int field ++ " it should be 3"))
       else
         '(_, f) <- np_fromfile f 1 (postype w) ;;
         '(dim, f) <- read_scalar n1 f (keytype w) ;;
         if negb (dim =? 2) && negb (dim =? 3) then
           Raise (ReadError ("Invalid mesh dimension : " ++ str_int dim))
         else Ok (w, dim, f))
    ('(version, f) <- read_scalar n2 f (key_type n2 c2) ;;
     if (version <? 1) || (version >? 4) then Raise (ReadError "Invalid version")
     else
       let w := widths_of n2 c2 version in
       '(field, f) <- read_scalar n2 f (keytype w) ;;
       if negb (field =? 3) then
         Raise (ReadError ("Invalid dimension code : " ++ str_int field ++ " it should be 3"))
       else
         '(_, f) <- np_fromfile f 1 (postype w) ;;
         '(dim, f) <- read_scalar n2 f (keytype w) ;;
         if negb (dim =? 2) && negb (dim =? 3) then
           Raise (ReadError ("Invalid mesh dimension : " ++ str_int dim))
         else Ok (w, dim, f)).
Proof.
  intros Ho R HR.
  assert (Hkey : read_scalar n1 f (key_type n1 c1) = read_scalar n2 f (key_type n2 c2)).
  { rewrite <- (keytype_widths n1 c1 1), <- (keytype_widths n2 c2 1).
    apply read_scalar_same. apply (widths_same n1 n2 c1 c2 1 Ho). }
  rewrite Hkey.
  destruct (read_scalar n2 f (key_type n2 c2)) as [[version g]|e]; [|reflexivity].
  cbn [bind].
  destruct ((version <? 1) || (version >? 4)); [reflexivity|]. cbv zeta.
  destruct (widths_same n1 n2 c1 c2 version Ho) as (Hk & _ & Hp & _).
  rewrite (read_scalar_same n1 n2 g _ _ Hk).
  destruct (read_scalar n2 g (keytype (widths_of n2 c2 version))) as [[field g1]|e];
    [|reflexivity].
  cbn [bind]. destruct (negb (field =? 3)); [reflexivity|].
  pose proof (np_fromfile_same n1 n2 g1 1 _ _ Hp) as P.
  destruct (np_fromfile g1 1 (postype (widths_of n1 c1 version))) as [[pa h1]|e1],
           (np_fromfile g1 1 (postype (widths_of n2 c2 version))) as [[pb h2]|e2];
    cbn in P; try contradiction; [|subst; reflexivity].
  destruct P as [_ ->]. cbn [bind].
  rewrite (read_scalar_same n1 n2 h2 _ _ Hk).
  destruct (read_scalar n2 h2 (keytype (widths_of n2 c2 version))) as [[dim g2]|e];
    [|reflexivity].
  cbn [bind].
  destruct (dim =? 2) eqn:E2.
  { cbn. apply HR. left. apply Z.eqb_eq, E2. }
  destruct (dim =? 3) eqn:E3.
  { cbn. apply HR. right. apply Z.eqb_eq, E3. }
  reflexivity.
Qed.

Lemma read_binary_header_same (f : list byte) :
  same_result
    (fun x y =>
       exists c1 c2 v,
         file_order LittleEndian c1 = file_order BigEndian c2 /\
         fst (fst x) = widths_of LittleEndian c1 v /\
         fst (fst y) = widths_of BigEndian c2 v /\
         snd (fst x) = snd (fst y) /\ snd x = snd y /\
         (snd (fst x) = 2 \/ snd (fst x) = 3))
    (read_binary_header LittleEndian f) (read_binary_header BigEndian f).
Proof.
  unfold read_binary_header. rewrite !read_code_word.
  destruct (Nat.leb 4 (List.length f)) eqn:El; [|cbn [bind same_result]; reflexivity].
  apply Nat.leb_le in El. cbn [bind].
  assert (Hlen : List.length (firstn 4 f) = 4%nat) by (rewrite length_firstn; lia).
  destruct (code_word_cases (firstn 4 f) Hlen) as [[E1 E2]|[[E1 E2]|(N1 & N2 & N3 & N4)]].
  - rewrite E1, E2.
    change (negb (1 =? 1) && negb (1 =? 16777216)) with false.
    change (negb (16777216 =? 1) && negb (16777216 =? 16777216)) with false.
    cbv iota.
    apply (header_rest_same LittleEndian BigEndian 1 16777216 (skipn 4 f)); [reflexivity|].
    intros v dim g Hd. exists 1, 16777216, v. cbn [fst snd]. auto 10.
  - rewrite E1, E2.
    change (negb (1 =? 1) && negb (1 =? 16777216)) with false.
    change (negb (16777216 =? 1) && negb (16777216 =? 16777216)) with false.
    cbv iota.
    apply (header_rest_same LittleEndian BigEndian 16777216 1 (skipn 4 f)); [reflexivity|].
    intros v dim g Hd. exists 16777216, 1, v. cbn [fst snd]. auto 10.
  - rewrite N1, N2, N3, N4. cbn [negb andb same_result]. reflexivity.
Qed.

Lemma read_binary_buffer_header (medit_codes : Z -> option (string * string * string))
    (n : byteorder) (f : list byte) :
  (forall w dim g, read_binary_header n f = Ok (w, dim, g) ->
     read_binary_buffer medit_codes n f =
     match read_binary_loop medit_codes n (S (List.length g)) w dim g initial_state with
     | Some r => st <- r ;; finish_read st
     | None => Raise ValueError
     end) /\
  (forall e, read_binary_header n f = Raise e ->
     read_binary_buffer medit_codes n f = Raise e).
Proof.
  split; intros; unfold read_binary_buffer; rewrite H; reflexivity.
Qed.

(** X16. The binary reader gives the same on a little-endian and on a
    big-endian machine: whatever the bytes of the file are, both machines
    return the same mesh with the same warnings, or raise the same
    exception.  The code word that one machine reads as 1 the other reads
    as 16777216, and the byte order that the second then puts in front of
    its type strings is the one that the first uses by itself. *)
Theorem read_binary_either_order (medit_codes : Z -> option (string * string * string))
    (n1 n2 : byteorder) (f : list byte) :
  read_binary_buffer medit_codes n1 f = read_binary_buffer medit_codes n2 f.
Proof.
  assert (A : read_binary_buffer medit_codes LittleEndian f =
              read_binary_buffer medit_codes BigEndian f).
  { pose proof (read_binary_header_same f) as H.
    destruct (read_binary_buffer_header medit_codes LittleEndian f) as [A1 B1].
    destruct (read_binary_buffer_header medit_codes BigEndian f) as [A2 B2].
    destruct (read_binary_header LittleEndian f) as [[[w1 d1] g1]|e1],
             (read_binary_header BigEndian f) as [[[w2 d2] g2]|e2];
      cbn [same_result] in H;
      [|exfalso; exact H|exfalso; exact H
       |rewrite (B1 e1 eq_refl), (B2 e2 eq_refl), H; reflexivity].
    destruct H as (c1 & c2 & v & Ho & Hw1 & Hw2 & Hd & Hg & Hdim).
    cbn [fst snd] in *. subst w1 w2 d2 g2.
    rewrite (A1 _ _ _ eq_refl), (A2 _ _ _ eq_refl).
    rewrite (read_binary_loop_same medit_codes LittleEndian BigEndian c1 c2 v d1 Ho Hdim).
    reflexivity. }
  destruct n1, n2; [reflexivity|exact A|symmetry; exact A|reflexivity].
Qed.

(* ===================================================================== *)
(** * The shape of what the readers return *)
(* ===================================================================== *)

Lemma chunks_length {A : Type} (n size : nat) : forall l : list A,
  List.length (chunks n size l) = n.
Proof. induction n as [|n IH]; intros l; cbn [chunks List.length]; auto. Qed.

Lemma chunks_rect {A : Type} (n size : nat) : forall l : list A,
  (n * size <= List.length l)%nat -> rect size (chunks n size l).
Proof.
  unfold rect. induction n as [|n IH]; intros l H; cbn [chunks]; constructor.
  - rewrite length_firstn. lia.
  - apply IH. rewrite length_skipn. lia.
Qed.

Lemma flat_map_length_one {A B : Type} (f : list A -> list B) (rows : list (list A)) :
  Forall (fun r => List.length (f r) = 1%nat) rows ->
  List.length (flat_map f rows) = List.length rows.
Proof.
  induction 1 as [|r rows Hr _ IH]; cbn [flat_map List.length]; [reflexivity|].
  rewrite length_app, Hr, IH. reflexivity.
Qed.

(** Rows of [n + 1] numbers split into a block of [n] columns and its
    references. *)
Lemma aligned_block (key ty : string) (n tag : Z) (t : int_dtype)
    (rows : list (list Z)) :
  dict_get DICT_MEDIT key = Some (ty, n, tag) \/
  dict_get DICT_GMFMEDIT key = Some (ty, n, tag) ->
  rect (S (Z.to_nat n)) rows ->
  block_aligned
    {| cb_type := ty;
       cb_data := np_add (IMat t (Z.to_nat n) (map (firstn (Z.to_nat n)) rows)) (-1) |}
    (IVec t (flat_map (fun r => skipn (Z.to_nat n) r) rows)).
Proof.
  intros Hk Hr. unfold block_aligned. cbn [cb_type cb_data np_add].
  exists key, n, tag, t. eexists. eexists.
  split; [exact Hk|]. split; [reflexivity|]. split; [|split; [reflexivity|]].
  - unfold rect in *. rewrite !Forall_map.
    eapply Forall_impl; [|exact Hr]. cbn beta. intros r H.
    rewrite length_map, length_firstn. lia.
  - rewrite !length_map. apply flat_map_length_one.
    eapply Forall_impl; [|exact Hr]. cbn beta. intros r H.
    rewrite length_skipn. lia.
Qed.

Lemma view_reshape_rect (native : byteorder) (out : raw_array) (itype : string)
    (nitems : Z) (k : nat) (t : int_dtype) (rows : list (list Z)) :
  view_reshape native out itype nitems k = Ok (t, rows) -> rect k rows.
Proof.
  unfold view_reshape.
  destruct (np_dtype itype) as [[fd|fs]|e]; cbn [bind]; try discriminate.
  destruct (negb _); [discriminate|]. cbv zeta.
  set (bytes := List.concat (ra_items out)).
  set (n := (List.length bytes / f_size fd)%nat).
  set (ints := map (decode_int (order_of native fd)) (chunks n (f_size fd) bytes)).
  assert (Hints : List.length ints = n).
  { unfold ints. rewrite length_map. apply chunks_length. }
  destruct (nitems =? -1).
  - destruct (Nat.eqb k 0) eqn:Ek; [discriminate|].
    destruct (Nat.eqb (n mod k) 0) eqn:Em; [|discriminate].
    intros H. injection H as _ <-. apply chunks_rect. rewrite Hints.
    apply Nat.eqb_neq in Ek.
    pose proof (Nat.div_mod_eq n k). apply Nat.eqb_eq in Em. nia.
  - destruct (nitems <? 0) eqn:En; [discriminate|].
    destruct (nitems * Z.of_nat k =? Z.of_nat n) eqn:Ee; [|discriminate].
    intros H. injection H as _ <-. apply chunks_rect. rewrite Hints.
    apply Z.eqb_eq in Ee. apply Z.ltb_ge in En. nia.
Qed.

Lemma reshape_rect {A : Type} (a : list A) (n k : Z) (c : nat) (rows : list (list A)) :
  0 < k -> reshape a n k = Ok (c, rows) -> c = Z.to_nat k /\ rect c rows.
Proof.
  intros Hk. unfold reshape, reshape_shape.
  assert (Ek : (k =? -1) = false) by (apply Z.eqb_neq; lia).
  rewrite Ek, andb_false_r.
  destruct (n =? -1).
  - assert (E0 : (k <=? 0) = false) by (apply Z.leb_gt; lia). rewrite E0.
    destruct (Nat.eqb (List.length a mod Z.to_nat k) 0) eqn:Em; cbn [bind];
      [|discriminate].
    intros H. injection H as <- <-. split; [reflexivity|].
    apply chunks_rect. apply Nat.eqb_eq in Em.
    pose proof (Nat.div_mod_eq (List.length a) (Z.to_nat k)). nia.
  - destruct ((n <? 0) || (k <? 0)) eqn:En; [discriminate|].
    destruct (n * k =? Z.of_nat (List.length a)) eqn:Ee; cbn [bind]; [|discriminate].
    intros H. injection H as <- <-. split; [reflexivity|].
    apply chunks_rect. apply Z.eqb_eq in Ee.
    apply orb_false_elim in En. destruct En as [En _]. apply Z.ltb_ge in En. nia.
Qed.

(** The numbers of nodes of the registry are not negative. *)
Lemma registry_nodes (table : dict (string * Z * Z)) (key ty : string) (n tag : Z) :
  table = DICT_MEDIT \/ table = DICT_GMFMEDIT ->
  dict_get table key = Some (ty, n, tag) -> 0 <= n.
Proof.
  intros Ht Hget. apply dict_get_In in Hget.
  assert (F : forall table', table' = DICT_MEDIT \/ table' = DICT_GMFMEDIT ->
              forallb (fun item : string * (string * Z * Z) =>
                         let '(_, (_, n', _)) := item in 0 <=? n') table' = true).
  { intros table' [->| ->]; vm_compute; reflexivity. }
  pose proof (proj1 (forallb_forall _ _) (F table Ht) _ Hget) as A.
  cbn beta iota in A. apply Z.leb_le, A.
Qed.

(** The reordering behind the loops keeps the shape of every block. *)
Lemma convert_block_aligned (b : CellBlock) (refs : ndarray) (data : ndarray) :
  block_aligned b refs ->
  _convert_cell_data (cb_type b) (cb_data b) _medit_to_meshio = Ok data ->
  block_aligned {| cb_type := cb_type b; cb_data := data |} refs.
Proof.
  intros (key & n & tag & t & rows & labels & Hk & Hd & Hr & Hrefs & Hlen) Hc.
  destruct (String.eqb_spec (cb_type b) "hexahedron27") as [E|Hne].
  - assert (Hn : n = 27).
    { destruct Hk as [Hk|Hk];
        [eapply (registry_hexahedron27 DICT_MEDIT)
        |eapply (registry_hexahedron27 DICT_GMFMEDIT)]; eauto. }
    subst n. rewrite E, Hd in Hc.
    change (Z.to_nat 27) with 27%nat in *.
    assert (Hv : _convert_cell_data "hexahedron27" (IMat t 27 rows) _medit_to_meshio =
                 Ok (IMat t 27 (map (select hexa27_in) rows))) by reflexivity.
    rewrite Hv in Hc. injection Hc as <-.
    exists key, 27, tag, t, (map (select hexa27_in) rows), labels.
    cbn [cb_type cb_data]. split; [exact Hk|]. split; [reflexivity|].
    split; [apply rect_map_select_in, Hr|]. split; [exact Hrefs|].
    rewrite length_map. exact Hlen.
  - destruct (dict_get_medit_to_meshio (cb_type b) Hne) as [H1 _].
    rewrite (convert_unlisted _ _ _ H1) in Hc. injection Hc as <-.
    exists key, n, tag, t, rows, labels. cbn [cb_type cb_data]. auto 10.
Qed.

Lemma convert_cells_aligned (cells : list CellBlock) (refs : list ndarray) :
  Forall2 block_aligned cells refs ->
  forall cells', _convert_cells cells _medit_to_meshio = Ok cells' ->
  Forall2 block_aligned cells' refs.
Proof.
  unfold _convert_cells.
  induction 1 as [|b r cells refs Hb _ IH]; intros cells' H; cbn [mapM] in H.
  - injection H as <-. constructor.
  - destruct (_convert_cell_data (cb_type b) (cb_data b) _medit_to_meshio) as [d|] eqn:Ed;
      [|discriminate H]. cbn [bind] in H.
    destruct (mapM _ cells) as [cs|]; [|discriminate H]. cbn [bind] in H.
    injection H as <-. constructor; [|apply IH; reflexivity].
    eapply convert_block_aligned; eassumption.
Qed.

(** Arrays of one dtype are arrays of one width. *)
Lemma block_aligned_matched (b : CellBlock) (refs : ndarray) :
  block_aligned b refs -> block_matched b refs.
Proof.
  intros (key & n & tag & t & rows & labels & Hk & Hd & Hr & Hl & Hn).
  exists key, n, tag, t, t, rows, labels. repeat split; assumption.
Qed.

Section BinaryShape.

Variable medit_codes : Z -> option (string * string * string).
Variable native : byteorder.

Lemma read_binary_block_aligned (w : widths) (dim : Z) (f : list byte)
    (st : reader_state) (r : loop_ctl (list byte)) :
  read_binary_block medit_codes native w dim f st = Ok r ->
  Forall2 block_aligned (st_cells st) (st_cell_refs st) ->
  match r with
  | Break st' | Continue _ st' => Forall2 block_aligned (st_cells st') (st_cell_refs st')
  end.
Proof.
  unfold read_binary_block. intros H Hok.
  bind_pair H. destruct (ra_items r0); [injection H as <-; exact Hok|].
  bind_one H.
  match type of H with
  | context [medit_codes ?t] =>
      destruct (medit_codes t) as [[[name cf] tpl]|]; [|discriminate H]
  end.
  destruct (String.eqb name "GmfEnd"); [injection H as <-; exact Hok|].
  destruct (String.eqb name "GmfReserved"); [injection H as <-; exact Hok|].
  bind_pair H. bind_pair H. bind_one H. bind_pair H.
  destruct (dict_get DICT_GMFMEDIT name) as [[[ty nc] tg]|] eqn:Eg.
  - destruct (String.eqb name "GmfVertices").
    + bind_one H. bind_one H. injection H as <-. exact Hok.
    + bind_pair H. injection H as <-. cbn [st_cells st_cell_refs].
      apply Forall2_app; [exact Hok|]. constructor; [|constructor].
      apply (aligned_block name ty nc tg); [right; exact Eg|].
      eapply view_reshape_rect. eassumption.
  - injection H as <-. exact Hok.
Qed.

Lemma read_binary_loop_aligned (fuel : nat) : forall w dim f st st',
  read_binary_loop medit_codes native fuel w dim f st = Some (Ok st') ->
  Forall2 block_aligned (st_cells st) (st_cell_refs st) ->
  Forall2 block_aligned (st_cells st') (st_cell_refs st').
Proof.
  induction fuel as [|fuel IH]; intros w dim f st st' H Hok; [discriminate H|].
  cbn [read_binary_loop] in H.
  destruct (read_binary_block medit_codes native w dim f st) as [[st1|f1 st1]|e] eqn:E;
    [| |discriminate H].
  - injection H as <-. apply (read_binary_block_aligned _ _ _ _ _ E Hok).
  - eapply IH; [exact H|]. apply (read_binary_block_aligned _ _ _ _ _ E Hok).
Qed.

(** X17. In a mesh that [read_binary_buffer] returns, the cell blocks
    and the arrays of [cell_data["medit:ref"]] go together one to one:
    the type of a block is one of the registry, its data are a matrix of
    integers with the number of nodes of the type in every row, and its
    references are a vector of integers of the same width with one entry
    per element.  Nothing is said of the byte order of the two arrays. *)
Theorem binary_cells_aligned (f : list byte) (m : Mesh) (ws : warnings) :
  read_binary_buffer medit_codes native f = Ok (m, ws) ->
  exists refs,
    cell_data m = [("medit:ref", refs)] /\ Forall2 block_matched (cells m) refs.
Proof.
  unfold read_binary_buffer. intros H.
  destruct (read_binary_header native f) as [[[w dim] f0]|e]; [|discriminate H].
  cbn [bind] in H.
  destruct (read_binary_loop medit_codes native (S (List.length f0)) w dim f0 initial_state)
    as [[st|e]|] eqn:El; try discriminate H.
  cbn [bind] in H. unfold finish_read in H.
  destruct (_convert_cells (st_cells st) _medit_to_meshio) as [cells'|] eqn:Ec;
    [|discriminate H].
  cbn [bind] in H. injection H as <- _.
  exists (st_cell_refs st). split; [reflexivity|]. cbn [cells mesh_of_state].
  eapply Forall2_impl; [apply block_aligned_matched|].
  eapply convert_cells_aligned; [|exact Ec].
  eapply read_binary_loop_aligned; [exact El|]. constructor.
Qed.

End BinaryShape.

(* ===================================================================== *)
(** ** The ASCII reader *)
(* ===================================================================== *)

Lemma dict_get_set_same {V : Type} (d : dict V) (k : string) (v : V) :
  dict_get (dict_set d k v) k = Some v.
Proof.
  induction d as [|[k' v'] d IH]; cbn [dict_set dict_get].
  - rewrite String.eqb_refl. reflexivity.
  - destruct (String.eqb k' k) eqn:E; cbn [dict_get].
    + rewrite String.eqb_refl. reflexivity.
    + rewrite E. exact IH.
Qed.

Lemma set_points_aligned (st : reader_state) (dtype : float_dtype) (dim : Z)
    (c : nat) (rows : list (list spec_float)) (out : list spec_float) (n : Z) :
  0 < dim ->
  reshape out n (dim + 1) = Ok (c, rows) ->
  state_aligned st ->
  state_aligned
    (set_points st
       (FMat dtype (Z.to_nat dim) (map (firstn (Z.to_nat dim)) rows))
       (IVec int64
          (flat_map (fun r => map (int_of_float int64)
                                (firstn 1 (skipn (Z.to_nat dim) r))) rows))).
Proof.
  intros Hd Hr [Hc _]. apply reshape_rect in Hr; [|lia].
  destruct Hr as [-> Hr].
  split; [exact Hc|]. cbn [set_points st_points st_point_data points_aligned].
  eexists dtype, (Z.to_nat dim), _, _. split; [reflexivity|].
  split; [|split; [apply dict_get_set_same|]].
  - unfold rect in *. rewrite Forall_map. eapply Forall_impl; [|exact Hr].
    cbn beta. intros r H. rewrite length_firstn. lia.
  - rewrite length_map.
    apply (flat_map_length_one
             (fun r => map (int_of_float int64) (firstn 1 (skipn (Z.to_nat dim) r)))).
    eapply Forall_impl; [|exact Hr]. cbn beta. intros r H.
    rewrite length_map, length_firstn, length_skipn. lia.
Qed.

Lemma add_cells_aligned (st : reader_state) (kw ty : string) (ppc tag : Z)
    (c : nat) (rows : list (list Z)) (out : list Z) (n : Z) :
  dict_get DICT_MEDIT kw = Some (ty, ppc, tag) ->
  reshape out n (ppc + 1) = Ok (c, rows) ->
  state_aligned st ->
  state_aligned
    (add_cells st
       {| cb_type := ty;
          cb_data := np_add (IMat int64 (Z.to_nat ppc)
                               (map (firstn (Z.to_nat ppc)) rows)) (-1) |}
       (IVec int64 (flat_map (fun r => skipn (Z.to_nat ppc) r) rows))).
Proof.
  intros Hk Hr [Hc Hp].
  pose proof (registry_nodes DICT_MEDIT kw ty ppc tag (or_introl eq_refl) Hk) as Hn.
  apply reshape_rect in Hr; [|lia]. destruct Hr as [-> Hr].
  split; [|exact Hp]. cbn [add_cells st_cells st_cell_refs].
  apply Forall2_app; [exact Hc|]. constructor; [|constructor].
  apply (aligned_block kw ty ppc tag); [left; exact Hk|].
  replace (S (Z.to_nat ppc)) with (Z.to_nat (ppc + 1)) by lia. exact Hr.
Qed.

(** One turn of the loop of the ASCII reader keeps the blocks and the
    points in step with their references. *)
Lemma read_ascii_line_aligned (f : string) (v : ascii_vars) (st : reader_state)
    (r : loop_ctl (string * ascii_vars)) :
  read_ascii_line f v st = Ok r -> state_aligned st -> state_aligned (ctl_state r).
Proof.
  unfold read_ascii_line. intros H Hst.
  destruct (readline f) as [line f1].
  destruct line as [|c line]; [injection H as <-; exact Hst|].
  cbv zeta in H.
  set (l := strip (String c line)) in H. clearbody l.
  rewrite comment_match in H.
  destruct l as [|c0 l0]; [injection H as <-; exact Hst|].
  destruct (Ascii.eqb c0 "#"); [injection H as <-; exact Hst|].
  destruct (split (String c0 l0)) as [|kw args]; [discriminate H|].
  destruct (negb (isalpha kw) && negb (dict_mem DICT_MEDIT kw)); [discriminate H|].
  destruct (String.eqb kw "MeshVersionFormatted").
  { destruct args as [|version args']; [discriminate H|].
    destruct (in_list version ["0"; "1"]); [injection H as <-; exact Hst|].
    destruct (in_list version ["2"; "3"]); [injection H as <-; exact Hst|discriminate H]. }
  destruct (String.eqb kw "Dimension").
  { destruct args as [|d args'].
    - bind_pair H. injection H as <-. exact Hst.
    - bind_one H. injection H as <-. exact Hst. }
  destruct (String.eqb kw "Vertices").
  { destruct (a_dim v <=? 0) eqn:Ed; [discriminate H|]. apply Z.leb_gt in Ed.
    destruct (a_dtype v) as [dtype|]; [|discriminate H].
    bind_pair H.
    match type of H with
    | context [np_fromfile_text ?scan ?n ?g] =>
        destruct (np_fromfile_text scan n g) as [out f2]
    end.
    bind_pair H. injection H as <-. cbn [ctl_state].
    eapply set_points_aligned; eassumption. }
  destruct (dict_get DICT_MEDIT kw) as [[[ty n] tg]|] eqn:Ek.
  { bind_pair H.
    match type of H with
    | context [np_fromfile_text ?scan ?n ?g] =>
        destruct (np_fromfile_text scan n g) as [out f2]
    end.
    bind_pair H. injection H as <-. cbn [ctl_state].
    eapply add_cells_aligned; eassumption. }
  repeat match type of H with
         | (if in_list kw ["RequiredVertices"; _; _; _] then _ else _) = _ =>
             destruct (in_list kw ["RequiredVertices"; "TangentAtVertices";
                                   "Tangents"; "Ridges"]);
             [ bind_pair H; injection H as <-; exact Hst | ]
         | (if in_list kw ["End"; "END"] then _ else _) = _ =>
             destruct (in_list kw ["End"; "END"]);
             [injection H as <-; exact Hst|discriminate H]
         | (if String.eqb kw "Identifier" || String.eqb kw "Geometry" then _ else _) = _ =>
             destruct (String.eqb kw "Identifier" || String.eqb kw "Geometry");
             [injection H as <-; exact Hst|]
         | (if String.eqb kw ?w then _ else _) = _ =>
             destruct (String.eqb kw w); [bind_one H; injection H as <-; exact Hst|]
         end.
Qed.

Lemma read_ascii_loop_aligned (fuel : nat) : forall f v st st',
  read_ascii_loop fuel f v st = Some (Ok st') ->
  state_aligned st -> state_aligned st'.
Proof.
  induction fuel as [|fuel IH]; intros f v st st' H Hst; [discriminate H|].
  rewrite read_ascii_loop_S in H.
  destruct (read_ascii_line f v st) as [[st1|[f1 v1] st1]|e] eqn:E; [| |discriminate H].
  - injection H as <-. apply (read_ascii_line_aligned _ _ _ _ E Hst).
  - eapply IH; [exact H|]. apply (read_ascii_line_aligned _ _ _ _ E Hst).
Qed.

(** X18. In every mesh that [read_ascii_buffer] returns, the points are a
    matrix of floats with the same number of coordinates in every row,
    [point_data["medit:ref"]] is a vector of 64-bit integers with one
    entry per point, and the cell blocks and the arrays of
    [cell_data["medit:ref"]] go together one to one: registry type,
    integer matrix with the number of nodes of the type in every row,
    one reference per element. *)
Theorem ascii_mesh_aligned (f : string) (m : Mesh) (ws : warnings) :
  read_ascii_buffer f = Ok (m, ws) ->
  (exists refs,
     cell_data m = [("medit:ref", refs)] /\ Forall2 block_aligned (cells m) refs) /\
  (exists t d rows labels,
     points m = Some (FMat t d rows) /\ rect d rows /\
     dict_get (point_data m) "medit:ref" = Some (IVec int64 labels) /\
     List.length labels = List.length rows).
Proof.
  unfold read_ascii_buffer. intros H.
  destruct (read_ascii_loop _ _ _ _) as [[st|e]|] eqn:El; try discriminate H.
  cbn [bind] in H.
  assert (Hst : state_aligned st).
  { eapply read_ascii_loop_aligned; [exact El|]. split; [constructor|exact I]. }
  destruct Hst as [Hc Hp].
  destruct (st_points st) as [p|] eqn:Ep; [|discriminate H].
  destruct (_convert_cells (st_cells st) _medit_to_meshio) as [cells'|] eqn:Ec;
    [|discriminate H].
  cbn [bind] in H. injection H as <- _. split.
  - exists (st_cell_refs st). split; [reflexivity|]. cbn [cells mesh_of_state].
    eapply convert_cells_aligned; eassumption.
  - cbn [points point_data mesh_of_state]. rewrite Ep.
    destruct Hp as (t & d & rows & labels & -> & Hr & Hg & Hl).
    exists t, d, rows, labels. auto.
Qed.

Lemma binary_cells_aligned_witness :
  exists m ws refs,
    read_binary_buffer medit_codes_spec LittleEndian triangle_file = Ok (m, ws) /\
    cell_data m = [("medit:ref", refs)] /\ Forall2 block_matched (cells m) refs.
Proof.
  assert (E : exists m ws,
            read_binary_buffer medit_codes_spec LittleEndian triangle_file = Ok (m, ws)).
  { vm_compute. eexists. eexists. reflexivity. }
  destruct E as (m & ws & E).
  destruct (binary_cells_aligned medit_codes_spec LittleEndian triangle_file m ws E)
    as (refs & H1 & H2).
  exists m, ws, refs. auto.
Defined.

Lemma ascii_mesh_aligned_witness :
  (exists refs,
     cell_data one_vertex_mesh = [("medit:ref", refs)] /\
     Forall2 block_aligned (cells one_vertex_mesh) refs) /\
  (exists t d rows labels,
     points one_vertex_mesh = Some (FMat t d rows) /\ rect d rows /\
     dict_get (point_data one_vertex_mesh) "medit:ref" = Some (IVec int64 labels) /\
     List.length labels = List.length rows).
Proof.
  exact (ascii_mesh_aligned one_vertex_text one_vertex_mesh []
           ltac:(vm_compute; reflexivity)).
Defined.

(* ===================================================================== *)
(** ** The points of a binary file *)
(* ===================================================================== *)

Lemma np_fromfile_dtype (f g : list byte) (count : Z) (dtype : string) (a : raw_array) :
  np_fromfile f count dtype = Ok (a, g) -> np_dtype dtype = Ok (ra_dtype a).
Proof.
  unfold np_fromfile. destruct (np_dtype dtype) as [d|]; cbn [bind]; [|discriminate].
  destruct (count <? 0); [intros H; injection H as <- _; reflexivity|].
  destruct (_ <? count); intros H; injection H as <- _; reflexivity.
Qed.

(** The layout of the vertices: [dim] floats and one integer. *)
Lemma vertices_layout (native : byteorder) (code version dim : Z) (l : string) :
  dim = 2 \/ dim = 3 ->
  let w := widths_of native code version in
  _produce_dtype dim (itype w) (ftype w) "dri" = Ok l ->
  exists fd0 fd1,
    np_dtype l = Ok (Structured [fd0; fd1]) /\
    f_kind fd0 = KFloat /\ f_repeat fd0 = Some (Z.to_nat dim) /\
    f_kind fd1 = KInt /\ f_repeat fd1 = None.
Proof.
  unfold widths_of, key_type, order_prefix, swapped_order.
  intros Hd.
  destruct native, (code =? 16777216), (version =? 1), (version =? 2), (version =? 3),
    Hd as [-> | ->];
    cbv zeta; intros H; vm_compute in H; injection H as <-;
    eexists; eexists; (split; [vm_compute; reflexivity|]); repeat split.
Qed.

Lemma decode_floats_length (native : byteorder) (fd : field) (bs : list byte) :
  List.length (decode_floats native fd bs) = field_count fd.
Proof. unfold decode_floats. rewrite length_map. apply chunks_length. Qed.

Lemma decode_ints_length (native : byteorder) (fd : field) (bs : list byte) :
  List.length (decode_ints native fd bs) = field_count fd.
Proof. unfold decode_ints. rewrite length_map. apply chunks_length. Qed.

Section BinaryPoints.

Variable medit_codes : Z -> option (string * string * string).
Variable native : byteorder.
Hypothesis codes_vertices : vertices_template medit_codes.

Lemma read_binary_block_points (code version dim : Z) (f : list byte)
    (st : reader_state) (r : loop_ctl (list byte)) :
  dim = 2 \/ dim = 3 ->
  read_binary_block medit_codes native (widths_of native code version) dim f st = Ok r ->
  binary_points_aligned dim (st_points st) (st_point_data st) ->
  binary_points_aligned dim (st_points (ctl_state r)) (st_point_data (ctl_state r)).
Proof.
  unfold read_binary_block. intros Hdim H Hok.
  bind_pair H. destruct (ra_items r0); [injection H as <-; exact Hok|].
  bind_one H.
  match type of H with
  | context [medit_codes ?t] =>
      destruct (medit_codes t) as [[[name cf] tpl]|] eqn:Ecode; [|discriminate H]
  end.
  destruct (String.eqb name "GmfEnd"); [injection H as <-; exact Hok|].
  destruct (String.eqb name "GmfReserved"); [injection H as <-; exact Hok|].
  bind_pair H. bind_pair H. bind_one H. bind_pair H.
  destruct (dict_get DICT_GMFMEDIT name) as [[[ty nc] tg]|] eqn:Eg.
  - destruct (String.eqb_spec name "GmfVertices") as [->|_].
    + bind_one H. bind_one H. injection H as <-.
      cbn [ctl_state st_points st_point_data binary_points_aligned].
      pose proof (codes_vertices _ _ _ Ecode) as Ht. subst tpl.
      match goal with
      | Hp : _produce_dtype _ _ _ "dri" = Ok ?l,
        Hf : np_fromfile _ _ ?l = Ok (?out, _),
        G0 : get_field native ?out 0 = Ok _,
        G1 : get_field native ?out 1 = Ok _ |- _ =>
          destruct (vertices_layout native code version dim l Hdim Hp)
            as (fd0 & fd1 & Hl & K0 & R0 & K1 & R1);
          apply np_fromfile_dtype in Hf; rewrite Hl in Hf; injection Hf as Hf;
          unfold get_field in G0, G1; rewrite <- Hf in G0, G1;
          cbn [nth_error] in G0, G1; cbv zeta in G0, G1;
          rewrite K0, R0 in G0; rewrite K1, R1 in G1;
          injection G0 as <-; injection G1 as <-
      end.
      eexists _, _, _, _. split; [reflexivity|].
      split; [|split; [apply dict_get_set_same|]].
      * unfold rect. rewrite !Forall_map. apply Forall_forall. intros item _.
        rewrite decode_floats_length. unfold field_count. rewrite R0. reflexivity.
      * rewrite (flat_map_length_one (decode_ints native fd1));
          [rewrite !length_map; reflexivity|].
        apply Forall_forall. intros bs _. rewrite decode_ints_length.
        unfold field_count. rewrite R1. reflexivity.
    + bind_pair H. injection H as <-. exact Hok.
  - injection H as <-. exact Hok.
Qed.

Lemma read_binary_loop_points (code version dim : Z) (fuel : nat) : forall f st st',
  dim = 2 \/ dim = 3 ->
  read_binary_loop medit_codes native fuel (widths_of native code version) dim f st
  = Some (Ok st') ->
  binary_points_aligned dim (st_points st) (st_point_data st) ->
  binary_points_aligned dim (st_points st') (st_point_data st').
Proof.
  induction fuel as [|fuel IH]; intros f st st' Hdim H Hok; [discriminate H|].
  cbn [read_binary_loop] in H.
  destruct (read_binary_block medit_codes native (widths_of native code version) dim f st)
    as [[st1|f1 st1]|e] eqn:E; [| |discriminate H].
  - injection H as <-. apply (read_binary_block_points _ _ _ _ _ _ Hdim E Hok).
  - eapply IH; [exact Hdim|exact H|].
    apply (read_binary_block_points _ _ _ _ _ _ Hdim E Hok).
Qed.

End BinaryPoints.

(** X19. With a code table that gives the vertices the template of
    [dim] reals and one integer, the points of every mesh that
    [read_binary_buffer] returns are, when there are any, a matrix of
    floats with two or three coordinates in every row, and
    [point_data["medit:ref"]] is a vector of integers with one entry per
    point. *)
Theorem binary_points_shape (medit_codes : Z -> option (string * string * string))
    (native : byteorder) (f : list byte) (m : Mesh) (ws : warnings) :
  vertices_template medit_codes ->
  read_binary_buffer medit_codes native f = Ok (m, ws) ->
  exists dim, (dim = 2 \/ dim = 3) /\
              binary_points_aligned dim (points m) (point_data m).
Proof.
  intros Hcodes H. unfold read_binary_buffer in H.
  destruct (read_binary_header native f) as [[[w dim] f0]|e] eqn:Eh; [|discriminate H].
  cbn [bind] in H.
  destruct (read_binary_header_widths native f f0 w dim Eh)
    as (code & version & -> & Hdim).
  destruct (read_binary_loop medit_codes native (S (List.length f0))
              (widths_of native code version) dim f0 initial_state)
    as [[st|e]|] eqn:El; try discriminate H.
  cbn [bind] in H. unfold finish_read in H.
  destruct (_convert_cells (st_cells st) _medit_to_meshio) as [cells'|]; [|discriminate H].
  cbn [bind] in H. injection H as <- _.
  exists dim. split; [exact Hdim|]. cbn [points point_data mesh_of_state].
  eapply read_binary_loop_points; [exact Hcodes|exact Hdim|exact El|exact I].
Qed.

Lemma medit_codes_spec_vertices : vertices_template medit_codes_spec.
Proof.
  intros tag cf tpl. unfold medit_codes_spec.
  destruct (tag =? 3); [discriminate|].
  destruct (tag =? 4) eqn:E4; [intros H; injection H as _ <-; reflexivity|].
  destruct (tag =? 13); [discriminate|].
  destruct (tag =? 54); [discriminate|].
  destruct (find _ DICT_MESHIO) as [[name [[medit nPe] t]]|] eqn:Ef; [|discriminate].
  apply find_some in Ef. destruct Ef as [Hin Ht]. apply Z.eqb_eq in Ht. subst t.
  intros H. exfalso.
  assert (F : forallb (fun item : string * (string * Z * Z) =>
                         let '(_, (medit', _, t')) := item in
                         (t' =? 4) || negb (String.eqb ("Gmf" ++ medit') "GmfVertices"))
                      DICT_MESHIO = true) by (vm_compute; reflexivity).
  pose proof (proj1 (forallb_forall _ _) F _ Hin) as A. cbn beta iota in A.
  rewrite E4 in A. cbn [orb] in A. apply negb_true_iff in A.
  injection H as Hname _ _. rewrite Hname, String.eqb_refl in A. discriminate A.
Qed.

Lemma binary_points_shape_witness :
  exists m ws dim,
    read_binary_buffer medit_codes_spec LittleEndian triangle_file = Ok (m, ws) /\
    (dim = 2 \/ dim = 3) /\ binary_points_aligned dim (points m) (point_data m).
Proof.
  assert (E : exists m ws,
            read_binary_buffer medit_codes_spec LittleEndian triangle_file = Ok (m, ws)).
  { vm_compute. eexists. eexists. reflexivity. }
  destruct E as (m & ws & E).
  destruct (binary_points_shape medit_codes_spec LittleEndian triangle_file m ws
              medit_codes_spec_vertices E) as (dim & H1 & H2).
  exists m, ws, dim. auto.
Defined.

(* ===================================================================== *)
(** * The records of a block of cells, written and read *)
(* ===================================================================== *)

Lemma firstn_one_skipn {A : Type} (d : A) : forall (i : nat) (l : list A),
  (i < List.length l)%nat -> firstn 1 (skipn i l) = [nth i l d].
Proof.
  induction i as [|i IH]; intros [|x l] H; cbn [List.length] in H; try lia.
  - reflexivity.
  - cbn [skipn nth]. apply IH. lia.
Qed.

Lemma map_nth_seq {A : Type} (d : A) (l : list A) :
  map (fun i => nth i l d) (seq 0 (List.length l)) = l.
Proof.
  induction l as [|x l IH]; [reflexivity|].
  cbn [List.length seq map nth]. f_equal.
  rewrite <- seq_shift, map_map. exact IH.
Qed.

Lemma column_nth (n i : nat) (rows : list (list Z)) :
  rect n rows -> (i < n)%nat ->
  flat_map (fun row => firstn 1 (skipn i row)) rows = map (fun row => nth i row 0) rows.
Proof.
  induction 1 as [|row rows Hr _ IH]; intros Hi; [reflexivity|].
  cbn [flat_map map]. rewrite (firstn_one_skipn 0) by lia. rewrite IH by exact Hi.
  reflexivity.
Qed.

Lemma mapM_ok {A B : Type} (f : A -> result B) (g : A -> B) (l : list A) :
  (forall x, In x l -> f x = Ok (g x)) -> mapM f l = Ok (map g l).
Proof.
  induction l as [|x l IH]; intros H; [reflexivity|].
  cbn [mapM map]. rewrite (H x (or_introl eq_refl)). cbn [bind].
  rewrite IH by (intros y Hy; apply H; right; exact Hy). reflexivity.
Qed.

Lemma broadcast_vector (fd : field) (t : int_dtype) (v : list Z) :
  f_repeat fd = None ->
  broadcast_field fd (List.length v) (IVec t v) = Ok (map (fun z => [SInt z]) v).
Proof.
  intros Hr. unfold broadcast_field. rewrite Hr. cbn [np_rows].
  unfold broadcast_row. rewrite length_map, Nat.eqb_refl. cbn [bind].
  rewrite map_map. reflexivity.
Qed.

Lemma combine_repeat {A B : Type} (x : A) (l : list B) :
  combine (repeat x (List.length l)) l = map (pair x) l.
Proof. induction l as [|y l IH]; cbn; [reflexivity|]. rewrite IH. reflexivity. Qed.

Lemma chunks_concat {A : Type} (size : nat) (items : list (list A)) (rest : list A) :
  Forall (fun it => List.length it = size) items ->
  chunks (List.length items) size (List.concat items ++ rest)%list = items /\
  skipn (List.length items * size) (List.concat items ++ rest)%list = rest.
Proof.
  induction 1 as [|it items Hit _ [IH1 IH2]]; [split; reflexivity|].
  cbn [List.length chunks List.concat Nat.mul]. rewrite <- app_assoc.
  assert (F : firstn size (it ++ List.concat items ++ rest)%list = it).
  { rewrite <- Hit. rewrite firstn_app, Nat.sub_diag, firstn_all, firstn_O.
    apply app_nil_r. }
  assert (S : skipn size (it ++ List.concat items ++ rest)%list =
              (List.concat items ++ rest)%list).
  { rewrite <- Hit. rewrite skipn_app, Nat.sub_diag, skipn_all. reflexivity. }
  split.
  - rewrite F, S, IH1. reflexivity.
  - rewrite Nat.add_comm, <- skipn_skipn, S. exact IH2.
Qed.

Lemma concat_length_rect {A : Type} (size : nat) (items : list (list A)) :
  Forall (fun it => List.length it = size) items ->
  List.length (List.concat items) = (List.length items * size)%nat.
Proof.
  induction 1 as [|it items Hit _ IH]; [reflexivity|].
  cbn [List.concat List.length Nat.mul]. rewrite length_app, Hit, IH. reflexivity.
Qed.

Lemma concat_map_concat {A B : Type} (f : A -> list B) (ls : list (list A)) :
  List.concat (map (fun l => List.concat (map f l)) ls) =
  List.concat (map f (List.concat ls)).
Proof.
  induction ls as [|l ls IH]; [reflexivity|].
  cbn [map List.concat]. rewrite map_app, concat_app, IH. reflexivity.
Qed.

Lemma map_fst_combine {A B C : Type} (F : A -> C) : forall (l1 : list A) (l2 : list B),
  List.length l1 = List.length l2 ->
  map (fun p => F (fst p)) (combine l1 l2) = map F l1.
Proof.
  induction l1 as [|x l1 IH]; intros [|y l2] H; cbn in *; try lia; [reflexivity|].
  rewrite IH by lia. reflexivity.
Qed.

Lemma nth_map_in {A B : Type} (f : A -> B) (l : list A) (i : nat) (d : B) (d' : A) :
  (i < List.length l)%nat -> nth i (map f l) d = f (nth i l d').
Proof.
  intros H. rewrite (nth_indep (map f l) d (f d')) by (rewrite length_map; exact H).
  apply map_nth.
Qed.

Lemma firstn_repeat_le {A : Type} (x : A) : forall n m : nat,
  (n <= m)%nat -> firstn n (repeat x m) = repeat x n.
Proof.
  induction n as [|n IH]; intros [|m] H; cbn [firstn repeat]; try lia; try reflexivity.
  f_equal. apply IH. lia.
Qed.

Section CellRecords.

Variable native : byteorder.
Variable fd : field.
Hypothesis fd_int : f_kind fd = KInt.
Hypothesis fd_plain : f_repeat fd = None.

Lemma encode_field_ints (zs : list Z) :
  encode_field native fd (map SInt zs) =
  List.concat (map (encode_unsigned (order_of native fd) (f_size fd)) zs).
Proof.
  unfold encode_field. rewrite flat_map_concat_map, map_map. f_equal.
  apply map_ext. intros z. unfold encode_scalar. rewrite fd_int. reflexivity.
Qed.

(** The columns that the loop over [dtype.names[:-1]] assigns. *)
Lemma cell_columns (n : nat) (t : int_dtype) (rows : list (list Z)) :
  rect n rows ->
  mapM (fun '(i, fd') =>
          col <- np_column (IMat t n rows) i ;;
          broadcast_field fd' (List.length rows) (np_add col 1))
       (enumerate (repeat fd n)) =
  Ok (map (fun j => map (fun row => [SInt (wrap_int t (nth j row 0 + 1))]) rows)
          (seq 0 n)).
Proof.
  intros Hrect.
  rewrite (mapM_ok _ (fun p : nat * field =>
                        map (fun row => [SInt (wrap_int t (nth (fst p) row 0 + 1))]) rows)).
  - unfold enumerate. rewrite repeat_length.
    rewrite (map_fst_combine
               (fun j => map (fun row => [SInt (wrap_int t (nth j row 0 + 1))]) rows))
      by (rewrite length_seq, repeat_length; reflexivity).
    reflexivity.
  - intros [i fd'] Hin. unfold enumerate in Hin. rewrite repeat_length in Hin.
    pose proof (in_combine_l _ _ _ _ Hin) as Hi. apply in_seq in Hi.
    pose proof (in_combine_r _ _ _ _ Hin) as Hf. apply repeat_spec in Hf. subst fd'.
    cbn [np_column fst].
    destruct (Nat.ltb_spec i n) as [_|C]; [|lia]. cbn [bind].
    rewrite (column_nth n i rows Hrect) by lia. cbn [np_add].
    rewrite map_map.
    replace (List.length rows)
      with (List.length (map (fun row => wrap_int t (nth i row 0 + 1)) rows))
      by apply length_map.
    rewrite (broadcast_vector fd t _ fd_plain). rewrite map_map. reflexivity.
Qed.

(** What [cell_block_bytes] writes: record by record, the nodes counted
    from one and the reference, each number in the bytes of the field. *)
Lemma cell_block_bytes_records (n : nat) (t t' : int_dtype) (rows : list (list Z))
    (labs : list Z) :
  rect n rows -> List.length labs = List.length rows ->
  cell_block_bytes native (Structured (repeat fd (S n))) (List.length rows)
    (IMat t n rows) (IVec t' labs) =
  Ok (List.concat
        (map (fun rec => List.concat
                           (map (encode_unsigned (order_of native fd) (f_size fd)) rec))
             (cell_records t rows labs))).
Proof.
  intros Hrect Hlabs. unfold cell_block_bytes.
  rewrite repeat_length. replace (S n - 1)%nat with n by lia.
  assert (Hfirst : firstn n (repeat fd (S n)) = repeat fd n)
    by (apply firstn_repeat_le; lia).
  rewrite Hfirst, (cell_columns n t rows Hrect). cbn [bind].
  rewrite nth_error_repeat by lia. cbn [of_option bind].
  rewrite <- Hlabs at 1. rewrite (broadcast_vector fd t' labs fd_plain). cbn [bind].
  apply f_equal. unfold record_bytes, cell_records.
  rewrite (map_map (fun i : nat =>
                      (map (fun z => wrap_int t (z + 1)) (nth i rows []) ++
                       [nth i labs 0])%list)).
  apply (f_equal (@List.concat byte)).
  apply map_ext_in. intros i Hi. apply in_seq in Hi.
  set (cols := map (fun j => map (fun row => [SInt (wrap_int t (nth j row 0 + 1))]) rows)
                   (seq 0 n)).
  set (vl := map (fun z => [SInt z]) labs).
  assert (Hlen : List.length (map Some cols ++ [Some vl])%list = S n).
  { rewrite length_app, length_map. unfold cols. rewrite length_map, length_seq.
    cbn. lia. }
  rewrite <- Hlen at 1. rewrite combine_repeat, map_map.
  rewrite map_app, concat_app, map_map. cbn [map List.concat]. rewrite app_nil_r.
  rewrite map_app, concat_app. cbn [map List.concat]. rewrite app_nil_r.
  f_equal.
  - unfold cols. rewrite map_map.
    assert (Hrow : List.length (nth i rows []) = n).
    { unfold rect in Hrect. rewrite Forall_forall in Hrect. apply Hrect, nth_In. lia. }
    rewrite <- (map_nth_seq 0 (nth i rows [])) at 1. rewrite Hrow, !map_map.
    apply (f_equal (@List.concat byte)). apply map_ext. intros j.
    rewrite (nth_map_in _ rows i [] []) by lia.
    change [SInt (wrap_int t (nth j (nth i rows []) 0 + 1))]
      with (map SInt [wrap_int t (nth j (nth i rows []) 0 + 1)]).
    rewrite encode_field_ints. cbn [map List.concat]. apply app_nil_r.
  - unfold vl. rewrite (nth_map_in _ labs i [] 0) by lia.
    change [SInt (nth i labs 0)] with (map SInt [nth i labs 0]).
    rewrite encode_field_ints. cbn [map List.concat]. apply app_nil_r.
Qed.

End CellRecords.

Lemma wrap_fits (size : nat) (z : Z) :
  (0 < size)%nat -> fits size z -> wrap_int {| signed := true; isize := size |} z = z.
Proof.
  unfold fits, wrap_int. cbn [signed isize]. intros Hs Hz.
  set (m := 2 ^ (8 * Z.of_nat size)).
  assert (Hm : m = 2 * 2 ^ (8 * Z.of_nat size - 1)).
  { unfold m. rewrite <- Z.pow_succ_r by lia. f_equal. lia. }
  assert (Hhalf : m / 2 = 2 ^ (8 * Z.of_nat size - 1)).
  { rewrite Hm, Z.mul_comm. apply Z.div_mul. lia. }
  rewrite Hhalf, Z.mod_small by lia. lia.
Qed.

(** Whole items at the head of a file are what [np.fromfile] takes. *)
Lemma np_fromfile_items (layout : string) (d : np_dtype_t) (items : list (list byte))
    (rest : list byte) :
  np_dtype layout = Ok d ->
  (0 < dtype_itemsize d)%nat ->
  Forall (fun it => List.length it = dtype_itemsize d) items ->
  np_fromfile (List.concat items ++ rest)%list (Z.of_nat (List.length items)) layout =
  Ok ({| ra_dtype := d; ra_items := items |}, rest).
Proof.
  intros Hd Hk Hit. unfold np_fromfile. rewrite Hd. cbn [bind].
  set (k := dtype_itemsize d) in *.
  destruct (Z.of_nat (List.length items) <? 0) eqn:E0; [apply Z.ltb_lt in E0; lia|].
  assert (Hav : (List.length items <= List.length (List.concat items ++ rest)%list / k)%nat).
  { apply Nat.div_le_lower_bound; [lia|].
    rewrite length_app, (concat_length_rect k items Hit). lia. }
  destruct (Z.of_nat _ <? Z.of_nat (List.length items)) eqn:E1;
    [apply Z.ltb_lt in E1; lia|].
  rewrite Nat2Z.id.
  destruct (chunks_concat k items rest Hit) as [C1 C2]. rewrite C1, C2. reflexivity.
Qed.

Section ReadRecords.

Variable native : byteorder.
Variable fd : field.
Hypothesis fd_size : (0 < f_size fd)%nat.

(** The bytes of records of integers, seen again as integers and cut
    into rows. *)
Lemma view_reshape_records (itype : string) (out : raw_array) (k : nat)
    (recs : list (list Z)) :
  np_dtype itype = Ok (Plain fd) ->
  List.concat (ra_items out) =
  List.concat (map (encode_unsigned (order_of native fd) (f_size fd)) (List.concat recs)) ->
  Forall (fun r => List.length r = k) recs ->
  Forall (Forall (fits (f_size fd))) recs ->
  view_reshape native out itype (Z.of_nat (List.length recs)) k =
  Ok (int_dtype_of fd, recs).
Proof.
  intros Hd Hbytes Hk Hfit. unfold view_reshape. rewrite Hd. cbn [bind]. cbv zeta.
  rewrite Hbytes.
  set (vals := List.concat recs).
  set (enc := encode_unsigned (order_of native fd) (f_size fd)).
  assert (Henc : Forall (fun it => List.length it = f_size fd) (map enc vals)).
  { apply Forall_map, Forall_forall. intros z _. apply encode_unsigned_length. }
  assert (Htotal : List.length (List.concat (map enc vals)) =
                   (List.length vals * f_size fd)%nat).
  { rewrite (concat_length_rect _ _ Henc), length_map. reflexivity. }
  rewrite Htotal, Nat.Div0.mod_mul, Nat.eqb_refl. cbn [negb].
  rewrite Nat.div_mul by lia.
  assert (Hchunks : chunks (List.length vals) (f_size fd) (List.concat (map enc vals)) =
                    map enc vals).
  { pose proof (proj1 (chunks_concat (f_size fd) (map enc vals) [] Henc)) as C.
    rewrite app_nil_r, length_map in C. exact C. }
  rewrite Hchunks, map_map.
  assert (Hvals : Forall (fits (f_size fd)) vals).
  { unfold vals. clear - Hfit. induction Hfit as [|r recs Hr _ IH]; [constructor|].
    cbn [List.concat]. apply Forall_app. split; assumption. }
  assert (Hdec : map (fun z => decode_int (order_of native fd) (enc z)) vals = vals).
  { rewrite <- (map_id vals) at 2. apply map_ext_in. intros z Hz.
    rewrite Forall_forall in Hvals. apply decode_int_encode; [exact fd_size|].
    apply Hvals, Hz. }
  rewrite Hdec.
  assert (Hlen : List.length vals = (List.length recs * k)%nat).
  { unfold vals. apply concat_length_rect, Hk. }
  destruct (Z.of_nat (List.length recs) =? -1) eqn:E1; [apply Z.eqb_eq in E1; lia|].
  destruct (Z.of_nat (List.length recs) <? 0) eqn:E2; [apply Z.ltb_lt in E2; lia|].
  destruct (Z.of_nat (List.length recs) * Z.of_nat k =? Z.of_nat (List.length vals)) eqn:E3;
    [|apply Z.eqb_neq in E3; lia].
  rewrite Nat2Z.id.
  pose proof (proj1 (chunks_concat k recs [] Hk)) as C. rewrite app_nil_r in C.
  fold vals in C. rewrite C. reflexivity.
Qed.

End ReadRecords.

Lemma cell_records_length (t : int_dtype) (rows : list (list Z)) (labs : list Z) :
  List.length (cell_records t rows labs) = List.length rows.
Proof. unfold cell_records. rewrite length_map, length_seq. reflexivity. Qed.

Lemma cell_records_rect (n : nat) (t : int_dtype) (rows : list (list Z)) (labs : list Z) :
  rect n rows -> Forall (fun r => List.length r = S n) (cell_records t rows labs).
Proof.
  intros Hrect. unfold cell_records. apply Forall_map, Forall_forall.
  intros i Hi. apply in_seq in Hi.
  rewrite length_app, length_map. cbn [List.length].
  unfold rect in Hrect. rewrite Forall_forall in Hrect.
  rewrite (Hrect (nth i rows [])) by (apply nth_In; lia). lia.
Qed.

Lemma itemsize_repeat (fd : field) (m : nat) :
  f_repeat fd = None ->
  dtype_itemsize (Structured (repeat fd m)) = (m * f_size fd)%nat.
Proof.
  intros Hr. unfold dtype_itemsize. cbn [dtype_fields].
  assert (Hs : field_size fd = f_size fd).
  { unfold field_size, field_count. rewrite Hr. lia. }
  induction m as [|m IH]; [reflexivity|].
  cbn [repeat fold_right]. rewrite IH, Hs. lia.
Qed.

(** X20. The records of a block of cells go through the file unchanged:
    what [write_binary_file] puts into the record array of a block (the
    columns of the data plus one, then the references) is what
    [read_binary_buffer] takes out of it again (the view as integers, in
    rows of one more than the number of nodes, minus one, and the last
    column as references), when the node indices and the references are
    values of the index type of the file. *)
Theorem cell_records_round_trip (native : byteorder) (fd : field)
    (layout itype : string) (n : nat) (t t' : int_dtype)
    (rows : list (list Z)) (labs : list Z) (rest : list byte) :
  f_kind fd = KInt -> f_repeat fd = None -> (0 < f_size fd)%nat ->
  np_dtype itype = Ok (Plain fd) ->
  np_dtype layout = Ok (Structured (repeat fd (S n))) ->
  rect n rows -> List.length labs = List.length rows ->
  Forall (Forall (fun z => wrap_int t (z + 1) = z + 1 /\
                           fits (f_size fd) z /\ fits (f_size fd) (z + 1))) rows ->
  Forall (fits (f_size fd)) labs ->
  exists bytes out rows',
    cell_block_bytes native (Structured (repeat fd (S n))) (List.length rows)
      (IMat t n rows) (IVec t' labs) = Ok bytes /\
    np_fromfile (bytes ++ rest)%list (Z.of_nat (List.length rows)) layout = Ok (out, rest) /\
    view_reshape native out itype (Z.of_nat (List.length rows)) (S n) =
    Ok (int_dtype_of fd, rows') /\
    np_add (IMat (int_dtype_of fd) n (map (firstn n) rows')) (-1) =
    IMat (int_dtype_of fd) n rows /\
    flat_map (fun r => skipn n r) rows' = labs.
Proof.
  intros Hk Hr Hs Hitype Hlayout Hrect Hlabs Hrows Hfit.
  set (enc := encode_unsigned (order_of native fd) (f_size fd)).
  set (recs := cell_records t rows labs).
  set (items := map (fun rec => List.concat (map enc rec)) recs).
  pose proof (cell_records_rect n t rows labs Hrect) as Hrecs. fold recs in Hrecs.
  pose proof (cell_records_length t rows labs) as Hnum. fold recs in Hnum.
  assert (Hrow : forall i, (i < List.length rows)%nat -> List.length (nth i rows []) = n).
  { intros i Hi. unfold rect in Hrect. rewrite Forall_forall in Hrect.
    apply Hrect, nth_In, Hi. }
  exists (List.concat items), {| ra_dtype := Structured (repeat fd (S n)); ra_items := items |},
         recs.
  split; [apply (cell_block_bytes_records native fd Hk Hr n t t' rows labs Hrect Hlabs)|].
  split.
  { replace (List.length rows) with (List.length items)
      by (unfold items; rewrite length_map; exact Hnum).
    apply np_fromfile_items; [exact Hlayout| |].
    - rewrite (itemsize_repeat fd (S n) Hr). lia.
    - rewrite (itemsize_repeat fd (S n) Hr). unfold items.
      apply Forall_map. eapply Forall_impl; [|exact Hrecs]. cbn beta. intros rec Hrec.
      rewrite (concat_length_rect (f_size fd)), length_map, Hrec; [reflexivity|].
      apply Forall_map, Forall_forall. intros z _. apply encode_unsigned_length. }
  split.
  { rewrite <- Hnum.
    apply (view_reshape_records native fd Hs itype _ (S n) recs Hitype); [|exact Hrecs|].
    - cbn [ra_items]. unfold items. apply concat_map_concat.
    - unfold recs, cell_records. apply Forall_map, Forall_forall.
      intros i Hi. apply in_seq in Hi.
      assert (Hi' : (i < List.length rows)%nat) by lia. apply Forall_app. split.
      + apply Forall_map.
        rewrite Forall_forall in Hrows.
        specialize (Hrows (nth i rows []) (nth_In rows [] Hi')).
        eapply Forall_impl; [|exact Hrows]. cbn beta. intros z (E & _ & F). rewrite E.
        exact F.
      + constructor; [|constructor]. rewrite Forall_forall in Hfit.
        apply Hfit, nth_In. lia. }
  split.
  - cbn [np_add]. f_equal. unfold recs, cell_records. rewrite !map_map.
    rewrite <- (map_nth_seq [] rows) at 2. apply map_ext_in. intros i Hi.
    apply in_seq in Hi. assert (Hi' : (i < List.length rows)%nat) by lia.
    rewrite firstn_app, length_map, (Hrow i) by lia.
    rewrite Nat.sub_diag, firstn_O, app_nil_r.
    rewrite <- (Hrow i) at 1 by lia. rewrite <- (length_map (fun z => wrap_int t (z + 1))).
    rewrite firstn_all, map_map.
    rewrite <- (map_id (nth i rows [])) at 2. apply map_ext_in. intros z Hz.
    rewrite Forall_forall in Hrows.
    specialize (Hrows (nth i rows []) (nth_In rows [] Hi')).
    rewrite Forall_forall in Hrows. destruct (Hrows z Hz) as (E & F & _).
    rewrite E. replace (z + 1 + -1) with z by lia.
    apply (wrap_fits (f_size fd) z Hs F).
  - unfold recs, cell_records. rewrite flat_map_concat_map, map_map.
    assert (E : map (fun i => skipn n (map (fun z => wrap_int t (z + 1)) (nth i rows []) ++
                                       [nth i labs 0])%list) (seq 0 (List.length rows)) =
                map (fun i => [nth i labs 0]) (seq 0 (List.length rows))).
    { apply map_ext_in. intros i Hi. apply in_seq in Hi.
      rewrite skipn_app, length_map, (Hrow i) by lia.
      rewrite Nat.sub_diag. cbn [skipn].
      rewrite skipn_all2 by (rewrite length_map, (Hrow i) by lia; lia).
      reflexivity. }
    rewrite E, <- Hlabs.
    rewrite <- (map_map (fun i => nth i labs 0) (fun z => [z])), map_nth_seq.
    clear. induction labs as [|x l IH]; [reflexivity|].
    cbn [map List.concat app]. rewrite IH. reflexivity.
Qed.

(** One triangle with the reference 5, in a file of 4-byte indices. *)
Lemma cell_records_round_trip_witness :
  exists bytes out rows',
    cell_block_bytes LittleEndian (Structured (repeat (plain_field KInt 4) 4)) 1
      (IMat int64 3 [[0; 1; 2]]) (IVec int64 [5]) = Ok bytes /\
    np_fromfile (bytes ++ [])%list 1 "i4,i4,i4,i4" = Ok (out, []) /\
    view_reshape LittleEndian out "i4" 1 4 = Ok (int32, rows') /\
    np_add (IMat int32 3 (map (firstn 3) rows')) (-1) = IMat int32 3 [[0; 1; 2]] /\
    flat_map (fun r => skipn 3 r) rows' = [5].
Proof.
  refine (cell_records_round_trip LittleEndian (plain_field KInt 4) "i4,i4,i4,i4" "i4"
            3 int64 int64 [[0; 1; 2]] [5] [] eq_refl eq_refl _ eq_refl eq_refl _ eq_refl _ _).
  - cbn. lia.
  - repeat constructor.
  - repeat constructor; vm_compute; intros H; discriminate H.
  - repeat constructor; vm_compute; intros H; discriminate H.
Defined.

(* ===================================================================== *)
(** * The records of the vertices, written and read *)
(* ===================================================================== *)

(** The bit pattern of a binary64 value has 64 bits. *)
Lemma bits_range (x : spec_float) :
  valid_float64 x -> 0 <= bits_of_float 8 x < 2 ^ 64.
Proof.
  unfold bits_of_float.
  change (float_prec 8) with 53. change (float_emax 8) with 1024.
  change (8 * Z.of_nat 8) with 64. change (emin 53 1024) with (-1074).
  change (53 - 1) with 52. change (64 - 53) with 11. change (64 - 1) with 63.
  change (52 - 1) with 51.
  destruct x as [s|s| |s m e]; cbn [valid_float64]; intros H.
  - destruct s; lia.
  - destruct s; lia.
  - lia.
  - destruct (2 ^ 52 <=? Z.pos m) eqn:E.
    + apply Z.leb_le in E. destruct H as [[H1 H2]|[H1 H2]]; [|lia].
      destruct s; nia.
    + apply Z.leb_gt in E. destruct s; lia.
Qed.

Lemma testbit63 (s : bool) (r : Z) :
  0 <= r < 2 ^ 63 -> Z.testbit ((if s then 2 ^ 63 else 0) + r) 63 = s.
Proof.
  intros Hr. rewrite Z.testbit_eqb by lia.
  destruct s.
  - replace ((2 ^ 63 + r) / 2 ^ 63) with 1; [reflexivity|].
    apply Z.div_unique with (r := r); lia.
  - rewrite Z.add_0_l, Z.div_small by lia. reflexivity.
Qed.

(** The bit pattern of a binary64 value denotes that value. *)
Lemma float_bits_round_trip (x : spec_float) :
  valid_float64 x -> float_of_bits 8 (bits_of_float 8 x) = x.
Proof.
  unfold bits_of_float, float_of_bits.
  change (float_prec 8) with 53. change (float_emax 8) with 1024.
  change (8 * Z.of_nat 8) with 64. change (emin 53 1024) with (-1074).
  change (53 - 1) with 52. change (64 - 53) with 11. change (64 - 1) with 63.
  change (52 - 1) with 51. cbv zeta.
  assert (D : forall (s : bool) (E r : Z), 0 <= E < 2 ^ 11 -> 0 <= r < 2 ^ 52 ->
              let bits := (if s then 2 ^ 63 else 0) + E * 2 ^ 52 + r in
              Z.testbit bits 63 = s /\ (bits / 2 ^ 52) mod 2 ^ 11 = E /\
              bits mod 2 ^ 52 = r).
  { intros s E r HE Hr bits. unfold bits. split; [|split].
    - rewrite <- Z.add_assoc. apply testbit63. nia.
    - replace ((if s then 2 ^ 63 else 0) + E * 2 ^ 52 + r)
        with (r + ((if s then 2 ^ 11 else 0) + E) * 2 ^ 52) by (destruct s; lia).
      rewrite Z.div_add by lia. rewrite (Z.div_small r) by lia. rewrite Z.add_0_l.
      destruct s.
      + replace (2 ^ 11 + E) with (E + 1 * 2 ^ 11) by lia.
        rewrite Z.mod_add by lia. apply Z.mod_small. lia.
      + rewrite Z.add_0_l. apply Z.mod_small. lia.
    - replace ((if s then 2 ^ 63 else 0) + E * 2 ^ 52 + r)
        with (r + ((if s then 2 ^ 11 else 0) + E) * 2 ^ 52) by (destruct s; lia).
      rewrite Z.mod_add by lia. apply Z.mod_small. lia. }
  destruct x as [s|s| |s m e]; cbn [valid_float64]; intros H.
  - destruct (D s 0 0 ltac:(lia) ltac:(lia)) as (D1 & D2 & D3). cbv zeta in *.
    rewrite Z.mul_0_l, !Z.add_0_r in D1, D2, D3. rewrite D1, D2, D3. reflexivity.
  - destruct (D s (2 ^ 11 - 1) 0 ltac:(lia) ltac:(lia)) as (D1 & D2 & D3). cbv zeta in *.
    rewrite !Z.add_0_r in D1, D2, D3. rewrite D1, D2, D3. reflexivity.
  - destruct (D false (2 ^ 11 - 1) (2 ^ 51) ltac:(lia) ltac:(lia)) as (D1 & D2 & D3).
    cbv zeta in *. rewrite !Z.add_0_l in D1, D2, D3. rewrite D2, D3. reflexivity.
  - destruct (2 ^ 52 <=? Z.pos m) eqn:E.
    + apply Z.leb_le in E. destruct H as [[H1 H2]|[H1 H2]]; [|lia].
      destruct (D s (e - -1074 + 1) (Z.pos m - 2 ^ 52) ltac:(lia) ltac:(lia))
        as (D1 & D2 & D3). cbv zeta in *. rewrite D1, D2, D3.
      destruct (e - -1074 + 1 =? 0) eqn:E0; [apply Z.eqb_eq in E0; lia|].
      destruct (e - -1074 + 1 =? 2 ^ 11 - 1) eqn:E1; [apply Z.eqb_eq in E1; lia|].
      replace (Z.pos m - 2 ^ 52 + 2 ^ 52) with (Z.pos m) by lia.
      f_equal. lia.
    + apply Z.leb_gt in E. destruct H as [[H1 H2]|[H1 H2]]; [lia|]. subst e.
      destruct (D s 0 (Z.pos m) ltac:(lia) ltac:(lia)) as (D1 & D2 & D3). cbv zeta in *.
      rewrite Z.mul_0_l, Z.add_0_r in D1, D2, D3. rewrite D1, D2, D3. reflexivity.
Qed.

Lemma firstn_app_exact {A : Type} (a b : list A) (n : nat) :
  List.length a = n -> firstn n (a ++ b) = a.
Proof.
  intros <-. rewrite firstn_app, Nat.sub_diag, firstn_all, firstn_O. apply app_nil_r.
Qed.

Lemma skipn_app_exact {A : Type} (a b : list A) (n : nat) :
  List.length a = n -> skipn n (a ++ b) = b.
Proof. intros <-. rewrite skipn_app, Nat.sub_diag, skipn_all. reflexivity. Qed.

Lemma map_nth_seq_with {A B : Type} (g : A -> B) (d : A) (l : list A) :
  map (fun i => g (nth i l d)) (seq 0 (List.length l)) = map g l.
Proof.
  rewrite <- (map_map (fun i => nth i l d) g), map_nth_seq. reflexivity.
Qed.

Lemma concat_singletons {A : Type} (l : list A) :
  List.concat (map (fun x => [x]) l) = l.
Proof. induction l as [|x l IH]; [reflexivity|]. cbn. rewrite IH. reflexivity. Qed.

Section VertexRecords.

Variable native : byteorder.
Variables fd0 fd1 : field.
Variable dim : nat.
Hypothesis fd0_float : f_kind fd0 = KFloat.
Hypothesis fd0_repeat : f_repeat fd0 = Some dim.
Hypothesis fd0_size : f_size fd0 = 8%nat.
Hypothesis fd1_int : f_kind fd1 = KInt.
Hypothesis fd1_plain : f_repeat fd1 = None.
Hypothesis fd1_size : (0 < f_size fd1)%nat.

Lemma encode_field_floats (xs : list spec_float) :
  encode_field native fd0 (map SFloat xs) =
  List.concat (map (fun x => encode_unsigned (order_of native fd0) 8
                               (bits_of_float 8 (cast_float 8 x))) xs).
Proof.
  unfold encode_field. rewrite flat_map_concat_map, map_map.
  apply (f_equal (@List.concat byte)). apply map_ext. intros x.
  unfold encode_scalar. rewrite fd0_float, fd0_size. reflexivity.
Qed.

Lemma broadcast_matrix (t : float_dtype) (rows : list (list spec_float)) :
  rect dim rows ->
  broadcast_field fd0 (List.length rows) (FMat t dim rows) = Ok (map (map SFloat) rows).
Proof.
  intros Hrect. unfold broadcast_field. rewrite fd0_repeat. cbn [np_rows].
  rewrite (mapM_ok _ (fun r => r)).
  - rewrite map_id. cbn [bind]. rewrite length_map, Nat.eqb_refl. reflexivity.
  - intros r Hin. apply in_map_iff in Hin. destruct Hin as (row & <- & Hin).
    unfold broadcast_row. rewrite length_map.
    unfold rect in Hrect. rewrite Forall_forall in Hrect. rewrite (Hrect row Hin).
    rewrite Nat.eqb_refl. reflexivity.
Qed.

(** One record of the vertices: the coordinates as 8-byte floats, then
    the reference. *)
Lemma vertex_block_records (t : float_dtype) (t' : int_dtype)
    (rows : list (list spec_float)) (labs : list Z) :
  rect dim rows -> List.length labs = List.length rows ->
  vertex_block native (Structured [fd0; fd1]) (List.length rows)
    (FMat t dim rows) (IVec t' labs) =
  Ok (List.concat
        (map (fun i =>
                (List.concat
                   (map (fun x => encode_unsigned (order_of native fd0) 8
                                    (bits_of_float 8 (cast_float 8 x)))
                        (nth i rows [])) ++
                 encode_unsigned (order_of native fd1) (f_size fd1) (nth i labs 0))%list)
             (seq 0 (List.length rows)))).
Proof.
  intros Hrect Hlabs. unfold vertex_block. cbn [nth_error of_option bind].
  rewrite (broadcast_matrix t rows Hrect). cbn [bind].
  rewrite <- Hlabs at 1. rewrite (broadcast_vector fd1 t' labs fd1_plain). cbn [bind].
  apply f_equal. unfold record_bytes. cbn [List.length Nat.sub repeat combine].
  apply (f_equal (@List.concat byte)). apply map_ext_in. intros i Hi. apply in_seq in Hi.
  cbn [map List.concat]. rewrite app_nil_r.
  rewrite (nth_map_in _ rows i [] []) by lia.
  rewrite (nth_map_in _ labs i [] 0) by lia.
  rewrite encode_field_floats.
  change [SInt (nth i labs 0)] with (map SInt [nth i labs 0]).
  rewrite (encode_field_ints native fd1 fd1_int). cbn [map List.concat].
  rewrite app_nil_r. reflexivity.
Qed.

End VertexRecords.

(** X21. The records of the vertices go through the file unchanged: what
    [write_binary_file] puts into the record array of the vertices (the
    points in the field of [dim] floats of 8 bytes, the references in
    the integer field) is what [read_binary_buffer] takes out of the
    fields [f0] and [f1] again, the coordinates as the 8-byte floats that
    they were converted to and the references as they were, whatever the
    byte order of the two fields is. *)
Theorem vertex_records_round_trip (native : byteorder) (fd0 fd1 : field) (dim : nat)
    (layout : string) (t : float_dtype) (t' : int_dtype)
    (rows : list (list spec_float)) (labs : list Z) (rest : list byte) :
  f_kind fd0 = KFloat -> f_repeat fd0 = Some dim -> f_size fd0 = 8%nat ->
  f_kind fd1 = KInt -> f_repeat fd1 = None -> (0 < f_size fd1)%nat ->
  np_dtype layout = Ok (Structured [fd0; fd1]) ->
  rect dim rows -> List.length labs = List.length rows ->
  Forall (Forall (fun x => valid_float64 (cast_float 8 x))) rows ->
  Forall (fits (f_size fd1)) labs ->
  exists bytes out,
    vertex_block native (Structured [fd0; fd1]) (List.length rows)
      (FMat t dim rows) (IVec t' labs) = Ok bytes /\
    np_fromfile (bytes ++ rest)%list (Z.of_nat (List.length rows)) layout = Ok (out, rest) /\
    get_field native out 0 = Ok (FMat float64 dim (map (map (cast_float 8)) rows)) /\
    get_field native out 1 = Ok (IVec (int_dtype_of fd1) labs).
Proof.
  intros K0 R0 S0 K1 R1 S1 Hlayout Hrect Hlabs Hvalid Hfit.
  set (encf := fun x => encode_unsigned (order_of native fd0) 8
                          (bits_of_float 8 (cast_float 8 x))).
  set (enci := encode_unsigned (order_of native fd1) (f_size fd1)).
  set (item := fun i => (List.concat (map encf (nth i rows [])) ++
                         enci (nth i labs 0))%list).
  set (items := map item (seq 0 (List.length rows))).
  assert (Hrow : forall i, (i < List.length rows)%nat -> List.length (nth i rows []) = dim).
  { intros i Hi. unfold rect in Hrect. rewrite Forall_forall in Hrect.
    apply Hrect, nth_In, Hi. }
  assert (Hsize0 : field_size fd0 = (dim * 8)%nat).
  { unfold field_size, field_count. rewrite R0, S0. reflexivity. }
  assert (Hsize1 : field_size fd1 = f_size fd1).
  { unfold field_size, field_count. rewrite R1. lia. }
  assert (Hfloats : forall i, (i < List.length rows)%nat ->
            List.length (List.concat (map encf (nth i rows []))) = (dim * 8)%nat).
  { intros i Hi. rewrite (concat_length_rect 8), length_map, (Hrow i Hi); [reflexivity|].
    apply Forall_map, Forall_forall. intros x _. apply encode_unsigned_length. }
  assert (Hsize : dtype_itemsize (Structured [fd0; fd1]) = (dim * 8 + f_size fd1)%nat).
  { unfold dtype_itemsize. cbn [dtype_fields fold_right]. rewrite Hsize0, Hsize1. lia. }
  exists (List.concat items),
         {| ra_dtype := Structured [fd0; fd1]; ra_items := items |}.
  split; [apply (vertex_block_records native fd0 fd1 dim K0 R0 S0 K1 R1 S1 t t' rows labs
                   Hrect Hlabs)|].
  split.
  { replace (List.length rows) with (List.length items)
      by (unfold items; rewrite length_map, length_seq; reflexivity).
    apply np_fromfile_items; [exact Hlayout|rewrite Hsize; lia|].
    rewrite Hsize. unfold items. apply Forall_map, Forall_forall.
    intros i Hi. apply in_seq in Hi. unfold item.
    rewrite length_app, (Hfloats i) by lia. unfold enci.
    rewrite encode_unsigned_length. reflexivity. }
  split.
  - unfold get_field. cbn [ra_dtype ra_items nth_error]. cbv zeta.
    rewrite K0, R0, S0. apply f_equal. change {| fsize := 8 |} with float64.
    apply f_equal. unfold items. rewrite !map_map.
    rewrite <- (map_nth_seq_with (map (cast_float 8)) [] rows).
    apply map_ext_in. intros i Hi. apply in_seq in Hi.
    assert (Hi' : (i < List.length rows)%nat) by lia.
    cbn [field_bytes]. rewrite Hsize0. unfold item.
    rewrite (firstn_app_exact _ _ _ (Hfloats i Hi')).
    unfold decode_floats, field_count. rewrite R0, S0.
    assert (Henc : Forall (fun it => List.length it = 8%nat) (map encf (nth i rows []))).
    { apply Forall_map, Forall_forall. intros x _. apply encode_unsigned_length. }
    pose proof (proj1 (chunks_concat 8 (map encf (nth i rows [])) [] Henc)) as C.
    rewrite app_nil_r, length_map, (Hrow i Hi') in C. rewrite C.
    rewrite map_map. apply map_ext_in. intros x Hx.
    unfold decode_float, encf. rewrite encode_unsigned_length, decode_encode_unsigned.
    change (Z.of_nat 8 * 8) with 64.
    assert (Hv : valid_float64 (cast_float 8 x)).
    { rewrite Forall_forall in Hvalid.
      specialize (Hvalid (nth i rows []) (nth_In rows [] Hi')).
      rewrite Forall_forall in Hvalid. apply Hvalid, Hx. }
    rewrite Z.mod_small by (apply bits_range, Hv).
    apply float_bits_round_trip, Hv.
  - unfold get_field. cbn [ra_dtype ra_items nth_error]. cbv zeta.
    rewrite K1, R1. apply f_equal. apply f_equal.
    unfold items. rewrite map_map, flat_map_concat_map, map_map.
    rewrite <- (concat_singletons labs) at 1.
    rewrite <- (map_nth_seq_with (fun z => [z]) 0 labs), Hlabs.
    apply (f_equal (@List.concat Z)). apply map_ext_in. intros i Hi. apply in_seq in Hi.
    assert (Hi' : (i < List.length rows)%nat) by lia.
    cbn [field_bytes]. rewrite Hsize0, Hsize1. unfold item.
    rewrite (skipn_app_exact _ _ _ (Hfloats i Hi')).
    unfold enci. rewrite firstn_all2 by (rewrite encode_unsigned_length; lia).
    unfold decode_ints, field_count. rewrite R1.
    cbn [chunks map]. rewrite firstn_all2 by (rewrite encode_unsigned_length; lia).
    rewrite decode_int_encode; [reflexivity|exact S1|].
    rewrite Forall_forall in Hfit. apply Hfit, nth_In. lia.
Qed.

(** Two points of the plane with the references 1 and 2. *)
Lemma vertex_records_round_trip_witness :
  exists bytes out,
    vertex_block LittleEndian
      (Structured [ {| f_repeat := Some 2%nat; f_order := None; f_kind := KFloat;
                       f_size := 8 |}; plain_field KInt 4 ]) 2
      (FMat float32 2 [[S754_zero false; S754_zero true];
                       [S754_infinity false; S754_finite false 3 (-1)]])
      (IVec int64 [1; 2]) = Ok bytes /\
    np_fromfile (bytes ++ [])%list 2 "2f8,i4" = Ok (out, []) /\
    get_field LittleEndian out 0 =
    Ok (FMat float64 2
          (map (map (cast_float 8))
             [[S754_zero false; S754_zero true];
              [S754_infinity false; S754_finite false 3 (-1)]])) /\
    get_field LittleEndian out 1 = Ok (IVec int32 [1; 2]).
Proof.
  refine (vertex_records_round_trip LittleEndian
            {| f_repeat := Some 2%nat; f_order := None; f_kind := KFloat; f_size := 8 |}
            (plain_field KInt 4) 2 "2f8,i4"
            float32 int64
            [[S754_zero false; S754_zero true];
             [S754_infinity false; S754_finite false 3 (-1)]]
            [1; 2] [] eq_refl eq_refl eq_refl eq_refl eq_refl _
            eq_refl _ eq_refl _ _).
  - cbn. lia.
  - repeat constructor.
  - repeat first [apply Forall_nil | apply Forall_cons];
      match goal with
      | |- valid_float64 ?x => let v := eval vm_compute in x in change x with v
      end; cbn [valid_float64]; first [exact I | left; lia].
  - repeat first [apply Forall_nil | apply Forall_cons]; unfold fits; cbn; lia.
Defined.

(* ===================================================================== *)
(** * Lookups in the registry that fail *)
(* ===================================================================== *)

(** [np.fromfile] raises on a layout that is no dtype, and on nothing
    else. *)
Lemma np_fromfile_layout (f : list byte) (count : Z) (layout : string) :
  match np_dtype layout with
  | Raise e => np_fromfile f count layout = Raise e
  | Ok d =>
      exists out f',
        np_fromfile f count layout = Ok (out, f') /\ ra_dtype out = d /\
        (0 <= count -> (0 < dtype_itemsize d)%nat ->
         (Z.to_nat count * dtype_itemsize d <= List.length f)%nat ->
         f' = skipn (Z.to_nat count * dtype_itemsize d) f)
  end.
Proof.
  unfold np_fromfile. destruct (np_dtype layout) as [d|e]; [|reflexivity].
  cbn [bind]. destruct (count <? 0) eqn:Eneg.
  - eexists. eexists. split; [reflexivity|]. split; [reflexivity|].
    intros H. apply Z.ltb_lt in Eneg. lia.
  - destruct (Z.of_nat (List.length f / dtype_itemsize d) <? count) eqn:Eshort.
    + eexists. eexists. split; [reflexivity|]. split; [reflexivity|].
      intros H0 Hsize Hlen. exfalso. apply Z.ltb_lt in Eshort.
      assert (Z.to_nat count <= List.length f / dtype_itemsize d)%nat; [|lia].
      apply Nat.div_le_lower_bound; lia.
    + eexists. eexists. split; [reflexivity|]. split; [reflexivity|]. reflexivity.
Qed.

(** The position field of a block can always be read: its type is a
    dtype in every version and byte order. *)
Lemma np_fromfile_position (native : byteorder) (code version : Z) (f : list byte) :
  exists (pos : raw_array) (f2 : list byte),
    np_fromfile f 1 (postype (widths_of native code version)) = Ok (pos, f2).
Proof.
  pose proof (np_fromfile_layout f 1 (postype (widths_of native code version))) as H.
  assert (E : exists d, np_dtype (postype (widths_of native code version)) = Ok d).
  { unfold widths_of, key_type, order_prefix, swapped_order.
    destruct (code =? 16777216), native, (version =? 1), (version =? 2), (version =? 3);
      eexists; vm_compute; reflexivity. }
  destruct E as [d E]. rewrite E in H. destruct H as (pos & f2 & H & _).
  exists pos, f2. exact H.
Qed.

Section LookupFailures.

Variable medit_codes : Z -> option (string * string * string).
Variable native : byteorder.

(** C6 (amended). A failed lookup in the registry is handled in these
    ways.  On write, a block whose element type [DICT_MESHIO] does not
    hold is skipped with a warning by both writers: nothing is written
    for it and the call goes on.  On binary read, a keyword that
    [medit_codes] does not hold ends the read with [ReadError].  A
    keyword that [medit_codes] holds (other than [GmfEnd] and
    [GmfReserved], which the loop handles before any lookup) and that
    [DICT_GMFMEDIT] maps to no element type is looked up only after its
    record layout was built and its block read.  The position of the
    block is read; if the number of items cannot be read, the exception
    of that read ends the turn.  When the template has a letter other
    than [i], [r] and [d], the turn ends with
    [ReadError("Invalid string type")] and nothing is skipped.  When the
    template is made of these letters, the layout is built; if numpy
    takes it for a dtype, the block is read, the warning is given and
    the loop goes on behind the items read, which is behind the whole
    payload when the file holds it; if not, the exception of [np.dtype]
    ends the turn. *)
Theorem registry_lookup_failures :
  (forall (mesh : Mesh) (labels_key : option string) (k : nat) (b : CellBlock) (s : wstate),
     dict_get DICT_MESHIO (cb_type b) = None ->
     write_ascii_cell_block mesh labels_key (k, b) s =
     (warned s (skip_message (cb_type b)), Ok tt)) /\
  (forall (mesh : Mesh) (pr : profile) (dim : nat) (labels_key : option string) (pos : Z)
          (k : nat) (b b' : CellBlock) (s : wstate),
     nth_error (w_cells s) k = Some b ->
     dict_get DICT_MESHIO (cb_type b) = None ->
     write_binary_cell_block medit_codes native mesh pr dim labels_key pos (k, b') s =
     (warned s (skip_message (cb_type b)), Ok pos)) /\
  (forall (f f0 f1 : list byte) (dim : Z) (st : reader_state) (code version tag : Z),
     read_binary_header native f = Ok (widths_of native code version, dim, f0) ->
     binary_reaches medit_codes native (widths_of native code version) dim
       (f0, initial_state) (f1, st) ->
     (4 <= List.length f1)%nat ->
     next_keyword native code f1 = Ok tag ->
     medit_codes tag = None ->
     read_binary_buffer medit_codes native f = Raise (ReadError "Unsupported field")) /\
  (forall (f : list byte) (dim : Z) (st : reader_state)
          (code version tag : Z) (name count_flag template : string),
     let w := widths_of native code version in
     (4 <= List.length f)%nat ->
     next_keyword native code f = Ok tag ->
     medit_codes tag = Some (name, count_flag, template) ->
     name <> "GmfEnd" -> name <> "GmfReserved" ->
     dict_get DICT_GMFMEDIT name = None ->
     exists (pos : raw_array) (f2 : list byte),
       np_fromfile (skipn 4 f) 1 (postype w) = Ok (pos, f2) /\
       match (if String.eqb count_flag "i" then read_scalar native f2 (itype w)
              else Ok (1, f2)) with
       | Raise e => read_binary_block medit_codes native w dim f st = Raise e
       | Ok (nitems, f3) =>
           (string_forallb template_char template = false ->
            read_binary_block medit_codes native w dim f st =
            Raise (ReadError "Invalid string type")) /\
           (string_forallb template_char template = true ->
            exists layout,
              _produce_dtype dim (itype w) (ftype w) template = Ok layout /\
              (forall e, np_dtype layout = Raise e ->
                 read_binary_block medit_codes native w dim f st = Raise e) /\
              (forall d, np_dtype layout = Ok d ->
                 exists out f4,
                   np_fromfile f3 nitems layout = Ok (out, f4) /\
                   read_binary_block medit_codes native w dim f st =
                   Ok (Continue f4
                         (warn ("meshio doesn't know " ++ name ++ " type. Skipping.") st)) /\
                   (0 <= nitems -> (0 < dtype_itemsize d)%nat ->
                    (Z.to_nat nitems * dtype_itemsize d <= List.length f3)%nat ->
                    f4 = skipn (Z.to_nat nitems * dtype_itemsize d) f3)))
       end).
Proof.
  split; [|split; [|split]].
  - intros. apply write_ascii_unregistered. assumption.
  - intros. eapply write_binary_unregistered; eassumption.
  - intros f f0 f1 dim st code version tag Hh Hreach Hlen Htag Hnone.
    exact (proj2 (unknown_keyword_fatal medit_codes native f f0 f1 _ dim st code version tag
                    Hh eq_refl Hreach Hlen Htag Hnone)).
  - intros f dim st code version tag name count_flag template w
           Hlen Htag Hcode Hend Hres Hnone.
    destruct (np_fromfile_position native code version (skipn 4 f)) as (pos & f2 & Hpos).
    fold w in Hpos. exists pos, f2. split; [exact Hpos|].
    assert (Hturn : read_binary_block medit_codes native w dim f st =
                    ('(nitems, f3) <-
                       (if String.eqb count_flag "i" then read_scalar native f2 (itype w)
                        else Ok (1, f2)) ;;
                     layout <- _produce_dtype dim (itype w) (ftype w) template ;;
                     '(out, f4) <- np_fromfile f3 nitems layout ;;
                     Ok (Continue f4
                           (warn ("meshio doesn't know " ++ name ++ " type. Skipping.") st)))).
    { destruct (read_binary_block_keyword medit_codes native code version dim f st Hlen)
        as (tag' & Ht & E).
      rewrite Htag in Ht. injection Ht as <-. unfold w. rewrite E, Hcode. cbv zeta.
      pose proof Hend as Hend'. pose proof Hres as Hres'.
      apply String.eqb_neq in Hend', Hres'. rewrite Hend', Hres'.
      fold w. rewrite Hpos. cbn [bind].
      destruct (if String.eqb count_flag "i" then read_scalar native f2 (itype w)
                else Ok (1, f2)) as [[nitems f3]|e]; [|reflexivity].
      cbn [bind].
      destruct (_produce_dtype dim (itype w) (ftype w) template) as [layout|e];
        [|reflexivity].
      cbn [bind]. destruct (np_fromfile f3 nitems layout) as [[out f4]|e]; [|reflexivity].
      cbn [bind]. rewrite Hnone. reflexivity. }
    destruct (if String.eqb count_flag "i" then read_scalar native f2 (itype w)
              else Ok (1, f2)) as [[nitems f3]|e]; [|exact Hturn].
    cbn [bind] in Hturn.
    split.
    + intros Hbad. rewrite Hturn. unfold _produce_dtype.
      rewrite (produce_loop_invalid _ _ _ _ _ Hbad). reflexivity.
    + intros Hgood.
      destruct (produce_loop_ok dim (itype w) (ftype w) template "" Hgood) as [layout Hl].
      exists layout. split; [exact Hl|].
      pose proof (np_fromfile_layout f3 nitems layout) as Hread.
      split.
      * intros e He. rewrite He in Hread. rewrite Hturn. unfold _produce_dtype.
        rewrite Hl. cbn [bind]. rewrite Hread. reflexivity.
      * intros d Hd. rewrite Hd in Hread. destruct Hread as (out & f4 & Hr & _ & Hskip).
        exists out, f4. split; [exact Hr|]. split; [|exact Hskip].
        rewrite Hturn. unfold _produce_dtype. rewrite Hl. cbn [bind]. rewrite Hr.
        reflexivity.
Qed.

End LookupFailures.

(** The keyword of a solution field is in the table and has no element
    type, and the binary reader does not skip its block: the read ends
    with [ReadError("Invalid string type")]. *)
Lemma solution_field_refused :
  solution_codes 26 = Some ("GmfSolAtPyramids", "i", "sr") /\
  dict_get DICT_GMFMEDIT "GmfSolAtPyramids" = None /\
  read_binary_buffer solution_codes LittleEndian solution_file =
  Raise (ReadError "Invalid string type").
Proof. vm_compute. repeat split. Qed.

(* ===================================================================== *)
(** * The widths of a binary file that was written *)
(* ===================================================================== *)

(** ** The decimal digits of a number that is not negative *)



(** ** The fields of the records *)





(** ** The steps of the writer *)






Section WrittenWidths.

Variable medit_codes : Z -> option (string * string * string).
Variable native : byteorder.



End WrittenWidths.

